(** * cesium-map: anchored cones, flame/flow walls and their registry

    A shallow embedding of the effect-creation code of the repository
    (geometry.ts, RadarEmission.js and the fence modules) together with the
    properties stated for it.

    Numbers.  JavaScript numbers are modelled as real numbers ([R]): every
    arithmetic operation is exact, there is no rounding, no NaN and no
    infinity.  Millisecond timestamps ([Date.getTime()]) are integers ([Z]).
    [undefined] is the [None] of an [option].  The literals [0.0] and [1.0]
    of the sources are the numbers 0 and 1. *)

From Stdlib Require Import Reals Lra Lia ZArith List String.
From stdpp Require Import base option strings gmap.

Local Open Scope R_scope.

(** ** The rendering engine's vector algebra

    The rendering engine (CesiumJS) is a collaborator of the repository and
    is not part of its sources.  The definitions of this module follow the
    engine's published formulas for the functions the repository calls:
    component-wise vector algebra, quaternions, column-major 4x4 matrices,
    the WGS84 geodetic conversion and the east-north-up tangent frame. *)

Module Cesium.

Module CesiumMath.
Definition PI_OVER_TWO : R := PI / 2.
Definition RADIANS_PER_DEGREE : R := PI / 180.
Definition EPSILON14 : R := / 100000000000000.
Definition toRadians (degrees : R) : R := degrees * RADIANS_PER_DEGREE.

(** [equalsEpsilon left right eps]: the absolute-or-relative comparison,
    with the absolute epsilon defaulting to the relative one. *)
Definition equalsEpsilon (left right eps : R) : bool :=
  let absDiff := Rabs (left - right) in
  if Rle_dec absDiff eps then true
  else if Rle_dec absDiff (eps * Rmax (Rabs left) (Rabs right)) then true
  else false.

Definition sign (v : R) : R :=
  if Rlt_dec 0 v then 1 else if Rlt_dec v 0 then -1 else 0.
End CesiumMath.

Record Cartesian3 : Type := mkCartesian3 { x : R; y : R; z : R }.

Module Cartesian3.
Definition ZERO : Cartesian3 := mkCartesian3 0 0 0.
Definition UNIT_X : Cartesian3 := mkCartesian3 1 0 0.
Definition UNIT_Y : Cartesian3 := mkCartesian3 0 1 0.
Definition UNIT_Z : Cartesian3 := mkCartesian3 0 0 1.

Definition clone (c : Cartesian3) : Cartesian3 := mkCartesian3 (x c) (y c) (z c).
Definition add (l r : Cartesian3) : Cartesian3 :=
  mkCartesian3 (x l + x r) (y l + y r) (z l + z r).
Definition subtract (l r : Cartesian3) : Cartesian3 :=
  mkCartesian3 (x l - x r) (y l - y r) (z l - z r).
Definition multiplyByScalar (c : Cartesian3) (s : R) : Cartesian3 :=
  mkCartesian3 (x c * s) (y c * s) (z c * s).
Definition divideByScalar (c : Cartesian3) (s : R) : Cartesian3 :=
  mkCartesian3 (x c / s) (y c / s) (z c / s).
Definition multiplyComponents (l r : Cartesian3) : Cartesian3 :=
  mkCartesian3 (x l * x r) (y l * y r) (z l * z r).
Definition dot (l r : Cartesian3) : R := x l * x r + y l * y r + z l * z r.
Definition cross (l r : Cartesian3) : Cartesian3 :=
  mkCartesian3 (y l * z r - z l * y r) (z l * x r - x l * z r) (x l * y r - y l * x r).
Definition magnitudeSquared (c : Cartesian3) : R := x c * x c + y c * y c + z c * z c.
Definition magnitude (c : Cartesian3) : R := sqrt (magnitudeSquared c).
Definition normalize (c : Cartesian3) : Cartesian3 :=
  let m := magnitude c in mkCartesian3 (x c / m) (y c / m) (z c / m).
Definition distance (l r : Cartesian3) : R := magnitude (subtract l r).
Definition equalsEpsilon (l r : Cartesian3) (eps : R) : bool :=
  CesiumMath.equalsEpsilon (x l) (x r) eps
  && CesiumMath.equalsEpsilon (y l) (y r) eps
  && CesiumMath.equalsEpsilon (z l) (z r) eps.

(** The WGS84 ellipsoid: squared radii and their inverses. *)
Definition wgs84Radii : Cartesian3 := mkCartesian3 6378137 6378137 6356752.3142451793.
Definition wgs84RadiiSquared : Cartesian3 := multiplyComponents wgs84Radii wgs84Radii.
Definition wgs84OneOverRadiiSquared : Cartesian3 :=
  mkCartesian3 (/ x wgs84RadiiSquared) (/ y wgs84RadiiSquared) (/ z wgs84RadiiSquared).

Definition fromRadians (longitude latitude height : R) : Cartesian3 :=
  let cosLatitude := cos latitude in
  let n := normalize (mkCartesian3 (cosLatitude * cos longitude)
                                   (cosLatitude * sin longitude)
                                   (sin latitude)) in
  let k := multiplyComponents wgs84RadiiSquared n in
  let gamma := sqrt (dot n k) in
  add (divideByScalar k gamma) (multiplyByScalar n height).

Definition fromDegrees (longitude latitude height : R) : Cartesian3 :=
  fromRadians (CesiumMath.toRadians longitude) (CesiumMath.toRadians latitude) height.
End Cartesian3.

Record HeadingPitchRoll : Type := mkHPR { heading : R; pitch : R; roll : R }.

Record Quaternion : Type := mkQuaternion { qx : R; qy : R; qz : R; qw : R }.

(** Column-major 3x3 and 4x4 matrices, indexed as in the engine. *)
Record Matrix3 : Type := mkMatrix3 {
  n0 : R; n1 : R; n2 : R;
  n3 : R; n4 : R; n5 : R;
  n6 : R; n7 : R; n8 : R }.

Record Matrix4 : Type := mkMatrix4 {
  m0 : R; m1 : R; m2 : R; m3 : R;
  m4 : R; m5 : R; m6 : R; m7 : R;
  m8 : R; m9 : R; m10 : R; m11 : R;
  m12 : R; m13 : R; m14 : R; m15 : R }.

Module Quaternion.
Definition fromAxisAngle (axis : Cartesian3) (angle : R) : Quaternion :=
  let halfAngle := angle / 2 in
  let s := sin halfAngle in
  let a := Cartesian3.normalize axis in
  mkQuaternion (x a * s) (y a * s) (z a * s) (cos halfAngle).

Definition multiply (l r : Quaternion) : Quaternion :=
  mkQuaternion
    (qw l * qx r + qx l * qw r + qy l * qz r - qz l * qy r)
    (qw l * qy r - qx l * qz r + qy l * qw r + qz l * qx r)
    (qw l * qz r + qx l * qy r - qy l * qx r + qz l * qw r)
    (qw l * qw r - qx l * qx r - qy l * qy r - qz l * qz r).

Definition fromHeadingPitchRoll (hpr : HeadingPitchRoll) : Quaternion :=
  let rollQ := fromAxisAngle Cartesian3.UNIT_X (roll hpr) in
  let pitchQ := fromAxisAngle Cartesian3.UNIT_Y (- pitch hpr) in
  let result := multiply pitchQ rollQ in
  let headingQ := fromAxisAngle Cartesian3.UNIT_Z (- heading hpr) in
  multiply headingQ result.

(** Shepperd's method as the engine writes it: the branch with a positive
    trace, and otherwise the largest diagonal element picks the component
    computed first; that branch negates the vector part at the end. *)
Definition fromRotationMatrix (m : Matrix3) : Quaternion :=
  let m00 := n0 m in let m11 := n4 m in let m22 := n8 m in
  let trace := m00 + m11 + m22 in
  if Rlt_dec 0 trace then
    let root := sqrt (trace + 1) in
    let w := 0.5 * root in
    let root' := 0.5 / root in
    mkQuaternion ((n5 m - n7 m) * root') ((n6 m - n2 m) * root')
                 ((n1 m - n3 m) * root') w
  else if (if Rlt_dec m00 m22 then if Rlt_dec m11 m22 then true else false else false) then
    (* i = 2, j = 0, k = 1 *)
    let root := sqrt (m22 - m00 - m11 + 1) in
    let qi := 0.5 * root in
    let root' := 0.5 / root in
    let w := (n3 m - n1 m) * root' in
    let qj := (n2 m + n6 m) * root' in
    let qk := (n5 m + n7 m) * root' in
    mkQuaternion (- qj) (- qk) (- qi) w
  else if Rlt_dec m00 m11 then
    (* i = 1, j = 2, k = 0 *)
    let root := sqrt (m11 - m22 - m00 + 1) in
    let qi := 0.5 * root in
    let root' := 0.5 / root in
    let w := (n2 m - n6 m) * root' in
    let qj := (n7 m + n5 m) * root' in
    let qk := (n1 m + n3 m) * root' in
    mkQuaternion (- qk) (- qi) (- qj) w
  else
    (* i = 0, j = 1, k = 2 *)
    let root := sqrt (m00 - m11 - m22 + 1) in
    let qi := 0.5 * root in
    let root' := 0.5 / root in
    let w := (n7 m - n5 m) * root' in
    let qj := (n3 m + n1 m) * root' in
    let qk := (n6 m + n2 m) * root' in
    mkQuaternion (- qi) (- qj) (- qk) w.
End Quaternion.

Module Matrix3.
Definition fromQuaternion (q : Quaternion) : Matrix3 :=
  let x2 := qx q * qx q in let xy := qx q * qy q in let xz := qx q * qz q in
  let xw := qx q * qw q in let y2 := qy q * qy q in let yz := qy q * qz q in
  let yw := qy q * qw q in let z2 := qz q * qz q in let zw := qz q * qw q in
  let w2 := qw q * qw q in
  let m00 := x2 - y2 - z2 + w2 in let m01 := 2 * (xy - zw) in
  let m02 := 2 * (xz + yw) in
  let m10 := 2 * (xy + zw) in let m11 := - x2 + y2 - z2 + w2 in
  let m12 := 2 * (yz - xw) in
  let m20 := 2 * (xz - yw) in let m21 := 2 * (yz + xw) in
  let m22 := - x2 - y2 + z2 + w2 in
  mkMatrix3 m00 m10 m20 m01 m11 m21 m02 m12 m22.

Definition IDENTITY : Matrix3 := mkMatrix3 1 0 0 0 1 0 0 0 1.

Definition multiply (l r : Matrix3) : Matrix3 :=
  mkMatrix3
    (n0 l * n0 r + n3 l * n1 r + n6 l * n2 r)
    (n1 l * n0 r + n4 l * n1 r + n7 l * n2 r)
    (n2 l * n0 r + n5 l * n1 r + n8 l * n2 r)
    (n0 l * n3 r + n3 l * n4 r + n6 l * n5 r)
    (n1 l * n3 r + n4 l * n4 r + n7 l * n5 r)
    (n2 l * n3 r + n5 l * n4 r + n8 l * n5 r)
    (n0 l * n6 r + n3 l * n7 r + n6 l * n8 r)
    (n1 l * n6 r + n4 l * n7 r + n7 l * n8 r)
    (n2 l * n6 r + n5 l * n7 r + n8 l * n8 r).

Definition transpose (m : Matrix3) : Matrix3 :=
  mkMatrix3 (n0 m) (n3 m) (n6 m) (n1 m) (n4 m) (n7 m) (n2 m) (n5 m) (n8 m).
End Matrix3.

Module Matrix4.
Definition fromRotationTranslation (r : Matrix3) (t : Cartesian3) : Matrix4 :=
  mkMatrix4 (n0 r) (n1 r) (n2 r) 0
            (n3 r) (n4 r) (n5 r) 0
            (n6 r) (n7 r) (n8 r) 0
            (x t) (y t) (z t) 1.

Definition fromTranslation (t : Cartesian3) : Matrix4 :=
  mkMatrix4 1 0 0 0  0 1 0 0  0 0 1 0  (x t) (y t) (z t) 1.

Definition fromTranslationQuaternionRotationScale
    (t : Cartesian3) (q : Quaternion) (scale : Cartesian3) : Matrix4 :=
  let r := Matrix3.fromQuaternion q in
  mkMatrix4 (n0 r * x scale) (n1 r * x scale) (n2 r * x scale) 0
            (n3 r * y scale) (n4 r * y scale) (n5 r * y scale) 0
            (n6 r * z scale) (n7 r * z scale) (n8 r * z scale) 0
            (x t) (y t) (z t) 1.

Definition multiply (l r : Matrix4) : Matrix4 :=
  mkMatrix4
    (m0 l * m0 r + m4 l * m1 r + m8 l * m2 r + m12 l * m3 r)
    (m1 l * m0 r + m5 l * m1 r + m9 l * m2 r + m13 l * m3 r)
    (m2 l * m0 r + m6 l * m1 r + m10 l * m2 r + m14 l * m3 r)
    (m3 l * m0 r + m7 l * m1 r + m11 l * m2 r + m15 l * m3 r)
    (m0 l * m4 r + m4 l * m5 r + m8 l * m6 r + m12 l * m7 r)
    (m1 l * m4 r + m5 l * m5 r + m9 l * m6 r + m13 l * m7 r)
    (m2 l * m4 r + m6 l * m5 r + m10 l * m6 r + m14 l * m7 r)
    (m3 l * m4 r + m7 l * m5 r + m11 l * m6 r + m15 l * m7 r)
    (m0 l * m8 r + m4 l * m9 r + m8 l * m10 r + m12 l * m11 r)
    (m1 l * m8 r + m5 l * m9 r + m9 l * m10 r + m13 l * m11 r)
    (m2 l * m8 r + m6 l * m9 r + m10 l * m10 r + m14 l * m11 r)
    (m3 l * m8 r + m7 l * m9 r + m11 l * m10 r + m15 l * m11 r)
    (m0 l * m12 r + m4 l * m13 r + m8 l * m14 r + m12 l * m15 r)
    (m1 l * m12 r + m5 l * m13 r + m9 l * m14 r + m13 l * m15 r)
    (m2 l * m12 r + m6 l * m13 r + m10 l * m14 r + m14 l * m15 r)
    (m3 l * m12 r + m7 l * m13 r + m11 l * m14 r + m15 l * m15 r).

(** The matrix applied to a direction: the translation column is not used. *)
Definition multiplyByPointAsVector (m : Matrix4) (c : Cartesian3) : Cartesian3 :=
  mkCartesian3 (m0 m * x c + m4 m * y c + m8 m * z c)
               (m1 m * x c + m5 m * y c + m9 m * z c)
               (m2 m * x c + m6 m * y c + m10 m * z c).

Definition getMatrix3 (m : Matrix4) : Matrix3 :=
  mkMatrix3 (m0 m) (m1 m) (m2 m) (m4 m) (m5 m) (m6 m) (m8 m) (m9 m) (m10 m).
End Matrix4.

Module Ellipsoid.
(** The unit normal of the WGS84 ellipsoid through a Cartesian point; the
    engine returns [undefined] at the centre of the ellipsoid. *)
Definition geodeticSurfaceNormal (c : Cartesian3) : option Cartesian3 :=
  if Cartesian3.equalsEpsilon c Cartesian3.ZERO CesiumMath.EPSILON14 then None
  else Some (Cartesian3.normalize
               (Cartesian3.multiplyComponents c Cartesian3.wgs84OneOverRadiiSquared)).
End Ellipsoid.

Module Transforms.
(** The east-north-up frame at [origin], with the engine's two special
    cases: the centre of the ellipsoid and the poles. *)
Definition eastNorthUpToFixedFrame (origin : Cartesian3) : Matrix4 :=
  let frame (first second third : Cartesian3) :=
    mkMatrix4 (x first) (y first) (z first) 0
              (x second) (y second) (z second) 0
              (x third) (y third) (z third) 0
              (x origin) (y origin) (z origin) 1 in
  if Cartesian3.equalsEpsilon origin Cartesian3.ZERO CesiumMath.EPSILON14 then
    frame (mkCartesian3 0 1 0) (mkCartesian3 (-1) 0 0) (mkCartesian3 0 0 1)
  else if CesiumMath.equalsEpsilon (x origin) 0 CesiumMath.EPSILON14
          && CesiumMath.equalsEpsilon (y origin) 0 CesiumMath.EPSILON14 then
    let sign := CesiumMath.sign (z origin) in
    frame (mkCartesian3 0 1 0)
          (Cartesian3.multiplyByScalar (mkCartesian3 (-1) 0 0) sign)
          (Cartesian3.multiplyByScalar (mkCartesian3 0 0 1) sign)
  else
    let up := match Ellipsoid.geodeticSurfaceNormal origin with
              | Some n => n
              | None => Cartesian3.ZERO
              end in
    let east := Cartesian3.normalize (mkCartesian3 (- y origin) (x origin) 0) in
    let north := Cartesian3.cross up east in
    frame east north up.

Definition headingPitchRollToFixedFrame
    (origin : Cartesian3) (hpr : HeadingPitchRoll) : Matrix4 :=
  let hprQuaternion := Quaternion.fromHeadingPitchRoll hpr in
  let hprMatrix := Matrix4.fromTranslationQuaternionRotationScale
                     Cartesian3.ZERO hprQuaternion (mkCartesian3 1 1 1) in
  Matrix4.multiply (eastNorthUpToFixedFrame origin) hprMatrix.

Definition headingPitchRollQuaternion
    (origin : Cartesian3) (hpr : HeadingPitchRoll) : Quaternion :=
  let transform := headingPitchRollToFixedFrame origin hpr in
  Quaternion.fromRotationMatrix (Matrix4.getMatrix3 transform).
End Transforms.

End Cesium.

Import Cesium.

(** ** Host values shared by the creators *)

(** JavaScript's [a || b] on an optional number: [undefined] and [0] are
    falsy (the model has no NaN). *)
Definition or_number (v : option R) (d : R) : R :=
  match v with
  | Some r => if Req_dec_T r 0 then d else r
  | None => d
  end.

(** [a || b] on an optional string: [undefined] and the empty string are falsy. *)
Definition or_string (v : option string) (d : string) : string :=
  match v with
  | Some s => if decide (s = EmptyString) then d else s
  | None => d
  end.

Inductive Error : Type :=
| DeveloperError   (* an argument check of the engine *)
| TypeError        (* a property read on [undefined] *)
| RuntimeError.    (* any other fault of the engine, e.g. shader compilation *)

(** The completion of a JavaScript call: a value, or a thrown exception. *)
Inductive Completion (A : Type) : Type :=
| Normal (a : A)
| Throw (e : Error).
Arguments Normal {A} a.
Arguments Throw {A} e.

Record Color : Type := mkColor { red : R; green : R; blue : R; alpha : R }.

Module Color.
Definition RED : Color := mkColor 1 0 0 1.
Definition WHITE : Color := mkColor 1 1 1 1.
Definition withAlpha (c : Color) (a : R) : Color := mkColor (red c) (green c) (blue c) a.
End Color.

(** The uniform snapshot a radar material hands to the shader. *)
Record Uniforms : Type := mkUniforms {
  u_color : Color; u_time : R; u_repeat : R; u_offset : R; u_thickness : R }.

(** An entity with a cylinder graphic, as passed to [entities.add]; [Mat] is
    the class of its material property. *)
Record CylinderGraphics (Mat : Type) : Type := mkCylinder {
  cyl_length : R; cyl_topRadius : R; cyl_bottomRadius : R; cyl_material : Mat }.
Arguments mkCylinder {Mat}.
Arguments cyl_length {Mat}.
Arguments cyl_topRadius {Mat}.
Arguments cyl_bottomRadius {Mat}.
Arguments cyl_material {Mat}.

(** The point graphics of an entity.  The engine's [PointGraphics] has no
    position: a point is drawn at the position of its entity. *)
Record PointGraphics : Type := mkPoint {
  pixelSize : R; point_color : Color; outlineColor : Color; outlineWidth : R }.

(** A [point] literal as [createRadarCone] writes it, with a [position]
    that [new PointGraphics(options)] does not read. *)
Record PointOptions : Type := mkPointOptions {
  po_pixelSize : R; po_color : Color; po_outlineColor : Color; po_outlineWidth : R;
  po_position : Cartesian3 }.

Definition new_PointGraphics (options : PointOptions) : PointGraphics :=
  mkPoint (po_pixelSize options) (po_color options) (po_outlineColor options)
          (po_outlineWidth options).

Record Entity (Mat : Type) : Type := mkEntity {
  ent_name : string; ent_position : Cartesian3; ent_orientation : Quaternion;
  ent_cylinder : CylinderGraphics Mat; ent_point : option PointGraphics }.
Arguments mkEntity {Mat}.
Arguments ent_name {Mat}.
Arguments ent_position {Mat}.
Arguments ent_orientation {Mat}.
Arguments ent_cylinder {Mat}.
Arguments ent_point {Mat}.

(** *** The radar material property of geometry.ts

    The class declared inside [conicalWave]; its constructor is only ever
    given a colour and a thickness. *)
Module RadarPrimitiveMaterialProperty.
Record Opts : Type := mkOpts {
  color : Color; duration : Z; time : Z; repeat : R; offset : R; thickness : R }.
Record t : Type := mkProperty { opts : Opts; _color : Color }.

(** [new RadarPrimitiveMaterialProperty({ color, thickness })], with [now]
    the reading of [new Date().getTime()]. *)
Definition new (color : Color) (thickness : R) (now : Z) : t :=
  let o := mkOpts color 2000 now 30 0 thickness in
  mkProperty o (RadarPrimitiveMaterialProperty.color o).

Definition isConstant (self : t) : bool := false.
Definition getType (self : t) : string := "radarPrimitive".

(** [getValue(time, result)]; [now] is the reading of the wall clock
    taken inside the call.  [%] is the truncating remainder. *)
Definition getValue (self : t) (julian : R) (result : option Uniforms) (now : Z)
  : Uniforms :=
  mkUniforms (_color self)
             (IZR (Z.rem (now - time (opts self)) (duration (opts self)))
                / IZR (duration (opts self)) / 10)
             (repeat (opts self)) (offset (opts self)) (thickness (opts self)).
End RadarPrimitiveMaterialProperty.

(** *** Primitives, as built by the fence module *)

Record WallGeometry : Type := mkWall {
  wall_positions : list Cartesian3;
  minimumHeights : list R;
  maximumHeights : list R }.

Record CylinderGeometry : Type := mkCylinderGeometry {
  cg_length : R; cg_topRadius : R; cg_bottomRadius : R; slices : nat }.

Inductive Geometry : Type :=
| GWall (w : WallGeometry)
| GCylinder (c : CylinderGeometry).

(** The fabric of a material: its uniforms.  The shader source is a fixed
    text per creator and is identified by the constructor. *)
Inductive Fabric : Type :=
| FlameFabric (u_color : Color) (u_speed u_maxHeight u_time : R)
| FlowFabric (u_color : Color) (u_speed u_width : R)
| GlowFabric (color : Color).

(** The options of [new Cesium.Primitive]: one geometry instance and a
    material appearance. *)
Record PrimitiveOptions : Type := mkPrimitiveOptions {
  prim_geometry : Geometry;
  prim_modelMatrix : option Matrix4;
  prim_fabric : Fabric;
  prim_translucent : bool;
  prim_closed : option bool;
  prim_asynchronous : bool }.

(** A primitive is an object: [prim_ref] is its identity, taken from the
    allocation counter of the world. *)
Record Primitive : Type := mkPrimitive {
  prim_ref : nat;
  prim_options : PrimitiveOptions }.

Definition RadarEntity : Type := Entity RadarPrimitiveMaterialProperty.t.

(** A registry entry: what [setGraphicMap] is given. *)
Inductive Graphic : Type :=
| GEntity (e : RadarEntity)
| GPrimitive (p : Primitive).

(** The constructions of the engine that may fail for reasons the
    repository does not control.  An [Engine] says, for each such call,
    whether it throws, and parses CSS colour strings
    ([Color.fromCssColorString] is [undefined] on a string that is not a
    colour).  [NewPrimitive] stands for the construction of the geometry
    instance, of the material appearance and of the primitive.
    [new Cesium.Material] checks the fabric ([NewMaterial]), caches the
    material under its type and then builds its uniforms and shader
    ([BuildMaterial]); a fabric without a type is given an identifier the
    engine makes up, [createGuid].  [primitives.remove] throws, like
    [primitives.add], on a collection that has been destroyed. *)
Inductive EngineCall : Type :=
| NewWallGeometry (w : WallGeometry)
| NewCylinderGeometry (c : CylinderGeometry)
| CreateGeometry (c : CylinderGeometry)
| NewMaterial (f : Fabric)
| BuildMaterial (f : Fabric)
| NewPrimitive (o : PrimitiveOptions)
| PrimitivesAdd (p : Primitive)
| PrimitivesRemove (p : Primitive)
| EntitiesAdd (e : RadarEntity).

Record Engine : Type := mkEngine {
  fromCssColorString : string -> option Color;
  fault : EngineCall -> option Error;
  createGuid : list string -> string }.   (* given the types cached so far *)

(** ** The world: viewer, registry, console, clock *)

Inductive Message : Type :=
| ErrNoMap                                   (* error: the map instance does not exist *)
| LogExists (id : string)                    (* log: an effect with this id exists *)
| ErrFenceNeedsTwoPoints                     (* error: a fence needs at least two points *)
| LogFlameFence (count : nat) (maxHeight : R)  (* log: flame fence created *)
| ErrFlameFence (e : Error)                  (* error: flame fence creation failed *)
| LogFlowFence (count : nat)                 (* log: flowing fence created *)
| ErrFlowFence (e : Error)                   (* error: fence position conversion failed *)
| ErrConeNeedsPosition                       (* error: a cone needs [lng, lat, height] *)
| LogCone (position : list R) (height radius : R)  (* log: cone created *)
| ErrCone (e : Error).                       (* error: cone creation failed *)

Record Viewer : Type := mkViewer {
  entities : list RadarEntity;      (* map.entities *)
  primitives : list Primitive }.    (* map.scene.primitives *)

(** What a call can read and change.  [viewer] is what [mapStore.getMap()]
    returns, [graphicMap] the registry of [mapStore]. *)
Record World : Type := mkWorld {
  viewer : option Viewer;
  graphicMap : gmap string Graphic;
  radarPrimitiveType : option string;   (* Cesium.Material.radarPrimitiveType *)
  materialCache : list string;          (* types added to Material._materialCache *)
  console : list Message;
  clock : Z;                            (* what new Date().getTime() reads *)
  allocated : nat }.                    (* objects allocated so far *)

Definition set_viewer (v : option Viewer) (w : World) : World :=
  mkWorld v (graphicMap w) (radarPrimitiveType w) (materialCache w) (console w)
          (clock w) (allocated w).
Definition set_graphicMap (g : gmap string Graphic) (w : World) : World :=
  mkWorld (viewer w) g (radarPrimitiveType w) (materialCache w) (console w)
          (clock w) (allocated w).
Definition set_material (t : option string) (cache : list string) (w : World) : World :=
  mkWorld (viewer w) (graphicMap w) t cache (console w) (clock w) (allocated w).
Definition set_console (c : list Message) (w : World) : World :=
  mkWorld (viewer w) (graphicMap w) (radarPrimitiveType w) (materialCache w) c
          (clock w) (allocated w).
Definition set_allocated (n : nat) (w : World) : World :=
  mkWorld (viewer w) (graphicMap w) (radarPrimitiveType w) (materialCache w) (console w)
          (clock w) n.

(** State and exceptions: a call runs in a world and completes normally or
    abruptly; the effects made before a throw stay. *)
Definition M (A : Type) : Type := World -> Completion A * World.

Definition ret {A} (a : A) : M A := fun w => (Normal a, w).
Definition throw {A} (e : Error) : M A := fun w => (Throw e, w).
Definition bind {A B} (m : M A) (k : A -> M B) : M B :=
  fun w => match m w with
           | (Normal a, w') => k a w'
           | (Throw e, w') => (Throw e, w')
           end.
Definition try_catch {A} (body : M A) (handler : Error -> M A) : M A :=
  fun w => match body w with
           | (Normal a, w') => (Normal a, w')
           | (Throw e, w') => handler e w'
           end.

Notation "'do' x <- m ; k" := (bind m (fun x => k))
  (at level 10, x name, m at level 100, k at level 200).
Notation "m ;; k" := (bind m (fun _ => k))
  (at level 100, k at level 200, right associativity).

Definition lift {A} (c : Completion A) : M A := fun w => (c, w).

Definition console_log (m : Message) : M unit :=
  fun w => (Normal tt, set_console (console w ++ [m]) w).

(** Modelled from the spec: the store module [mapStore] is not among the
    sources; section 1 of the specification says its backing store is a
    simple dictionary and section 4.1 that it maps an effect identifier to
    its live handle.  [getMap] returns the viewer or [null], [getGraphicMap]
    looks an identifier up and [setGraphicMap] binds it. *)
Definition getMap : M (option Viewer) := fun w => (Normal (viewer w), w).

Definition getGraphicMap (id : string) : M (option Graphic) :=
  fun w => (Normal (graphicMap w !! id), w).

Definition setGraphicMap (id : string) (g : Graphic) : M unit :=
  fun w => (Normal tt, set_graphicMap (<[id := g]> (graphicMap w)) w).

(** [new Date().getTime()]. *)
Definition getTime : M Z := fun w => (Normal (clock w), w).

Definition update_viewer (f : Viewer -> Viewer) : M unit :=
  fun w => (Normal tt, set_viewer (f <$> viewer w) w).

(** [map.entities.add(entity)] and [map.scene.primitives.add(primitive)]. *)
Definition entities_add (engine : Engine) (e : RadarEntity) : M unit :=
  fun w => match fault engine (EntitiesAdd e) with
           | Some err => (Throw err, w)
           | None => update_viewer (fun v => mkViewer (entities v ++ [e]) (primitives v)) w
           end.
Definition primitives_add (engine : Engine) (p : Primitive) : M unit :=
  fun w => match fault engine (PrimitivesAdd p) with
           | Some err => (Throw err, w)
           | None => update_viewer (fun v => mkViewer (entities v) (primitives v ++ [p])) w
           end.
(** [map.scene.primitives.remove(primitive)]: drops that object, unless the
    engine faults. *)
Definition primitives_remove (engine : Engine) (p : Primitive) : M unit :=
  fun w => match fault engine (PrimitivesRemove p) with
           | Some err => (Throw err, w)
           | None =>
             update_viewer (fun v =>
               mkViewer (entities v)
                        (List.filter (fun q => negb (Nat.eqb (prim_ref q) (prim_ref p)))
                                     (primitives v))) w
           end.

(** [new Cesium.Primitive(options)]: a fresh object unless the engine faults. *)
Definition new_Primitive (engine : Engine) (o : PrimitiveOptions) : M Primitive :=
  fun w => match fault engine (NewPrimitive o) with
           | Some err => (Throw err, w)
           | None => (Normal (mkPrimitive (allocated w) o), set_allocated (S (allocated w)) w)
           end.

(** A constructor of the engine: the value unless the engine faults. *)
Definition construct {A} (engine : Engine) (call : EngineCall) (value : A) : M A :=
  match fault engine call with
  | Some err => throw err
  | None => ret value
  end.

(** [Material._materialCache.addMaterial(type, ...)] for a type that
    [getMaterial] does not find. *)
Definition cacheWith (type : string) (cache : list string) : list string :=
  if decide (type ∈ cache) then cache else cache ++ [type].

(** [new Cesium.Material({ fabric })] for a fabric without a type: the
    material is cached under a made-up type once the fabric has passed the
    engine's checks, before its uniforms and shader are built. *)
Definition new_Material (engine : Engine) (fabric : Fabric) : M Fabric :=
  fun w => match fault engine (NewMaterial fabric) with
           | Some err => (Throw err, w)
           | None =>
             let type := createGuid engine (materialCache w) in
             let w' := set_material (radarPrimitiveType w)
                                    (cacheWith type (materialCache w)) w in
             match fault engine (BuildMaterial fabric) with
             | Some err => (Throw err, w')
             | None => (Normal fabric, w')
             end
           end.

(** ** geometry.ts *)

Module Geometry.

Record Options : Type := mkOptions {
  id : string;
  positions : list R;        (* [lng, lat, height] *)
  heading : R;
  pitch : R;
  length : R;
  bottomRadius : R;
  thickness : R;
  color : option string }.

(** The pose computed by [conicalWave] once longitude, latitude and height
    have been read from [options.positions]; the definitions carry the names
    of the local constants of the function. *)
Section Pose.
Variables (lng lat height : R) (options : Options).

Definition vertexPosition : Cartesian3 := Cartesian3.fromDegrees lng lat height.
Definition hpr : HeadingPitchRoll :=
  mkHPR (CesiumMath.toRadians (heading options)) (CesiumMath.toRadians (pitch options)) 0.
Definition halfLength : R := length options / 2.
Definition direction : Cartesian3 := Cartesian3.UNIT_Z.
Definition transform : Matrix4 :=
  Transforms.headingPitchRollToFixedFrame vertexPosition hpr.
Definition worldDirection : Cartesian3 :=
  Cartesian3.normalize (Matrix4.multiplyByPointAsVector transform direction).
Definition offset : Cartesian3 := Cartesian3.multiplyByScalar worldDirection halfLength.
Definition cylinderCenter : Cartesian3 :=
  Cartesian3.subtract (Cartesian3.clone vertexPosition) offset.
Definition orientation : Quaternion :=
  Transforms.headingPitchRollQuaternion vertexPosition hpr.
End Pose.

Definition registerRadarMaterial : M unit :=
  fun w => match radarPrimitiveType w with
           | Some _ => (Normal tt, w)
           | None => (Normal tt,
                      set_material (Some "radarPrimitive"%string)
                                   (materialCache w ++ ["radarPrimitive"%string]) w)
           end.

Definition createRadarMaterialProperty (color : Color) (thickness : R)
  : M RadarPrimitiveMaterialProperty.t :=
  do now <- getTime;
  ret (RadarPrimitiveMaterialProperty.new color thickness now).

(** [conicalWave(options)]: the entity, or [null] ([None]).  There is no
    [try] in this function: an exception leaves it. *)
Definition conicalWave (engine : Engine) (options : Options) : M (option Graphic) :=
  do map <- getMap;
  match map with
  | None => console_log ErrNoMap ;; ret None
  | Some _ =>
    do existing <- getGraphicMap (id options);
    match existing with
    | Some _ => console_log (LogExists (id options)) ;; ret None
    | None =>
      registerRadarMaterial ;;
      (* const [lng, lat, height = 0] = options.positions; fromDegrees checks
         that longitude and latitude are numbers *)
      match positions options !! 0%nat, positions options !! 1%nat with
      | Some lng, Some lat =>
        let height := match positions options !! 2%nat with
                      | Some h => h
                      | None => 0
                      end in
        let cylinderCenter := cylinderCenter lng lat height options in
        let orientation := orientation lng lat height options in
        (* color.withAlpha on an unparsed colour string reads [undefined] *)
        match fromCssColorString engine (or_string (color options) "#00FFFF") with
        | None => throw TypeError
        | Some color =>
          do material <- createRadarMaterialProperty (Color.withAlpha color 0.7)
                                                     (thickness options);
          let entity :=
            mkEntity "Radar Cone" cylinderCenter orientation
                     (mkCylinder (length options) 0 (bottomRadius options) material) None in
          entities_add engine entity ;;
          setGraphicMap (id options) (GEntity entity) ;;
          ret (Some (GEntity entity))
        end
      | _, _ => throw DeveloperError
      end
    end
  end.

End Geometry.

(** ** RadarEmission.js, first version *)

Module RadarEmission.

(** The class [RadarPrimitiveMaterialProperty] of this file: the colour is
    held as a property ([undefined] or a constant), the period and the
    origin are copied out of the options. *)
Module RadarPrimitiveMaterialProperty.
Record Opts : Type := mkOpts {
  color : option Color; duration : Z; time : Z; repeat : R; offset : R; thickness : R }.
Record t : Type := mkProperty {
  opts : Opts; _color : option Color; this_duration : Z; _time : Z }.

(** [new RadarPrimitiveMaterialProperty({ color, thickness })]. *)
Definition new (color : option Color) (thickness : R) (now : Z) : t :=
  let o := mkOpts color 2000 now 30 0 thickness in
  mkProperty o (RadarPrimitiveMaterialProperty.color o)
             (RadarPrimitiveMaterialProperty.duration o)
             (RadarPrimitiveMaterialProperty.time o).

Definition isConstant (self : t) : bool := false.
Definition getType (self : t) : string := "radarPrimitive".

(** [Property.getValueOrClonedDefault(this._color, time, Color.WHITE, _)]. *)
Definition getValueOrClonedDefault (property : option Color) (valueDefault : Color) : Color :=
  match property with
  | Some c => c
  | None => valueDefault
  end.

Definition getValue (self : t) (julian : R) (result : option Uniforms) (now : Z)
  : Uniforms :=
  mkUniforms (getValueOrClonedDefault (_color self) Color.WHITE)
             (IZR (Z.rem (now - _time self) (this_duration self))
                / IZR (this_duration self) / 10)
             (repeat (opts self)) (offset (opts self)) (thickness (opts self)).
End RadarPrimitiveMaterialProperty.

Record Options : Type := mkOptions {
  position : list R;       (* longitude, latitude, height *)
  heading : R;
  color : option Color;    (* [undefined] when passed so *)
  length : R;
  bottomRadius : R;
  thickness : R;
  pitch : R }.

Definition CORAL : Color := mkColor 1 (127 / 255) (80 / 255) 1.

(** The defaults the constructor merges the caller's options over. *)
Definition defaults : Options :=
  mkOptions [114; 35; 0] 135 (Some CORAL) 500000 50000 0.1 0.

Definition RadarConeEntity : Type := Entity RadarPrimitiveMaterialProperty.t.

Record RadarEmission : Type := mkRadarEmission {
  viewer_entities : list RadarConeEntity;    (* this.viewer.entities *)
  options : Options;
  entity : option RadarConeEntity }.

Section Pose.
Variables (lng lat : R) (options : Options).

Definition vertexPosition : Cartesian3 := Cartesian3.fromDegrees lng lat 0.
Definition hpr : HeadingPitchRoll :=
  mkHPR (CesiumMath.toRadians (heading options)) (CesiumMath.toRadians (pitch options)) 0.
Definition halfLength : R := length options / 2.
Definition direction : Cartesian3 := Cartesian3.UNIT_Z.
Definition transform : Matrix4 :=
  Transforms.headingPitchRollToFixedFrame vertexPosition hpr.
Definition worldDirection : Cartesian3 :=
  Cartesian3.normalize (Matrix4.multiplyByPointAsVector transform direction).
Definition offset : Cartesian3 := Cartesian3.multiplyByScalar worldDirection halfLength.
Definition cylinderCenter : Cartesian3 :=
  Cartesian3.subtract (Cartesian3.clone vertexPosition) offset.
Definition orientation : Quaternion :=
  Transforms.headingPitchRollQuaternion vertexPosition hpr.
End Pose.

(** The entity handed to [viewer.entities.add], given a pose. *)
Definition radarCone (options : Options) (vertexPosition cylinderCenter : Cartesian3)
    (orientation : Quaternion) (now : Z) : RadarConeEntity :=
  mkEntity "Radar Cone" cylinderCenter orientation
           (mkCylinder (length options) 0 (bottomRadius options)
              (RadarPrimitiveMaterialProperty.new (color options)
                                                  (thickness options) now))
           (Some (new_PointGraphics
                    (mkPointOptions 10 Color.RED Color.WHITE 2 vertexPosition))).

(** [createRadarCone()]: [const [lng, lat, height] = this.options.position]
    binds a height that the function never reads.  The engine rejects a
    longitude or latitude that is not a number. *)
Definition createRadarCone (self : RadarEmission) (now : Z)
  : Completion (RadarConeEntity * RadarEmission) :=
  let o := options self in
  match position o !! 0%nat, position o !! 1%nat with
  | Some lng, Some lat =>
    let e := radarCone o (vertexPosition lng lat) (cylinderCenter lng lat o)
                       (orientation lng lat o) now in
    Normal (e, mkRadarEmission (viewer_entities self ++ [e]) o (Some e))
  | _, _ => Throw DeveloperError
  end.

End RadarEmission.

(** ** RadarEmission.js, second version

    It differs from the first in [createRadarCone] only: the pitch is
    negated, the local axis is the y axis, and the quaternion is taken at
    the shifted centre. *)

Module RadarEmission2.

Section Pose.
Variables (lng lat : R) (options : RadarEmission.Options).

Definition vertexPosition : Cartesian3 := Cartesian3.fromDegrees lng lat 0.
Definition heading : R := CesiumMath.toRadians (RadarEmission.heading options).
Definition originalPitch : R := CesiumMath.toRadians (RadarEmission.pitch options).
Definition pitch : R := - originalPitch.
Definition hpr : HeadingPitchRoll := mkHPR heading pitch 0.
Definition transform : Matrix4 :=
  Transforms.headingPitchRollToFixedFrame vertexPosition hpr.
Definition localAxis : Cartesian3 := mkCartesian3 0 1 0.
Definition worldAxis : Cartesian3 :=
  Cartesian3.normalize (Matrix4.multiplyByPointAsVector transform localAxis).
Definition halfLength : R := RadarEmission.length options / 2.
Definition cylinderCenter : Cartesian3 :=
  Cartesian3.subtract (Cartesian3.clone vertexPosition)
                      (Cartesian3.multiplyByScalar worldAxis halfLength).
Definition orientation : Quaternion :=
  Transforms.headingPitchRollQuaternion cylinderCenter hpr.
End Pose.

Definition createRadarCone (self : RadarEmission.RadarEmission) (now : Z)
  : Completion (RadarEmission.RadarConeEntity * RadarEmission.RadarEmission) :=
  let o := RadarEmission.options self in
  match RadarEmission.position o !! 0%nat, RadarEmission.position o !! 1%nat with
  | Some lng, Some lat =>
    let e := RadarEmission.radarCone o (vertexPosition lng lat) (cylinderCenter lng lat o)
                                     (orientation lng lat o) now in
    Normal (e, RadarEmission.mkRadarEmission
                 (RadarEmission.viewer_entities self ++ [e]) o (Some e))
  | _, _ => Throw DeveloperError
  end.

End RadarEmission2.

(** ** The fence module (flame wall and cone effect)

    [fenceFlowEffect] of this module is also the function of the third part
    of RadarEmission.js, which has the same text. *)

(** [Cartesian3.fromDegreesArrayHeights(coordinates)]: the engine wants a
    multiple of three numbers, at least three, and checks each longitude and
    latitude. *)
Fixpoint fromDegreesArrayHeights_loop (coordinates : list (option R))
  : Completion (list Cartesian3) :=
  match coordinates with
  | Some lng :: Some lat :: Some h :: rest =>
    match fromDegreesArrayHeights_loop rest with
    | Normal ps => Normal (Cartesian3.fromDegrees lng lat h :: ps)
    | Throw e => Throw e
    end
  | [] => Normal []
  | _ => Throw DeveloperError
  end.

Definition fromDegreesArrayHeights (coordinates : list (option R))
  : Completion (list Cartesian3) :=
  match coordinates with
  | [] => Throw DeveloperError
  | _ => fromDegreesArrayHeights_loop coordinates
  end.

(** [positions.map(pos => [pos[0], pos[1], pos[2] || 0])] and [.flat()]. *)
Definition coordinates_of (positions : list (list R)) : list (list (option R)) :=
  List.map (fun pos => [pos !! 0%nat; pos !! 1%nat; Some (or_number (pos !! 2%nat) 0)])
           positions.

Definition flat {A} (l : list (list A)) : list A := List.concat l.

(** [new Array(n).fill(v)]. *)
Definition fill (n : nat) (v : R) : list R := List.repeat v n.

Module Fence.

Record Options : Type := mkOptions {
  id : string;
  positions : option (list (list R));   (* [lng, lat, height][] *)
  color : option string;
  speed : option R;
  width : option R;
  maxHeight : option R }.

Definition fenceFlowEffect (engine : Engine) (options : Options) : M (option Graphic) :=
  do map <- getMap;
  match map with
  | None => console_log ErrNoMap ;; ret None
  | Some _ =>
    do existing <- getGraphicMap (id options);
    match existing with
    | Some _ => console_log (LogExists (id options)) ;; ret None
    | None =>
      match positions options with
      | None => console_log ErrFenceNeedsTwoPoints ;; ret None
      | Some positions =>
        if (List.length positions <? 2)%nat
        then console_log ErrFenceNeedsTwoPoints ;; ret None
        else
          let maxHeight := or_number (maxHeight options) 100 in
          let speed := or_number (speed options) 1 in
          try_catch
            (let coordinates := coordinates_of positions in
             let flattenedCoords := flat coordinates in
             do cartesians <- lift (fromDegreesArrayHeights flattenedCoords);
             let wall := mkWall cartesians
                                (fill (List.length coordinates) 0)
                                (fill (List.length coordinates) maxHeight) in
             do wallGeometry <- construct engine (NewWallGeometry wall) wall;
             match fromCssColorString engine (or_string (color options) "#FF6600") with
             | None => throw TypeError
             | Some c =>
               let fabric := FlameFabric (Color.withAlpha c 0.9) speed maxHeight 0 in
               do material <- new_Material engine fabric;
               do primitive <- new_Primitive engine
                                 (mkPrimitiveOptions (GWall wallGeometry) None material
                                                     true (Some false) false);
               primitives_add engine primitive ;;
               setGraphicMap (id options) (GPrimitive primitive) ;;
               console_log (LogFlameFence (List.length positions) maxHeight) ;;
               ret (Some (GPrimitive primitive))
             end)
            (fun error => console_log (ErrFlameFence error) ;; ret None)
      end
    end
  end.

Record ConeOptions : Type := mkConeOptions {
  cone_id : string;
  cone_positions : option (list R);   (* [lng, lat, height] *)
  cone_color : option string;
  height : option R;
  radius : option R;
  heading : option R;
  pitch : option R }.

(** The model matrix of [conicalEffect]: rotate about x, drop by half the
    height, apply heading and pitch, move to [center]. *)
Section ModelMatrix.
Variables (center : Cartesian3) (conicalHeight heading pitch : R).

Definition hprRotation : Quaternion :=
  Transforms.headingPitchRollQuaternion Cartesian3.ZERO (mkHPR heading pitch 0).
Definition rotateHPR : Matrix4 :=
  Matrix4.fromRotationTranslation (Matrix3.fromQuaternion hprRotation) Cartesian3.ZERO.
Definition rotateX : Matrix4 :=
  Matrix4.fromRotationTranslation
    (Matrix3.fromQuaternion
       (Quaternion.fromAxisAngle (mkCartesian3 1 0 0) CesiumMath.PI_OVER_TWO))
    Cartesian3.ZERO.
Definition translateUp : Matrix4 :=
  Matrix4.fromTranslation (mkCartesian3 0 0 (- conicalHeight / 2)).
Definition translateToGround : Matrix4 := Matrix4.fromTranslation center.
Definition modelMatrix : Matrix4 :=
  Matrix4.multiply translateToGround
    (Matrix4.multiply rotateHPR (Matrix4.multiply rotateX translateUp)).
End ModelMatrix.

Definition conicalEffect (engine : Engine) (options : ConeOptions) : M (option Graphic) :=
  do map <- getMap;
  match map with
  | None => console_log ErrNoMap ;; ret None
  | Some _ =>
    do existing <- getGraphicMap (cone_id options);
    match existing with
    | Some _ => console_log (LogExists (cone_id options)) ;; ret None
    | None =>
      match cone_positions options with
      | Some (lng :: lat :: h :: rest) =>
        try_catch
          (let conicalHeight := or_number (height options) 200 in
           let conicalRadius := or_number (radius options) 50 in
           let center := Cartesian3.fromDegrees lng lat h in
           let cyl := mkCylinderGeometry conicalHeight 0 conicalRadius 64 in
           do cylinderGeometry <- construct engine (NewCylinderGeometry cyl) cyl;
           let heading := or_number (heading options) 0 in
           let pitch := or_number (pitch options) 0 in
           let modelMatrix := modelMatrix center conicalHeight heading pitch in
           match fromCssColorString engine (or_string (cone_color options) "#00FFFF") with
           | None => throw TypeError
           | Some c =>
             let fabric := GlowFabric (Color.withAlpha c 0.2) in
             do material <- new_Material engine fabric;
             do created <- construct engine (CreateGeometry cylinderGeometry) cylinderGeometry;
             do primitive <- new_Primitive engine
                               (mkPrimitiveOptions (GCylinder created) (Some modelMatrix)
                                                   material true (Some true) false);
             primitives_add engine primitive ;;
             setGraphicMap (cone_id options) (GPrimitive primitive) ;;
             console_log (LogCone [lng; lat; h] conicalHeight conicalRadius) ;;
             ret (Some (GPrimitive primitive))
           end)
          (fun error => console_log (ErrCone error) ;; ret None)
      | _ => console_log ErrConeNeedsPosition ;; ret None
      end
    end
  end.

End Fence.

(** ** The fence module, flowing-light version *)

Module FenceFlow.

Record Options : Type := mkOptions {
  id : string;
  positions : option (list (list R));
  color : option string;
  speed : option R;
  width : option R }.

(** The catch clause; [primitive] is the local variable of that name,
    [null] until the primitive has been built. *)
Definition cleanup (engine : Engine) (primitive : option Primitive) (error : Error)
  : M (option Graphic) :=
  console_log (ErrFlowFence error) ;;
  match primitive with
  | Some p => primitives_remove engine p ;; ret None
  | None => ret None
  end.

(** The try block up to and including [primitive = new Cesium.Primitive(...)]. *)
Definition build (engine : Engine) (options : Options) (positions : list (list R))
  : M Primitive :=
  let coordinates := coordinates_of positions in
  let flattenedCoords := flat coordinates in
  do cartesians <- lift (fromDegreesArrayHeights flattenedCoords);
  let w := mkWall cartesians
                  (fill (List.length coordinates) 0)
                  (fill (List.length coordinates) 100) in
  do wall <- construct engine (NewWallGeometry w) w;
  match fromCssColorString engine (or_string (color options) "#00FFFF") with
  | None => throw TypeError
  | Some c =>
    let fabric := FlowFabric (Color.withAlpha c 0.8)
                             (or_number (speed options) 1)
                             (or_number (width options) 0.1) in
    do material <- new_Material engine fabric;
    new_Primitive engine (mkPrimitiveOptions (GWall wall) None material true None false)
  end.

(** The rest of the try block: add to the scene, store, log, return. *)
Definition publish (engine : Engine) (options : Options) (positions : list (list R))
    (primitive : Primitive) : M (option Graphic) :=
  primitives_add engine primitive ;;
  setGraphicMap (id options) (GPrimitive primitive) ;;
  console_log (LogFlowFence (List.length positions)) ;;
  ret (Some (GPrimitive primitive)).

Definition fenceFlowEffect (engine : Engine) (options : Options) : M (option Graphic) :=
  do map <- getMap;
  match map with
  | None => console_log ErrNoMap ;; ret None
  | Some _ =>
    do existing <- getGraphicMap (id options);
    match existing with
    | Some _ => console_log (LogExists (id options)) ;; ret None
    | None =>
      match positions options with
      | None => console_log ErrFenceNeedsTwoPoints ;; ret None
      | Some positions =>
        if (List.length positions <? 2)%nat
        then console_log ErrFenceNeedsTwoPoints ;; ret None
        else
          fun w =>
            match build engine options positions w with
            | (Throw error, w1) => cleanup engine None error w1
            | (Normal primitive, w1) =>
              try_catch (publish engine options positions primitive)
                        (cleanup engine (Some primitive)) w1
            end
      end
    end
  end.

End FenceFlow.

(** ** Notions used in the statements *)

(** *** Geometry *)

(** The unit vector of the geodetic direction (longitude, latitude). *)
Definition geodeticNormal (lon lat : R) : Cartesian3 :=
  mkCartesian3 (cos lat * cos lon) (cos lat * sin lon) (sin lat).

(** A point is on the WGS84 ellipsoid when it satisfies its equation. *)
Definition onEllipsoid (p : Cartesian3) : Prop :=
  Cartesian3.dot (Cartesian3.multiplyComponents p p) Cartesian3.wgs84OneOverRadiiSquared = 1.

(** The surface normal at a point of the plane y = 0. *)
Definition upAt (X Zc : R) : Cartesian3 :=
  Cartesian3.normalize
    (Cartesian3.multiplyComponents (mkCartesian3 X 0 Zc) Cartesian3.wgs84OneOverRadiiSquared).

(** The apex rebuilt from a pose: half the axial length forward from the
    centre along the direction [D]. *)
Definition apex (center D : Cartesian3) (axialLength : R) : Cartesian3 :=
  Cartesian3.add center (Cartesian3.multiplyByScalar D (axialLength / 2)).

(** [p] equals [q] within the relative tolerance [tol]. *)
Definition withinTolerance (tol : R) (p q : Cartesian3) : Prop :=
  Cartesian3.distance p q <= tol * Cartesian3.magnitude q.

(** The normalized phase of a material clock, in the words of the
    specification: [((now - originTime) mod periodMs) / periodMs]. *)
Definition normalizedPhase (now originTime periodMs : Z) : R :=
  IZR (Z.rem (now - originTime) periodMs) / IZR periodMs.

(** *** Outcomes of the creators *)

(** The height [conicalWave] reads from [options.positions]: the third
    element, or zero. *)
Definition heightOf (positions : list R) : R :=
  match positions !! 2%nat with
  | Some h => h
  | None => 0
  end.

(** The entity [conicalWave] builds from longitude, latitude and a colour. *)
Definition radarCone (o : Geometry.Options) (lng lat : R) (c : Color) (now : Z) : RadarEntity :=
  let h := heightOf (Geometry.positions o) in
  mkEntity "Radar Cone" (Geometry.cylinderCenter lng lat h o) (Geometry.orientation lng lat h o)
           (mkCylinder (Geometry.length o) 0 (Geometry.bottomRadius o)
              (RadarPrimitiveMaterialProperty.new (Color.withAlpha c 0.7)
                                                  (Geometry.thickness o) now))
           None.

(** The world after [conicalWave] has created the entity [e]. *)
Definition afterConicalWave (id : string) (e : RadarEntity) (v : Viewer) (w : World) : World :=
  mkWorld (Some (mkViewer (entities v ++ [e]) (primitives v)))
          (<[id := GEntity e]> (graphicMap w))
          (match radarPrimitiveType w with
           | Some t => Some t
           | None => Some "radarPrimitive"%string
           end)
          (match radarPrimitiveType w with
           | Some _ => materialCache w
           | None => materialCache w ++ ["radarPrimitive"%string]
           end)
          (console w) (clock w) (allocated w).

(** The primitive the flame fence builds from its vertices and colour. *)
Definition flamePrimitive (o : Fence.Options) (n : nat) (cs : list Cartesian3) (c : Color)
    (ref : nat) : Primitive :=
  let maxHeight := or_number (Fence.maxHeight o) 100 in
  let speed := or_number (Fence.speed o) 1 in
  mkPrimitive ref
    (mkPrimitiveOptions
       (GWall (mkWall cs (fill n 0) (fill n maxHeight))) None
       (FlameFabric (Color.withAlpha c 0.9) speed maxHeight 0)
       true (Some false) false).

(** The primitive the flowing fence builds. *)
Definition flowPrimitive (o : FenceFlow.Options) (n : nat) (cs : list Cartesian3) (c : Color)
    (ref : nat) : Primitive :=
  mkPrimitive ref
    (mkPrimitiveOptions
       (GWall (mkWall cs (fill n 0) (fill n 100))) None
       (FlowFabric (Color.withAlpha c 0.8) (or_number (FenceFlow.speed o) 1)
                   (or_number (FenceFlow.width o) 0.1))
       true None false).

(** The world after a fence creator has added and stored [p] and logged
    [msg]; the engine has cached the material of [p] under a made-up type. *)
Definition afterFence (engine : Engine) (id : string) (p : Primitive) (msg : Message)
    (v : Viewer) (w : World) : World :=
  mkWorld (Some (mkViewer (entities v) (primitives v ++ [p])))
          (<[id := GPrimitive p]> (graphicMap w))
          (radarPrimitiveType w)
          (cacheWith (createGuid engine (materialCache w)) (materialCache w))
          (console w ++ [msg]) (clock w) (S (allocated w)).

(** [w'] differs from [w] in the console at most: same viewer (scene and
    entities), same registry, same material registration, no allocation. *)
Definition sameButConsole (w w' : World) : Prop :=
  viewer w' = viewer w /\ graphicMap w' = graphicMap w
  /\ radarPrimitiveType w' = radarPrimitiveType w /\ materialCache w' = materialCache w
  /\ clock w' = clock w /\ allocated w' = allocated w.

(** The call returns [null] and leaves everything but the console alone. *)
Definition refuses (call : M (option Graphic)) (w : World) : Prop :=
  exists w', call w = (Normal None, w') /\ sameButConsole w w'.

(** The live entries of the registry under an identifier. *)
Definition liveEntries (w : World) (id : string) : list (string * Graphic) :=
  filter (fun kv => kv.1 = id) (map_to_list (graphicMap w)).

(** The outcome of a creator leaves the registry as it was, or, when it
    returns the handle, with that handle bound to the identifier. *)
Definition registryAfter (id : string) (w : World) (r : Completion (option Graphic))
    (w' : World) : Prop :=
  match r with
  | Normal (Some g) => graphicMap w' = <[id := g]> (graphicMap w)
  | Normal None | Throw _ => graphicMap w' = graphicMap w
  end.

(** The Cartesian vertex of a position [lng, lat, height]: a missing or zero
    height is zero, a missing longitude or latitude is refused by the engine. *)
Definition vertexOf (pos : list R) : option Cartesian3 :=
  match pos !! 0%nat, pos !! 1%nat with
  | Some lng, Some lat => Some (Cartesian3.fromDegrees lng lat (or_number (pos !! 2%nat) 0))
  | _, _ => None
  end.

(** The vertices of a wall, when every position has its vertex. *)
Fixpoint wallVertices (positions : list (list R)) : option (list Cartesian3) :=
  match positions with
  | [] => Some []
  | pos :: rest =>
    match vertexOf pos, wallVertices rest with
    | Some c, Some cs => Some (c :: cs)
    | _, _ => None
    end
  end.

(** *** Sample engine, worlds and options *)

(** The identifier the sample engine makes up when [n] types are cached. *)
Fixpoint sampleGuid (n : nat) : string :=
  match n with
  | O => "guid"
  | S k => String.append "0" (sampleGuid k)
  end.

(** An engine in which no construction faults and which parses the colour
    strings the creators default to; every other string is not a colour. *)
Definition quietEngine : Engine :=
  mkEngine (fun s => if decide (s = "#00FFFF"%string) then Some (mkColor 0 1 1 1)
                     else if decide (s = "#FF6600"%string) then Some (mkColor 1 0.4 0 1)
                     else None)
           (fun _ => None)
           (fun cache => sampleGuid (List.length cache)).

(** The quiet engine once the scene's primitive collection has been
    destroyed: [add] and [remove] throw. *)
Definition destroyedScene : Engine :=
  mkEngine (fromCssColorString quietEngine)
           (fun call => match call with
                        | PrimitivesAdd _ | PrimitivesRemove _ => Some DeveloperError
                        | _ => None
                        end)
           (createGuid quietEngine).

(** A world with a viewer and nothing in it. *)
Definition freshWorld : World :=
  mkWorld (Some (mkViewer [] [])) ∅ None [] [] 0 0.

(** An emitter at longitude 0, latitude 0 with heading 0 and a pitch of 180
    degrees, the other options as the constructor defaults them. *)
Definition halfTurnOptions : RadarEmission.Options :=
  RadarEmission.mkOptions [0; 0; 0] 0 (Some RadarEmission.CORAL) 500000 50000 0.1 180.

Definition halfTurnRadar : RadarEmission.RadarEmission :=
  RadarEmission.mkRadarEmission [] halfTurnOptions None.

(** An emitter a kilometre above longitude 0, latitude 0, the other options
    as the constructor defaults them. *)
Definition raisedOptions : RadarEmission.Options :=
  RadarEmission.mkOptions [0; 0; 1000] 135 (Some RadarEmission.CORAL) 500000 50000 0.1 0.

Definition raisedRadar : RadarEmission.RadarEmission :=
  RadarEmission.mkRadarEmission [] raisedOptions None.

(** A cone whose colour string is not a CSS colour. *)
Definition miscolouredWave : Geometry.Options :=
  Geometry.mkOptions "wave" [114; 35; 0] 135 0 500000 50000 0.1 (Some "not-a-color"%string).

(** A fence with that colour string. *)
Definition miscolouredFence : Fence.Options :=
  Fence.mkOptions "fence" (Some [[0; 0]; [1; 0]]) (Some "not-a-color"%string) None None None.

(** A cone of length 0 at longitude 0, latitude 0. *)
Definition flatWave : Geometry.Options :=
  Geometry.mkOptions "wave" [0; 0; 0] 0 0 0 50000 0.3 None.

(** Fences on the equator: one position, and two positions a degree apart. *)
Definition pointFence : Fence.Options :=
  Fence.mkOptions "fence" (Some [[0; 0]]) None None None None.

Definition lineFence : Fence.Options :=
  Fence.mkOptions "fence" (Some [[0; 0]; [1; 0]]) None None None None.

Definition pointFlow : FenceFlow.Options :=
  FenceFlow.mkOptions "fence" (Some [[0; 0]]) None None None.

Definition lineFlow : FenceFlow.Options :=
  FenceFlow.mkOptions "fence" (Some [[0; 0]; [1; 0]]) None None None.

Definition lineVertices : list Cartesian3 :=
  [Cartesian3.fromDegrees 0 0 0; Cartesian3.fromDegrees 1 0 0].

(** The two-position fence given [speed = 0] and [maxHeight = 0]. *)
Definition zeroedFence : Fence.Options :=
  Fence.mkOptions "fence" (Some [[0; 0]; [1; 0]]) None (Some 0) None (Some 0).

(** A world in which the two-position flame fence is live. *)
Definition storedFence : Graphic :=
  GPrimitive (flamePrimitive lineFence 2 lineVertices (mkColor 1 0.4 0 1) 0).

Definition fencedWorld : World :=
  mkWorld (Some (mkViewer [] [flamePrimitive lineFence 2 lineVertices (mkColor 1 0.4 0 1) 0]))
          {[ "fence"%string := storedFence ]} None [] [] 0 1.

(** *** Tactics *)

(** One step of a creator: the monad's operations unfolded. *)
Ltac run_step :=
  cbv beta iota delta
    [bind ret throw lift try_catch getMap getGraphicMap setGraphicMap getTime
     console_log update_viewer entities_add primitives_add primitives_remove
     new_Primitive new_Material construct Geometry.registerRadarMaterial
     Geometry.createRadarMaterialProperty];
  cbn [viewer graphicMap radarPrimitiveType materialCache console clock allocated
       set_viewer set_graphicMap set_material set_console set_allocated fst snd].

(** Every path of a creator: case analysis on each test it makes. *)
Ltac crunch :=
  repeat (run_step;
          match goal with
          | |- context [match ?s with _ => _ end] =>
            lazymatch s with
            | context [match _ with _ => _ end] => fail
            | _ => destruct s eqn:?
            end
          end);
  run_step.

(** ** The shader of the radial sweep

    The GLSL source registered by [registerRadarMaterial] (geometry.ts) and
    [_registerRadarMaterial] (RadarEmission.js), over the reals. *)

Module Glsl.
Definition floor (v : R) : R := IZR (Int_part v).
Definition fract (v : R) : R := v - floor v.
(** [mod(a, b) = a - b * floor(a / b)]. *)
Definition mod_ (a b : R) : R := a - b * floor (a / b).
(** [step(edge, v)] is 0 below the edge and 1 from it on. *)
Definition step (edge v : R) : R := if Rlt_dec v edge then 0 else 1.
Definition distance (p q : R * R) : R :=
  sqrt ((fst p - fst q) * (fst p - fst q) + (snd p - snd q) * (snd p - snd q)).
Definition dot (p q : R * R) : R := fst p * fst q + snd p * snd q.
Definition clamp (v lo hi : R) : R := Rmin (Rmax v lo) hi.
(** [smoothstep(edge0, edge1, v)], which the language defines for
    [edge0 < edge1]. *)
Definition smoothstep (edge0 edge1 v : R) : R :=
  let t := clamp ((v - edge0) / (edge1 - edge0)) 0 1 in
  t * t * (3 - 2 * t).
Definition mix (a b t : R) : R := a * (1 - t) + b * t.
(** [pow(v, e)], which the language defines for [v > 0]. *)
Definition pow (v e : R) : R := Rpower v e.
End Glsl.

(** What a material function returns: the diffuse colour, the emission and
    the alpha; [czm_getDefaultMaterial] has no emission. *)
Record czm_material : Type := mkMaterial {
  mat_diffuse : R * R * R;
  mat_emission : R * R * R;
  mat_alpha : R }.

Module RadarShader.
Section Source.
Variables (u : Uniforms) (st : R * R).

Definition sp : R := 1 / u_repeat u.
Definition dis : R := Glsl.distance st (0.5, 0.5).
Definition m : R := Glsl.mod_ (dis + u_offset u - u_time u) sp.
Definition a : R := Glsl.step (sp * (1 - u_thickness u)) m.
Definition czm_getMaterial : czm_material :=
  mkMaterial (red (u_color u), green (u_color u), blue (u_color u))
             (0, 0, 0)
             (a * alpha (u_color u)).
End Source.
End RadarShader.

(** ** The shader of the flame fence

    The GLSL source of the material of [fenceFlowEffect] (flame version),
    over the reals; [czm_frameNumber] is the engine's frame counter.  The
    uniforms [u_maxHeight] and [u_time] are declared and never read. *)

Module FlameShader.

(** [float noise(vec2 st)]. *)
Definition noise (st : R * R) : R :=
  Glsl.fract (sin (Glsl.dot st (12.9898, 78.233)) * 43758.5453123).

(** The loop of [fbm], [i] iterations from the given state. *)
Fixpoint fbm_loop (i : nat) (st : R * R) (value amplitude frequency : R) : R :=
  match i with
  | O => value
  | S i' =>
    fbm_loop i' st
             (value + amplitude * noise (fst st * frequency, snd st * frequency))
             (amplitude * 0.5) (frequency * 2)
  end.

(** [float fbm(vec2 st)]. *)
Definition fbm (st : R * R) : R := fbm_loop 5 st 0 0.5 1.

Section Source.
Variables (u_color : Color) (u_speed u_maxHeight u_time : R).
Variables (czm_frameNumber : R) (st : R * R).

Definition time : R := czm_frameNumber * 0.005 * u_speed.
Definition flameHeight : R := Glsl.fract time.
Definition flameShape : R := snd st * (1 - snd st * 0.5).
Definition flame : R :=
  if Rlt_dec (snd st) flameHeight then
    let noiseSt := (fst st * 5 + time * 0.5, snd st * 2 - time) in
    let noiseValue := fbm noiseSt in
    let intensity := 1 - snd st / flameHeight in
    let intensity := Glsl.pow intensity 2 in
    let edge := Glsl.smoothstep 0.8 1 noiseValue in
    intensity * (1 - edge)
  else 0.
Definition flameColor : R * R * R :=
  (Glsl.mix 1 1 (snd st), Glsl.mix 0.2 1 (snd st), Glsl.mix 0 0.3 (snd st)).
Definition finalColor : R * R * R :=
  let '(r, g, b) := flameColor in
  (Glsl.mix (red u_color) r (flame * 0.7),
   Glsl.mix (green u_color) g (flame * 0.7),
   Glsl.mix (blue u_color) b (flame * 0.7)).
Definition czm_getMaterial : czm_material :=
  let '(r, g, b) := finalColor in
  mkMaterial (r, g, b)
             (r * flame * 2, g * flame * 2, b * flame * 2)
             (flame * alpha u_color).
End Source.
End FlameShader.

(** *** Requests, sequences of calls and the scene

    The four creators behind one type of request, to state what holds of
    each of them and of any sequence of calls. *)

Inductive Request : Type :=
| Wave (o : Geometry.Options)
| FlameFence (o : Fence.Options)
| Cone (o : Fence.ConeOptions)
| FlowFence (o : FenceFlow.Options).

Definition request_id (r : Request) : string :=
  match r with
  | Wave o => Geometry.id o
  | FlameFence o => Fence.id o
  | Cone o => Fence.cone_id o
  | FlowFence o => FenceFlow.id o
  end.

Definition create (engine : Engine) (r : Request) : M (option Graphic) :=
  match r with
  | Wave o => Geometry.conicalWave engine o
  | FlameFence o => Fence.fenceFlowEffect engine o
  | Cone o => Fence.conicalEffect engine o
  | FlowFence o => FenceFlow.fenceFlowEffect engine o
  end.

(** The world after the requests have been made one after the other; a
    caller that catches an exception of [conicalWave] goes on in the world
    the exception left. *)
Fixpoint createAll (engine : Engine) (rs : list Request) (w : World) : World :=
  match rs with
  | [] => w
  | r :: rest => createAll engine rest (snd (create engine r w))
  end.

(** The viewer with one more graphic. *)
Definition sceneWith (g : Graphic) (v : Viewer) : Viewer :=
  match g with
  | GEntity e => mkViewer (entities v ++ [e]) (primitives v)
  | GPrimitive p => mkViewer (entities v) (primitives v ++ [p])
  end.

(** The viewer without the primitive of identity [n]. *)
Definition withoutRef (n : nat) (v : Viewer) : Viewer :=
  mkViewer (entities v)
           (List.filter (fun q => negb (Nat.eqb (prim_ref q) n)) (primitives v)).

Definition inScene (v : Viewer) (g : Graphic) : Prop :=
  match g with
  | GEntity e => In e (entities v)
  | GPrimitive p => In p (primitives v)
  end.

(** The material registration across one call: untouched, or the radar
    type registered by it, or one material cached by the engine under a
    made-up type. *)
Definition materialStep (engine : Engine) (w w' : World) : Prop :=
  (radarPrimitiveType w' = radarPrimitiveType w /\ materialCache w' = materialCache w)
  \/ (radarPrimitiveType w = None
      /\ radarPrimitiveType w' = Some "radarPrimitive"%string
      /\ materialCache w' = materialCache w ++ ["radarPrimitive"%string])
  \/ (radarPrimitiveType w' = radarPrimitiveType w
      /\ materialCache w' = cacheWith (createGuid engine (materialCache w)) (materialCache w)).

(** The material registration across any number of calls: the radar type
    is kept, or registered when there was none, and the cache only grows. *)
Definition materialGrowth (w w' : World) : Prop :=
  (radarPrimitiveType w' = radarPrimitiveType w
   \/ (radarPrimitiveType w = None
       /\ radarPrimitiveType w' = Some "radarPrimitive"%string))
  /\ exists added, materialCache w' = materialCache w ++ added.

Definition isWave (r : Request) : bool :=
  match r with
  | Wave _ => true
  | _ => false
  end.

(** What a call of a creator does, by its outcome: a returned handle has
    been bound to a fresh identifier and added to the scene; any other
    outcome leaves the registry alone and removes from the scene at most the
    primitive allocated by the call. *)
Definition creation (engine : Engine) (r : Request) (w : World)
    (res : Completion (option Graphic)) (w' : World) : Prop :=
  match res with
  | Normal (Some g) =>
    graphicMap w !! request_id r = None
    /\ graphicMap w' = <[request_id r := g]> (graphicMap w)
    /\ (exists v, viewer w = Some v /\ viewer w' = Some (sceneWith g v))
    /\ match g with
       | GPrimitive p => prim_ref p = allocated w /\ allocated w' = S (allocated w)
       | GEntity _ => allocated w' = allocated w
       end
  | _ =>
    graphicMap w' = graphicMap w
    /\ (viewer w' = viewer w \/ viewer w' = withoutRef (allocated w) <$> viewer w)
    /\ (allocated w' = allocated w \/ allocated w' = S (allocated w))
  end
  /\ materialStep engine w w'
  /\ clock w' = clock w.

(** The scene holds what the registry names, and the identities of its
    primitives are distinct and below the allocation counter. *)
Definition wellFormed (w : World) : Prop :=
  forall v, viewer w = Some v ->
    (forall id g, graphicMap w !! id = Some g -> inScene v g)
    /\ (forall p, In p (primitives v) -> (prim_ref p < allocated w)%nat)
    /\ NoDup (List.map prim_ref (primitives v)).

(** *** Cones and walls as built *)

(** [Matrix4.multiplyByPoint]: the matrix applied to a point. *)
Definition multiplyByPoint (m : Matrix4) (c : Cartesian3) : Cartesian3 :=
  mkCartesian3 (m0 m * x c + m4 m * y c + m8 m * z c + m12 m)
               (m1 m * x c + m5 m * y c + m9 m * z c + m13 m)
               (m2 m * x c + m6 m * y c + m10 m * z c + m14 m).

(** A cylinder geometry lies along the z axis about the origin, its top at
    [length / 2]: with a top radius of zero that is the tip of the cone, and
    the centre of the base is at [- length / 2]. *)
Definition tipOf (c : CylinderGeometry) : Cartesian3 := mkCartesian3 0 0 (cg_length c / 2).
Definition baseOf (c : CylinderGeometry) : Cartesian3 := mkCartesian3 0 0 (- cg_length c / 2).

(** The primitive [conicalEffect] builds at longitude, latitude and height. *)
Definition glowPrimitive (o : Fence.ConeOptions) (lng lat h : R) (c : Color) (ref : nat)
  : Primitive :=
  let conicalHeight := or_number (Fence.height o) 200 in
  let conicalRadius := or_number (Fence.radius o) 50 in
  mkPrimitive ref
    (mkPrimitiveOptions
       (GCylinder (mkCylinderGeometry conicalHeight 0 conicalRadius 64))
       (Some (Fence.modelMatrix (Cartesian3.fromDegrees lng lat h) conicalHeight
                (or_number (Fence.heading o) 0) (or_number (Fence.pitch o) 0)))
       (GlowFabric (Color.withAlpha c 0.2))
       true (Some true) false).

(** A cone on the equator with every option left out, and the same with
    only longitude and latitude. *)
Definition sampleCone : Fence.ConeOptions :=
  Fence.mkConeOptions "cone" (Some [0; 0; 0]) None None None None None.

Definition shortCone : Fence.ConeOptions :=
  Fence.mkConeOptions "cone" (Some [0; 0]) None None None None None.

(** A radar cone given longitude and latitude only. *)
Definition shortWave : Geometry.Options :=
  Geometry.mkOptions "wave" [0; 0] 0 0 500000 50000 0.3 None.

(** The options of a radar cone with other positions. *)
Definition withPositions (positions : list R) (o : Geometry.Options) : Geometry.Options :=
  Geometry.mkOptions (Geometry.id o) positions (Geometry.heading o) (Geometry.pitch o)
                     (Geometry.length o) (Geometry.bottomRadius o) (Geometry.thickness o)
                     (Geometry.color o).

(** A fence whose second position lacks its latitude. *)
Definition brokenFence : Fence.Options :=
  Fence.mkOptions "fence" (Some [[0; 0]; [1]]) None None None None.

Definition brokenFlow : FenceFlow.Options :=
  FenceFlow.mkOptions "fence" (Some [[0; 0]; [1]]) None None None.

(** The wall of a handle, the positions a fence request gives and the
    height its wall is built to. *)
Definition wallOf (g : Graphic) : option WallGeometry :=
  match g with
  | GPrimitive p =>
    match prim_geometry (prim_options p) with
    | GWall wall => Some wall
    | GCylinder _ => None
    end
  | GEntity _ => None
  end.

Definition fencePositions (r : Request) : option (list (list R)) :=
  match r with
  | FlameFence o => Fence.positions o
  | FlowFence o => FenceFlow.positions o
  | Wave _ | Cone _ => None
  end.

Definition fenceHeight (r : Request) : R :=
  match r with
  | FlameFence o => or_number (Fence.maxHeight o) 100
  | _ => 100
  end.

(** ** The class [RadarEmission] as an object of the viewer

    The methods of the class of RadarEmission.js over a viewer whose
    entities are objects: [entities.add] gives the new entity an identifier
    of its own and [entities.remove] goes by it.  The two versions of the
    file differ in [createRadarCone] only; the entity each builds is the one
    of [RadarEmission.createRadarCone] and [RadarEmission2.createRadarCone].

    An option the caller passes as [undefined] replaces the default, as an
    absent key does not.  The position, the heading, the pitch and the
    colour may be passed so; a length, a radius or a thickness is absent or
    a number: passed as [undefined] it makes the pose or the graphic not a
    number, which this development has no value for. *)

Module Lifecycle.

Inductive Version : Type := First | Second.

(** An entity of the collection, with its identifier. *)
Definition Added : Type := (nat * RadarEmission.RadarConeEntity)%type.

(** What the methods read and change outside the instance: the viewer's
    entities, the identifiers given out, the requests to zoom, the material
    registration and the wall clock. *)
Record Host : Type := mkHost {
  host_entities : list Added;
  host_next : nat;
  host_zoomed : list nat;
  host_type : option string;        (* Cesium.Material.radarPrimitiveType *)
  host_cache : list string;         (* Cesium.Material._materialCache *)
  host_clock : Z }.

(** [this.options]: the defaults with the caller's options spread over
    them; [None] is [undefined]. *)
Record Merged : Type := mkMerged {
  m_position : option (list R);
  m_heading : option R;
  m_color : option Color;
  m_length : R;
  m_bottomRadius : R;
  m_thickness : R;
  m_pitch : option R }.

(** [this]: the merged options and the entity, [null] or undefined as [None]. *)
Record Instance : Type := mkInstance {
  this_options : Merged;
  this_entity : option Added }.

(** The options object a caller passes: a key is absent ([None]) or has a
    value, which for the first four keys may be [undefined] ([Some None]). *)
Record PartialOptions : Type := mkPartial {
  position : option (option (list R));
  heading : option (option R);
  color : option (option Color);
  length : option R;
  bottomRadius : option R;
  thickness : option R;
  pitch : option (option R) }.

Definition noOptions : PartialOptions := mkPartial None None None None None None None.

(** One key of [{ ...defaults, ...options }]: the caller's value when the
    key is present, whatever the value. *)
Definition over {A} (d : A) (o : option A) : A :=
  match o with
  | Some a => a
  | None => d
  end.

(** [{ ...defaults, ...options }]. *)
Definition merge (d : RadarEmission.Options) (o : PartialOptions) : Merged :=
  mkMerged
    (over (Some (RadarEmission.position d)) (position o))
    (over (Some (RadarEmission.heading d)) (heading o))
    (over (RadarEmission.color d) (color o))
    (over (RadarEmission.length d) (length o))
    (over (RadarEmission.bottomRadius d) (bottomRadius o))
    (over (RadarEmission.thickness d) (thickness o))
    (over (Some (RadarEmission.pitch d)) (pitch o)).

Definition _registerRadarMaterial (h : Host) : Host :=
  match host_type h with
  | Some _ => h
  | None => mkHost (host_entities h) (host_next h) (host_zoomed h)
                   (Some "radarPrimitive"%string)
                   (host_cache h ++ ["radarPrimitive"%string]) (host_clock h)
  end.

(** The entity value [createRadarCone] of the given version passes to
    [viewer.entities.add].  Destructuring a position that is [undefined] is
    a [TypeError]; the engine rejects a longitude or a latitude that is not
    a number ([Cartesian3.fromDegrees]) and a heading or a pitch that is
    [undefined] ([Math.toRadians]). *)
Definition coneOf (version : Version) (o : Merged) (now : Z)
  : Completion RadarEmission.RadarConeEntity :=
  let create := match version with
                | First => RadarEmission.createRadarCone
                | Second => RadarEmission2.createRadarCone
                end in
  match m_position o with
  | None => Throw TypeError
  | Some position =>
    match position !! 0%nat, position !! 1%nat with
    | Some _, Some _ =>
      match m_heading o, m_pitch o with
      | Some heading, Some pitch =>
        let options := RadarEmission.mkOptions position heading (m_color o) (m_length o)
                         (m_bottomRadius o) (m_thickness o) pitch in
        match create (RadarEmission.mkRadarEmission [] options None) now with
        | Normal (e, _) => Normal e
        | Throw err => Throw err
        end
      | _, _ => Throw DeveloperError
      end
    | _, _ => Throw DeveloperError
    end
  end.

(** [createRadarCone()]: adds the entity, keeps it in [this.entity] and
    returns it. *)
Definition createRadarCone (version : Version) (self : Instance) (h : Host)
  : Completion Added * Instance * Host :=
  match coneOf version (this_options self) (host_clock h) with
  | Throw err => (Throw err, self, h)
  | Normal e =>
    let added := (host_next h, e) in
    (Normal added,
     mkInstance (this_options self) (Some added),
     mkHost (host_entities h ++ [added]) (S (host_next h)) (host_zoomed h)
            (host_type h) (host_cache h) (host_clock h))
  end.

Definition init (version : Version) (self : Instance) (h : Host)
  : Completion unit * Instance * Host :=
  match createRadarCone version self (_registerRadarMaterial h) with
  | (Normal _, self', h') => (Normal tt, self', h')
  | (Throw err, self', h') => (Throw err, self', h')
  end.

(** [new RadarEmission(viewer, options)]: the instance, unless [init] throws. *)
Definition constructor (version : Version) (h : Host) (options : PartialOptions)
  : Completion Instance * Host :=
  let self := mkInstance (merge RadarEmission.defaults options) None in
  match init version self h with
  | (Normal _, self', h') => (Normal self', h')
  | (Throw err, _, h') => (Throw err, h')
  end.

(** [viewer.entities.remove(entity)]. *)
Definition entities_remove (i : nat) (h : Host) : Host :=
  mkHost (List.filter (fun a => negb (Nat.eqb (fst a) i)) (host_entities h))
         (host_next h) (host_zoomed h) (host_type h) (host_cache h) (host_clock h).

Definition destroy (self : Instance) (h : Host) : Instance * Host :=
  match this_entity self with
  | Some added => (mkInstance (this_options self) None, entities_remove (fst added) h)
  | None => (self, h)
  end.

Definition zoomTo (self : Instance) (h : Host) : Host :=
  match this_entity self with
  | Some added => mkHost (host_entities h) (host_next h) (host_zoomed h ++ [fst added])
                         (host_type h) (host_cache h) (host_clock h)
  | None => h
  end.

(** The identifiers in the collection have been given out by it. *)
Definition tidy (h : Host) : Prop :=
  forall a, In a (host_entities h) -> (fst a < host_next h)%nat.

Definition emptyHost : Host := mkHost [] 0 [] None [] 0.

(** The merged options when the caller passes none. *)
Definition defaultOptions : Merged := merge RadarEmission.defaults noOptions.

End Lifecycle.

(** The host when the wall clock reads [t]. *)
Definition at_time (t : Z) (h : Lifecycle.Host) : Lifecycle.Host :=
  Lifecycle.mkHost (Lifecycle.host_entities h) (Lifecycle.host_next h)
                   (Lifecycle.host_zoomed h) (Lifecycle.host_type h)
                   (Lifecycle.host_cache h) t.

(** The colour a handle is drawn with, the colour string of a request, the
    string that stands in for a missing or empty one, and the alpha each
    creator sets. *)
Definition colourOf (g : Graphic) : Color :=
  match g with
  | GEntity e => RadarPrimitiveMaterialProperty._color (cyl_material (ent_cylinder e))
  | GPrimitive p =>
    match prim_fabric (prim_options p) with
    | FlameFabric c _ _ _ => c
    | FlowFabric c _ _ => c
    | GlowFabric c => c
    end
  end.

Definition requestColor (r : Request) : option string :=
  match r with
  | Wave o => Geometry.color o
  | FlameFence o => Fence.color o
  | Cone o => Fence.cone_color o
  | FlowFence o => FenceFlow.color o
  end.

Definition defaultColor (r : Request) : string :=
  match r with
  | FlameFence _ => "#FF6600"
  | _ => "#00FFFF"
  end.

Definition fixedAlpha (r : Request) : R :=
  match r with
  | Wave _ => 0.7
  | FlameFence _ => 0.9
  | Cone _ => 0.2
  | FlowFence _ => 0.8
  end.

(** The messages that report a refusal or a failure, as opposed to the
    success logs. *)
Definition isReport (m : Message) : bool :=
  match m with
  | ErrNoMap | LogExists _ | ErrFenceNeedsTwoPoints | ErrFlameFence _ | ErrFlowFence _
  | ErrConeNeedsPosition | ErrCone _ => true
  | LogFlameFence _ _ | LogFlowFence _ | LogCone _ _ _ => false
  end.

(** *** Apexes

    The direction along which the specification rebuilds the apex: the
    image of the symmetry axis of the cylinder, its local z axis, under the
    heading/pitch/roll frame at [anchor], normalised. *)
Definition claimedDirection (anchor : Cartesian3) (hpr : HeadingPitchRoll) : Cartesian3 :=
  Cartesian3.normalize
    (Matrix4.multiplyByPointAsVector (Transforms.headingPitchRollToFixedFrame anchor hpr)
                                     Cartesian3.UNIT_Z).

(** The matrix of cofactors: its columns are the cross products of the
    other two columns, in cyclic order. *)
Definition cofactors (m : Matrix3) : Matrix3 :=
  mkMatrix3 (n4 m * n8 m - n5 m * n7 m) (n5 m * n6 m - n3 m * n8 m)
            (n3 m * n7 m - n4 m * n6 m)
            (n7 m * n2 m - n8 m * n1 m) (n8 m * n0 m - n6 m * n2 m)
            (n6 m * n1 m - n7 m * n0 m)
            (n1 m * n5 m - n2 m * n4 m) (n2 m * n3 m - n0 m * n5 m)
            (n0 m * n4 m - n1 m * n3 m).

(** A rotation: an orthogonal matrix that is its own matrix of cofactors. *)
Definition isRotation (m : Matrix3) : Prop :=
  Matrix3.multiply (Matrix3.transpose m) m = Matrix3.IDENTITY
  /\ Matrix3.multiply m (Matrix3.transpose m) = Matrix3.IDENTITY
  /\ cofactors m = m.

(** The tip of the cone of an entity as the engine draws it: the cylinder
    lies along the local z axis about the origin, its top at [length / 2],
    and the model matrix of the entity turns it by the orientation and
    moves it to the position ([Entity.computeModelMatrix]). *)
Definition drawnTip {Mat : Type} (e : Entity Mat) : Cartesian3 :=
  multiplyByPoint
    (Matrix4.fromRotationTranslation (Matrix3.fromQuaternion (ent_orientation e))
                                     (ent_position e))
    (mkCartesian3 0 0 (cyl_length (ent_cylinder e) / 2)).

(** A radar cone 1000 m above longitude 0, latitude 0, with the heading,
    pitch and length of the raised emitter. *)
Definition raisedWave : Geometry.Options :=
  Geometry.mkOptions "wave" [0; 0; 1000] 135 0 500000 50000 0.1 None.





Definition undefinedColor : Lifecycle.PartialOptions :=
  Lifecycle.mkPartial None None (Some None) None None None None.


(** The entries of a product, a transpose or a matrix of cofactors. *)
Ltac m3 :=
  unfold Matrix3.multiply, Matrix3.transpose, Matrix3.IDENTITY, cofactors;
  cbn [n0 n1 n2 n3 n4 n5 n6 n7 n8].

(** The shape of a call, read off the world it leaves. *)
Ltac settle :=
  unfold creation, materialStep, sceneWith, withoutRef;
  cbn [fst snd viewer graphicMap radarPrimitiveType materialCache console clock allocated
       request_id prim_ref];
  repeat match goal with
         | H : viewer _ = _ |- _ => rewrite H
         end;
  cbn [fmap option_fmap option_map];
  repeat match goal with
         | |- _ /\ _ => split
         | |- exists _, _ => eexists
         end;
  try reflexivity; try assumption; auto.

(** * Properties *)

(** ** The engine's algebra at the points used below *)

Lemma sqrt_sq3 t : 0 <= t -> sqrt (t * t + 0 * 0 + 0 * 0) = t.
Proof.
  intros H. replace (t * t + 0 * 0 + 0 * 0) with (t * t) by lra.
  now apply sqrt_square.
Qed.

Lemma normalize_x_pos t : 0 < t ->
  Cartesian3.normalize (mkCartesian3 t 0 0) = mkCartesian3 1 0 0.
Proof.
  intros H. unfold Cartesian3.normalize, Cartesian3.magnitude, Cartesian3.magnitudeSquared.
  cbn [x y z]. rewrite sqrt_sq3 by lra. f_equal; field; lra.
Qed.

Lemma normalize_x_neg t : t < 0 ->
  Cartesian3.normalize (mkCartesian3 t 0 0) = mkCartesian3 (-1) 0 0.
Proof.
  intros H. unfold Cartesian3.normalize, Cartesian3.magnitude, Cartesian3.magnitudeSquared.
  cbn [x y z].
  replace (t * t + 0 * 0 + 0 * 0) with ((- t) * (- t) + 0 * 0 + 0 * 0) by lra.
  rewrite sqrt_sq3 by lra. f_equal; field; lra.
Qed.

Lemma normalize_y_pos t : 0 < t ->
  Cartesian3.normalize (mkCartesian3 0 t 0) = mkCartesian3 0 1 0.
Proof.
  intros H. unfold Cartesian3.normalize, Cartesian3.magnitude, Cartesian3.magnitudeSquared.
  cbn [x y z].
  replace (0 * 0 + t * t + 0 * 0) with (t * t + 0 * 0 + 0 * 0) by lra.
  rewrite sqrt_sq3 by lra. f_equal; field; lra.
Qed.

Lemma normalize_z_pos t : 0 < t ->
  Cartesian3.normalize (mkCartesian3 0 0 t) = mkCartesian3 0 0 1.
Proof.
  intros H. unfold Cartesian3.normalize, Cartesian3.magnitude, Cartesian3.magnitudeSquared.
  cbn [x y z].
  replace (0 * 0 + 0 * 0 + t * t) with (t * t + 0 * 0 + 0 * 0) by lra.
  rewrite sqrt_sq3 by lra. f_equal; field; lra.
Qed.

Lemma normalize_UNIT_X : Cartesian3.normalize Cartesian3.UNIT_X = Cartesian3.UNIT_X.
Proof. apply normalize_x_pos; lra. Qed.

Lemma normalize_UNIT_Y : Cartesian3.normalize Cartesian3.UNIT_Y = Cartesian3.UNIT_Y.
Proof. apply normalize_y_pos; lra. Qed.

Lemma normalize_UNIT_Z : Cartesian3.normalize Cartesian3.UNIT_Z = Cartesian3.UNIT_Z.
Proof. apply normalize_z_pos; lra. Qed.

Lemma toRadians_0 : CesiumMath.toRadians 0 = 0.
Proof. unfold CesiumMath.toRadians. lra. Qed.

Lemma toRadians_180 : CesiumMath.toRadians 180 = PI.
Proof. unfold CesiumMath.toRadians, CesiumMath.RADIANS_PER_DEGREE. lra. Qed.

(** The unit vector of a geodetic direction is already normalised. *)
Lemma normalize_geodeticNormal lon lat :
  Cartesian3.normalize (mkCartesian3 (cos lat * cos lon) (cos lat * sin lon) (sin lat))
  = mkCartesian3 (cos lat * cos lon) (cos lat * sin lon) (sin lat).
Proof.
  unfold Cartesian3.normalize, Cartesian3.magnitude, Cartesian3.magnitudeSquared.
  cbn [x y z].
  replace (cos lat * cos lon * (cos lat * cos lon) + cos lat * sin lon * (cos lat * sin lon)
           + sin lat * sin lat)
    with ((sin lat)² + (cos lat)² * ((sin lon)² + (cos lon)²)) by (unfold Rsqr; ring).
  rewrite (sin2_cos2 lon), Rmult_1_r, sin2_cos2, sqrt_1.
  f_equal; field.
Qed.

(** ** The geodetic conversion *)

Lemma wgs84RadiiSquared_pos :
  0 < x Cartesian3.wgs84RadiiSquared /\ 0 < y Cartesian3.wgs84RadiiSquared
  /\ 0 < z Cartesian3.wgs84RadiiSquared.
Proof.
  unfold Cartesian3.wgs84RadiiSquared, Cartesian3.wgs84Radii, Cartesian3.multiplyComponents.
  cbn [x y z]. repeat split; nra.
Qed.

Lemma geodeticNormal_unit lon lat :
  Cartesian3.magnitudeSquared (geodeticNormal lon lat) = 1.
Proof.
  unfold Cartesian3.magnitudeSquared, geodeticNormal. cbn [x y z].
  replace (cos lat * cos lon * (cos lat * cos lon) + cos lat * sin lon * (cos lat * sin lon)
           + sin lat * sin lat)
    with ((sin lat)² + (cos lat)² * ((sin lon)² + (cos lon)²)) by (unfold Rsqr; ring).
  rewrite (sin2_cos2 lon), Rmult_1_r, sin2_cos2. reflexivity.
Qed.



(** The point of height zero satisfies the equation of the ellipsoid. *)
Lemma fromRadians_surface lon lat : onEllipsoid (Cartesian3.fromRadians lon lat 0).
Proof.
  unfold onEllipsoid, Cartesian3.fromRadians. rewrite normalize_geodeticNormal.
  fold (geodeticNormal lon lat).
  pose proof (geodeticNormal_unit lon lat) as Hn.
  destruct wgs84RadiiSquared_pos as (Ha & Hb & Hc).
  unfold Cartesian3.wgs84OneOverRadiiSquared.
  remember Cartesian3.wgs84RadiiSquared as rr eqn:Hrr. clear Hrr.
  remember (geodeticNormal lon lat) as n eqn:Hn'. clear Hn'.
  destruct rr as [a b c], n as [nx ny nz].
  unfold Cartesian3.magnitudeSquared in Hn.
  unfold Cartesian3.dot, Cartesian3.multiplyComponents, Cartesian3.add,
    Cartesian3.divideByScalar, Cartesian3.multiplyByScalar.
  cbn [x y z] in *.
  remember (nx * (a * nx) + ny * (b * ny) + nz * (c * nz)) as G eqn:HGdef.
  assert (HG : 0 < G).
  { replace G with (a * (nx * nx) + b * (ny * ny) + c * (nz * nz)) by (subst G; ring).
    assert (Hx : 0 <= a * (nx * nx)) by (apply Rmult_le_pos; nra).
    assert (Hy : 0 <= b * (ny * ny)) by (apply Rmult_le_pos; nra).
    assert (Hz : 0 <= c * (nz * nz)) by (apply Rmult_le_pos; nra).
    destruct (Rle_lt_dec (a * (nx * nx) + b * (ny * ny) + c * (nz * nz)) 0) as [Hle|]; [|lra].
    assert (Ex : a * (nx * nx) = 0) by lra.
    assert (Ey : b * (ny * ny) = 0) by lra.
    assert (Ez : c * (nz * nz) = 0) by lra.
    apply Rmult_integral in Ex, Ey, Ez.
    destruct Ex as [|Ex]; [lra|]. destruct Ey as [|Ey]; [lra|]. destruct Ez as [|Ez]; lra. }
  assert (Hs : sqrt G * sqrt G = G) by (apply sqrt_sqrt; lra).
  assert (Hs0 : sqrt G <> 0) by (intros E; rewrite E in Hs; lra).
  replace ((a * nx / sqrt G + nx * 0) * (a * nx / sqrt G + nx * 0) * / a
           + (b * ny / sqrt G + ny * 0) * (b * ny / sqrt G + ny * 0) * / b
           + (c * nz / sqrt G + nz * 0) * (c * nz / sqrt G + nz * 0) * / c)
    with ((nx * (a * nx) + ny * (b * ny) + nz * (c * nz)) / (sqrt G * sqrt G))
    by (field; repeat split; lra).
  rewrite <- HGdef, Hs. field. lra.
Qed.


Lemma fromDegrees_surface lng lat : onEllipsoid (Cartesian3.fromDegrees lng lat 0).
Proof. unfold Cartesian3.fromDegrees. apply fromRadians_surface. Qed.

(** Longitude 0, latitude 0: the point of the x axis at the equatorial
    radius plus the height. *)
Lemma fromDegrees_0_0 h : Cartesian3.fromDegrees 0 0 h = mkCartesian3 (6378137 + h) 0 0.
Proof.
  unfold Cartesian3.fromDegrees. rewrite toRadians_0.
  unfold Cartesian3.fromRadians. rewrite cos_0, sin_0.
  replace (1 * 1) with 1 by lra. replace (1 * 0) with 0 by lra.
  rewrite normalize_x_pos by lra.
  unfold Cartesian3.multiplyComponents, Cartesian3.wgs84RadiiSquared, Cartesian3.wgs84Radii,
    Cartesian3.dot, Cartesian3.divideByScalar, Cartesian3.multiplyByScalar, Cartesian3.add,
    Cartesian3.multiplyComponents.
  cbn [x y z].
  replace (1 * (6378137 * 6378137 * 1) + 0 * (6378137 * 6378137 * 0)
           + 0 * (6356752.3142451793 * 6356752.3142451793 * 0))
    with (6378137 * 6378137) by lra.
  rewrite sqrt_square by lra.
  f_equal; field.
Qed.

(** ** The pose: half the length back from the vertex *)

Lemma apex_of_shifted_center (p d : Cartesian3) (len : R) :
  apex (Cartesian3.subtract (Cartesian3.clone p) (Cartesian3.multiplyByScalar d (len / 2)))
       d len = p.
Proof.
  destruct p as [px py pz], d as [dx dy dz].
  unfold apex, Cartesian3.add, Cartesian3.subtract, Cartesian3.clone,
    Cartesian3.multiplyByScalar.
  cbn [x y z]. f_equal; ring.
Qed.

Lemma conicalWave_apex lng lat height (o : Geometry.Options) :
  apex (Geometry.cylinderCenter lng lat height o)
       (Geometry.worldDirection lng lat height o) (Geometry.length o)
  = Cartesian3.fromDegrees lng lat height.
Proof. apply apex_of_shifted_center. Qed.

Lemma createRadarCone_apex lng lat (o : RadarEmission.Options) :
  apex (RadarEmission.cylinderCenter lng lat o)
       (RadarEmission.worldDirection lng lat o) (RadarEmission.length o)
  = Cartesian3.fromDegrees lng lat 0.
Proof. apply apex_of_shifted_center. Qed.

(** ** Running a creator *)

Lemma conicalWave_creates engine (o : Geometry.Options) (w : World) v lng lat rest c :
  viewer w = Some v ->
  graphicMap w !! Geometry.id o = None ->
  Geometry.positions o = lng :: lat :: rest ->
  fromCssColorString engine (or_string (Geometry.color o) "#00FFFF") = Some c ->
  (forall e, fault engine (EntitiesAdd e) = None) ->
  Geometry.conicalWave engine o w =
  (Normal (Some (GEntity (radarCone o lng lat c (clock w)))),
   afterConicalWave (Geometry.id o) (radarCone o lng lat c (clock w)) v w).
Proof.
  intros Hv Hid Hpos Hc Hf.
  unfold Geometry.conicalWave. run_step. rewrite Hv, Hid.
  run_step. rewrite Hpos. cbn [lookup list_lookup]. rewrite Hc.
  unfold radarCone, afterConicalWave, heightOf. rewrite Hpos. cbn [lookup list_lookup].
  destruct (radarPrimitiveType w) eqn:Hreg; run_step; rewrite Hf; run_step;
    unfold set_graphicMap, set_viewer, set_material;
    cbn [viewer graphicMap radarPrimitiveType materialCache console clock allocated];
    rewrite ?Hv, ?Hreg; reflexivity.
Qed.

(** ** Frames on the meridian of longitude zero *)

Lemma equalsEpsilon_far v : 1 <= Rabs v ->
  CesiumMath.equalsEpsilon v 0 CesiumMath.EPSILON14 = false.
Proof.
  intros H. unfold CesiumMath.equalsEpsilon, CesiumMath.EPSILON14.
  rewrite Rminus_0_r, Rabs_R0.
  rewrite (Rmax_left (Rabs v) 0) by (pose proof (Rabs_pos v); lra).
  destruct (Rle_dec _ _) as [H1|H1]; [lra|].
  destruct (Rle_dec _ _) as [H2|H2]; [lra|]. reflexivity.
Qed.

Lemma upAt_y X Zc : y (upAt X Zc) = 0.
Proof.
  unfold upAt, Cartesian3.normalize, Cartesian3.multiplyComponents. cbn [x y z].
  unfold Rdiv. ring.
Qed.

Lemma upAt_equator X : 0 < X -> upAt X 0 = mkCartesian3 1 0 0.
Proof.
  intros H. unfold upAt, Cartesian3.multiplyComponents. cbn [x y z].
  destruct wgs84RadiiSquared_pos as (Ha & Hb & Hc).
  unfold Cartesian3.wgs84OneOverRadiiSquared. cbn [x y z].
  rewrite !Rmult_0_l. apply normalize_x_pos.
  apply Rmult_lt_0_compat; [lra|]. now apply Rinv_0_lt_compat.
Qed.


Lemma eastNorthUp_meridian X Zc : 1 <= X ->
  Transforms.eastNorthUpToFixedFrame (mkCartesian3 X 0 Zc) =
  mkMatrix4 0 1 0 0
            (- z (upAt X Zc)) 0 (x (upAt X Zc)) 0
            (x (upAt X Zc)) 0 (z (upAt X Zc)) 0
            X 0 Zc 1.
Proof.
  intros H. unfold Transforms.eastNorthUpToFixedFrame.
  assert (Hx : CesiumMath.equalsEpsilon X 0 CesiumMath.EPSILON14 = false).
  { apply equalsEpsilon_far. rewrite Rabs_right; lra. }
  unfold Ellipsoid.geodeticSurfaceNormal, Cartesian3.equalsEpsilon.
  cbn [x y z Cartesian3.ZERO]. rewrite Hx. cbn [andb].
  fold (upAt X Zc).
  replace (- 0) with 0 by lra.
  rewrite normalize_y_pos by lra.
  pose proof (upAt_y X Zc) as Hy.
  destruct (upAt X Zc) as [ux uy uz]. cbn [x y z] in *. subst uy.
  unfold Cartesian3.cross; cbn [x y z].
  f_equal; lra.
Qed.

Lemma fromAxisAngle_X s :
  Quaternion.fromAxisAngle Cartesian3.UNIT_X s = mkQuaternion (sin (s / 2)) 0 0 (cos (s / 2)).
Proof.
  unfold Quaternion.fromAxisAngle. rewrite normalize_UNIT_X.
  cbn [x y z Cartesian3.UNIT_X]. f_equal; lra.
Qed.

Lemma fromAxisAngle_Y s :
  Quaternion.fromAxisAngle Cartesian3.UNIT_Y s = mkQuaternion 0 (sin (s / 2)) 0 (cos (s / 2)).
Proof.
  unfold Quaternion.fromAxisAngle. rewrite normalize_UNIT_Y.
  cbn [x y z Cartesian3.UNIT_Y]. f_equal; lra.
Qed.

Lemma fromAxisAngle_Z s :
  Quaternion.fromAxisAngle Cartesian3.UNIT_Z s = mkQuaternion 0 0 (sin (s / 2)) (cos (s / 2)).
Proof.
  unfold Quaternion.fromAxisAngle. rewrite normalize_UNIT_Z.
  cbn [x y z Cartesian3.UNIT_Z]. f_equal; lra.
Qed.

(** The quaternion of a heading and a pitch, without roll. *)
Lemma fromHeadingPitchRoll_noroll h p :
  Quaternion.fromHeadingPitchRoll (mkHPR h p 0) =
  mkQuaternion (- (sin (h / 2) * sin (p / 2))) (- (cos (h / 2) * sin (p / 2)))
               (- (sin (h / 2) * cos (p / 2))) (cos (h / 2) * cos (p / 2)).
Proof.
  unfold Quaternion.fromHeadingPitchRoll. cbn [heading pitch roll].
  rewrite fromAxisAngle_X, fromAxisAngle_Y, fromAxisAngle_Z.
  replace (0 / 2) with 0 by lra. rewrite sin_0, cos_0.
  replace (- p / 2) with (- (p / 2)) by lra. replace (- h / 2) with (- (h / 2)) by lra.
  rewrite !sin_neg, !cos_neg.
  unfold Quaternion.multiply; cbn [qx qy qz qw]. f_equal; ring.
Qed.

(** Heading 0 and a pitch of half a turn, either way: the rotation turns
    the x and z axes over. *)
Lemma hprMatrix_half_turn (s : R) : s = 1 \/ s = -1 ->
  Matrix4.fromTranslationQuaternionRotationScale Cartesian3.ZERO
    (Quaternion.fromHeadingPitchRoll (mkHPR 0 (s * PI) 0)) (mkCartesian3 1 1 1) =
  mkMatrix4 (-1) 0 0 0  0 1 0 0  0 0 (-1) 0  0 0 0 1.
Proof.
  intros Hs. rewrite fromHeadingPitchRoll_noroll.
  replace (0 / 2) with 0 by lra. rewrite sin_0, cos_0.
  assert (Hc : cos (s * PI / 2) = 0).
  { destruct Hs; subst s.
    - replace (1 * PI / 2) with (PI / 2) by lra. apply cos_PI2.
    - replace (-1 * PI / 2) with (- (PI / 2)) by lra. rewrite cos_neg. apply cos_PI2. }
  assert (Hsn : sin (s * PI / 2) * sin (s * PI / 2) = 1).
  { destruct Hs; subst s.
    - replace (1 * PI / 2) with (PI / 2) by lra. rewrite sin_PI2. lra.
    - replace (-1 * PI / 2) with (- (PI / 2)) by lra. rewrite sin_neg, sin_PI2. lra. }
  rewrite Hc.
  unfold Matrix4.fromTranslationQuaternionRotationScale, Matrix3.fromQuaternion.
  cbn [qx qy qz qw x y z n0 n1 n2 n3 n4 n5 n6 n7 n8 Cartesian3.ZERO].
  remember (sin (s * PI / 2)) as t eqn:Et. clear Et.
  f_equal; nra.
Qed.

(** The frame of that orientation at a point of the meridian. *)
Lemma frame_half_turn X Zc (s : R) : 1 <= X -> s = 1 \/ s = -1 ->
  Transforms.headingPitchRollToFixedFrame (mkCartesian3 X 0 Zc) (mkHPR 0 (s * PI) 0) =
  mkMatrix4 0 (-1) 0 0
            (- z (upAt X Zc)) 0 (x (upAt X Zc)) 0
            (- x (upAt X Zc)) 0 (- z (upAt X Zc)) 0
            X 0 Zc 1.
Proof.
  intros HX Hs. unfold Transforms.headingPitchRollToFixedFrame.
  rewrite eastNorthUp_meridian by exact HX.
  rewrite hprMatrix_half_turn by exact Hs.
  unfold Matrix4.multiply.
  cbn [m0 m1 m2 m3 m4 m5 m6 m7 m8 m9 m10 m11 m12 m13 m14 m15].
  f_equal; ring.
Qed.

(** ** The two versions of [createRadarCone] at one input *)

Lemma halfTurn_hpr : RadarEmission.hpr halfTurnOptions = mkHPR 0 (1 * PI) 0.
Proof.
  unfold RadarEmission.hpr, halfTurnOptions. cbn [RadarEmission.heading RadarEmission.pitch].
  rewrite toRadians_0, toRadians_180. f_equal. lra.
Qed.

Lemma halfTurn_hpr2 : RadarEmission2.hpr halfTurnOptions = mkHPR 0 (-1 * PI) 0.
Proof.
  unfold RadarEmission2.hpr, RadarEmission2.heading, RadarEmission2.pitch,
    RadarEmission2.originalPitch, halfTurnOptions.
  cbn [RadarEmission.heading RadarEmission.pitch].
  rewrite toRadians_0, toRadians_180. f_equal. lra.
Qed.

Lemma halfTurn_center :
  RadarEmission.cylinderCenter 0 0 halfTurnOptions = mkCartesian3 (6378137 + 250000) 0 0.
Proof.
  unfold RadarEmission.cylinderCenter, RadarEmission.offset, RadarEmission.worldDirection,
    RadarEmission.transform, RadarEmission.vertexPosition, RadarEmission.halfLength,
    RadarEmission.direction.
  rewrite halfTurn_hpr, fromDegrees_0_0.
  replace (6378137 + 0) with 6378137 by lra.
  rewrite frame_half_turn by (auto; lra).
  rewrite upAt_equator by lra.
  unfold Matrix4.multiplyByPointAsVector.
  cbn [m0 m1 m2 m3 m4 m5 m6 m7 m8 m9 m10 m11 x y z Cartesian3.UNIT_Z].
  replace (0 * 0 + - 0 * 0 + - (1) * 1) with (-1) by lra.
  replace (-1 * 0 + 0 * 0 + 0 * 1) with 0 by lra.
  replace (0 * 0 + 1 * 0 + - 0 * 1) with 0 by lra.
  rewrite normalize_x_neg by lra.
  unfold Cartesian3.subtract, Cartesian3.clone, Cartesian3.multiplyByScalar, halfTurnOptions.
  cbn [x y z RadarEmission.length]. f_equal; lra.
Qed.

Lemma halfTurn_center2 :
  RadarEmission2.cylinderCenter 0 0 halfTurnOptions = mkCartesian3 6378137 0 (-250000).
Proof.
  unfold RadarEmission2.cylinderCenter, RadarEmission2.worldAxis, RadarEmission2.transform,
    RadarEmission2.vertexPosition, RadarEmission2.halfLength, RadarEmission2.localAxis.
  rewrite halfTurn_hpr2, fromDegrees_0_0.
  replace (6378137 + 0) with 6378137 by lra.
  rewrite frame_half_turn by (auto; lra).
  rewrite upAt_equator by lra.
  unfold Matrix4.multiplyByPointAsVector.
  cbn [m0 m1 m2 m3 m4 m5 m6 m7 m8 m9 m10 m11 x y z].
  replace (0 * 0 + - 0 * 1 + - (1) * 0) with 0 by lra.
  replace (-1 * 0 + 0 * 1 + 0 * 0) with 0 by lra.
  replace (0 * 0 + 1 * 1 + - 0 * 0) with 1 by lra.
  rewrite normalize_z_pos by lra.
  unfold Cartesian3.subtract, Cartesian3.clone, Cartesian3.multiplyByScalar, halfTurnOptions.
  cbn [x y z RadarEmission.length]. f_equal; lra.
Qed.

(** What [createRadarCone] returns when longitude and latitude are present. *)
Lemma createRadarCone_creates (self : RadarEmission.RadarEmission) now lng lat rest :
  RadarEmission.position (RadarEmission.options self) = lng :: lat :: rest ->
  let o := RadarEmission.options self in
  let e := RadarEmission.radarCone o (RadarEmission.vertexPosition lng lat)
             (RadarEmission.cylinderCenter lng lat o) (RadarEmission.orientation lng lat o)
             now in
  RadarEmission.createRadarCone self now =
  Normal (e, RadarEmission.mkRadarEmission (RadarEmission.viewer_entities self ++ [e]) o (Some e)).
Proof.
  intros H. unfold RadarEmission.createRadarCone. rewrite H. reflexivity.
Qed.

Lemma createRadarCone2_creates (self : RadarEmission.RadarEmission) now lng lat rest :
  RadarEmission.position (RadarEmission.options self) = lng :: lat :: rest ->
  let o := RadarEmission.options self in
  let e := RadarEmission.radarCone o (RadarEmission2.vertexPosition lng lat)
             (RadarEmission2.cylinderCenter lng lat o) (RadarEmission2.orientation lng lat o)
             now in
  RadarEmission2.createRadarCone self now =
  Normal (e, RadarEmission.mkRadarEmission (RadarEmission.viewer_entities self ++ [e]) o (Some e)).
Proof.
  intros H. unfold RadarEmission2.createRadarCone. rewrite H. reflexivity.
Qed.

(** ** C4: the two versions of [createRadarCone] are not equivalent *)

(** C4: there is an emitter with a pitch other than zero (longitude 0,
    latitude 0, heading 0, pitch 180 degrees, length 500000) for which the
    version that passes the pitch on, turns the local z axis and takes the
    quaternion at the vertex, and the version that negates the pitch, turns
    the local y axis and takes the quaternion at the shifted centre, return
    different poses: the first centre is 250000 m above the vertex, the
    second 250000 m south of it. *)
Theorem createRadarCone_versions_differ :
  exists (self : RadarEmission.RadarEmission) (now : Z) e1 s1 e2 s2,
    RadarEmission.pitch (RadarEmission.options self) <> 0
    /\ RadarEmission.createRadarCone self now = Normal (e1, s1)
    /\ RadarEmission2.createRadarCone self now = Normal (e2, s2)
    /\ ent_position e1 = mkCartesian3 (6378137 + 250000) 0 0
    /\ ent_position e2 = mkCartesian3 6378137 0 (-250000)
    /\ (ent_position e1, ent_orientation e1) <> (ent_position e2, ent_orientation e2).
Proof.
  exists halfTurnRadar, 0%Z. do 4 eexists.
  split; [cbn; lra|].
  split; [apply (createRadarCone_creates halfTurnRadar 0 0 0 [0]); reflexivity|].
  split; [apply (createRadarCone2_creates halfTurnRadar 0 0 0 [0]); reflexivity|].
  cbn [ent_position ent_orientation RadarEmission.radarCone RadarEmission.options
       halfTurnRadar].
  rewrite halfTurn_center, halfTurn_center2.
  repeat split.
  intros E. injection E as Ex _ _. lra.
Qed.

(** ** C2: the [time] uniform of the radial sweep *)

Lemma normalizedPhase_bounds now originTime periodMs :
  (0 < periodMs)%Z -> (originTime <= now)%Z ->
  0 <= normalizedPhase now originTime periodMs < 1.
Proof.
  intros Hd Ht. unfold normalizedPhase.
  destruct (Z.rem_bound_pos (now - originTime) periodMs) as [Hlo Hhi]; [lia|lia|].
  apply IZR_le in Hlo. apply IZR_lt in Hhi. apply IZR_lt in Hd.
  remember (IZR (Z.rem (now - originTime) periodMs)) as a eqn:Ea. clear Ea.
  remember (IZR periodMs) as b eqn:Eb. clear Eb.
  assert (Hi : 0 < / b) by now apply Rinv_0_lt_compat.
  assert (Hb : b * / b = 1) by (apply Rinv_r; lra).
  unfold Rdiv. split; [apply Rmult_le_pos; lra|].
  assert (a * / b < b * / b) by (apply Rmult_lt_compat_r; lra). lra.
Qed.

(** C2, as stated, fails: one second after its creation a sweep material of
    period 2000 ms is at phase 1/2, and [getValue] returns a [time] of 1/20,
    in geometry.ts as in RadarEmission.js. *)
Lemma sweep_time_not_phase :
  u_time (RadarPrimitiveMaterialProperty.getValue
            (RadarPrimitiveMaterialProperty.new Color.RED 0.3 0) 0 None 1000)
  <> normalizedPhase 1000 0 2000
  /\ u_time (RadarEmission.RadarPrimitiveMaterialProperty.getValue
               (RadarEmission.RadarPrimitiveMaterialProperty.new (Some Color.RED) 0.3 0)
               0 None 1000)
     <> normalizedPhase 1000 0 2000.
Proof.
  unfold normalizedPhase. cbn.
  replace (Z.rem (1000 - 0) 2000) with 1000%Z by reflexivity.
  split; lra.
Qed.

(** C2 (amended): for a material with a positive period, evaluated at or
    after its origin, the [time] uniform returned by [getValue] is one tenth
    of the normalized phase and lies in [0, 1/10); it is computed from the
    clock reading of the evaluation alone, whatever date and whatever
    previous result the caller passes in, and a later evaluation within the
    same period returns a strictly larger value.  This holds for the class
    of geometry.ts ([m]) and for the class of RadarEmission.js ([m']). *)
Theorem getValue_time
    (m : RadarPrimitiveMaterialProperty.t) (m' : RadarEmission.RadarPrimitiveMaterialProperty.t)
    (julian : R) (result : option Uniforms) (now : Z) :
  (0 < RadarPrimitiveMaterialProperty.duration (RadarPrimitiveMaterialProperty.opts m))%Z ->
  (RadarPrimitiveMaterialProperty.time (RadarPrimitiveMaterialProperty.opts m) <= now)%Z ->
  (0 < RadarEmission.RadarPrimitiveMaterialProperty.this_duration m')%Z ->
  (RadarEmission.RadarPrimitiveMaterialProperty._time m' <= now)%Z ->
  let t := u_time (RadarPrimitiveMaterialProperty.getValue m julian result now) in
  let t' := u_time (RadarEmission.RadarPrimitiveMaterialProperty.getValue m' julian result now) in
  t = normalizedPhase now
        (RadarPrimitiveMaterialProperty.time (RadarPrimitiveMaterialProperty.opts m))
        (RadarPrimitiveMaterialProperty.duration (RadarPrimitiveMaterialProperty.opts m)) / 10
  /\ 0 <= t < 1 / 10
  /\ t' = normalizedPhase now
        (RadarEmission.RadarPrimitiveMaterialProperty._time m')
        (RadarEmission.RadarPrimitiveMaterialProperty.this_duration m') / 10
  /\ 0 <= t' < 1 / 10
  /\ (forall julian' result',
        RadarPrimitiveMaterialProperty.getValue m julian' result' now
        = RadarPrimitiveMaterialProperty.getValue m julian result now)
  /\ (forall julian' result',
        RadarEmission.RadarPrimitiveMaterialProperty.getValue m' julian' result' now
        = RadarEmission.RadarPrimitiveMaterialProperty.getValue m' julian result now)
  /\ (forall later,
        (now < later)%Z ->
        (later - RadarPrimitiveMaterialProperty.time (RadarPrimitiveMaterialProperty.opts m)
         < RadarPrimitiveMaterialProperty.duration (RadarPrimitiveMaterialProperty.opts m))%Z ->
        t < u_time (RadarPrimitiveMaterialProperty.getValue m julian result later)).
Proof.
  intros Hd Ht Hd' Ht'. cbv zeta.
  assert (Hlater : forall later,
        (now < later)%Z ->
        (later - RadarPrimitiveMaterialProperty.time (RadarPrimitiveMaterialProperty.opts m)
         < RadarPrimitiveMaterialProperty.duration (RadarPrimitiveMaterialProperty.opts m))%Z ->
        u_time (RadarPrimitiveMaterialProperty.getValue m julian result now)
        < u_time (RadarPrimitiveMaterialProperty.getValue m julian result later)).
  { intros later Hl Hp. unfold RadarPrimitiveMaterialProperty.getValue. cbn [u_time].
    rewrite !Z.rem_small by lia.
    assert (Hlt : IZR (now - RadarPrimitiveMaterialProperty.time
                               (RadarPrimitiveMaterialProperty.opts m))
                  < IZR (later - RadarPrimitiveMaterialProperty.time
                                   (RadarPrimitiveMaterialProperty.opts m)))
      by (apply IZR_lt; lia).
    apply IZR_lt in Hd.
    assert (Hi : 0 < / IZR (RadarPrimitiveMaterialProperty.duration
                              (RadarPrimitiveMaterialProperty.opts m)))
      by now apply Rinv_0_lt_compat.
    unfold Rdiv. apply Rmult_lt_compat_r; [lra|]. apply Rmult_lt_compat_r; assumption. }
  pose proof (normalizedPhase_bounds now _ _ Hd Ht) as Hb.
  pose proof (normalizedPhase_bounds now _ _ Hd' Ht') as Hb'.
  unfold RadarPrimitiveMaterialProperty.getValue,
    RadarEmission.RadarPrimitiveMaterialProperty.getValue.
  cbn [u_time]. fold (normalizedPhase now
        (RadarPrimitiveMaterialProperty.time (RadarPrimitiveMaterialProperty.opts m))
        (RadarPrimitiveMaterialProperty.duration (RadarPrimitiveMaterialProperty.opts m))).
  fold (normalizedPhase now
        (RadarEmission.RadarPrimitiveMaterialProperty._time m')
        (RadarEmission.RadarPrimitiveMaterialProperty.this_duration m')).
  repeat split; try reflexivity; try lra. exact Hlater.
Qed.

(** The theorem at a sweep material created at time 0, one second later. *)
Lemma getValue_time_witness :
  let m := RadarPrimitiveMaterialProperty.new Color.RED 0.3 0 in
  let m' := RadarEmission.RadarPrimitiveMaterialProperty.new (Some Color.RED) 0.3 0 in
  let t := u_time (RadarPrimitiveMaterialProperty.getValue m 0 None 1000) in
  let t' := u_time (RadarEmission.RadarPrimitiveMaterialProperty.getValue m' 0 None 1000) in
  t = normalizedPhase 1000 0 2000 / 10
  /\ 0 <= t < 1 / 10
  /\ t' = normalizedPhase 1000 0 2000 / 10
  /\ 0 <= t' < 1 / 10
  /\ (forall julian' result',
        RadarPrimitiveMaterialProperty.getValue m julian' result' 1000
        = RadarPrimitiveMaterialProperty.getValue m 0 None 1000)
  /\ (forall julian' result',
        RadarEmission.RadarPrimitiveMaterialProperty.getValue m' julian' result' 1000
        = RadarEmission.RadarPrimitiveMaterialProperty.getValue m' 0 None 1000)
  /\ (forall later, (1000 < later)%Z -> (later - 0 < 2000)%Z ->
        t < u_time (RadarPrimitiveMaterialProperty.getValue m 0 None later)).
Proof.
  apply (getValue_time (RadarPrimitiveMaterialProperty.new Color.RED 0.3 0)
           (RadarEmission.RadarPrimitiveMaterialProperty.new (Some Color.RED) 0.3 0)
           0 None 1000); cbn; lia.
Defined.

(** ** The registry *)

Lemma liveEntries_one (w : World) id g :
  graphicMap w !! id = Some g -> liveEntries w id = [(id, g)].
Proof.
  intros H. unfold liveEntries.
  apply Permutation_singleton_r.
  rewrite <- (insert_delete_id (graphicMap w) id g H) at 1.
  rewrite map_to_list_insert by apply lookup_delete_eq.
  rewrite filter_cons_True by reflexivity.
  replace (filter (fun kv : string * Graphic => kv.1 = id)
             (map_to_list (delete id (graphicMap w)))) with (@nil (string * Graphic));
    [reflexivity|].
  symmetry. apply elem_of_nil_inv. intros [k v] Hin.
  apply list_elem_of_filter in Hin as [Hk Hin]. cbn in Hk. subst k.
  apply elem_of_map_to_list in Hin. rewrite lookup_delete_eq in Hin. discriminate.
Qed.

(** C5: when the identifier has a live entry, each creator returns [null]
    and changes nothing but the console: the viewer, the registry and the
    material registration are as before and nothing is allocated, whatever
    the engine does; the entry under the identifier is the one that was
    there, it is the only live entry under that identifier, and the
    identifiers of the live entries are pairwise distinct. *)
Theorem create_existing_id (engine : Engine) (w : World) (id : string) (g : Graphic)
    (wave : Geometry.Options) (fence : Fence.Options) (cone : Fence.ConeOptions)
    (flow : FenceFlow.Options) :
  graphicMap w !! id = Some g ->
  Geometry.id wave = id -> Fence.id fence = id -> Fence.cone_id cone = id ->
  FenceFlow.id flow = id ->
  forall call,
    In call [Geometry.conicalWave engine wave; Fence.fenceFlowEffect engine fence;
             Fence.conicalEffect engine cone; FenceFlow.fenceFlowEffect engine flow] ->
    exists w',
      call w = (Normal None, w')
      /\ sameButConsole w w'
      /\ graphicMap w' !! id = Some g
      /\ liveEntries w' id = [(id, g)]
      /\ NoDup (map_to_list (graphicMap w')).*1.
Proof.
  intros Hg Hw Hf Hc Hl call Hin.
  assert (Hr : refuses call w).
  { cbn [In] in Hin.
    destruct Hin as [<-|[<-|[<-|[<-|[]]]]].
    - unfold refuses, Geometry.conicalWave. run_step.
      destruct (viewer w); run_step; [rewrite Hw, Hg; run_step|];
        eexists; (split; [reflexivity|]); repeat split.
    - unfold refuses, Fence.fenceFlowEffect. run_step.
      destruct (viewer w); run_step; [rewrite Hf, Hg; run_step|];
        eexists; (split; [reflexivity|]); repeat split.
    - unfold refuses, Fence.conicalEffect. run_step.
      destruct (viewer w); run_step; [rewrite Hc, Hg; run_step|];
        eexists; (split; [reflexivity|]); repeat split.
    - unfold refuses, FenceFlow.fenceFlowEffect. run_step.
      destruct (viewer w); run_step; [rewrite Hl, Hg; run_step|];
        eexists; (split; [reflexivity|]); repeat split. }
  destruct Hr as (w' & Hcall & Hsame).
  exists w'. split; [exact Hcall|]. split; [exact Hsame|].
  destruct Hsame as (_ & Hmap & _).
  split; [rewrite Hmap; exact Hg|].
  split; [apply liveEntries_one; rewrite Hmap; exact Hg|].
  apply NoDup_fst_map_to_list.
Qed.

(** ** Walls *)

Lemma fromDegreesArrayHeights_loop_vertices positions :
  fromDegreesArrayHeights_loop (flat (coordinates_of positions)) =
  match wallVertices positions with
  | Some cs => Normal cs
  | None => Throw DeveloperError
  end.
Proof.
  induction positions as [|pos rest IH]; [reflexivity|].
  cbn [coordinates_of List.map flat List.concat app wallVertices] in *.
  unfold vertexOf. cbn [fromDegreesArrayHeights_loop].
  destruct (pos !! 0%nat), (pos !! 1%nat); try reflexivity.
  unfold flat, coordinates_of in IH. rewrite IH.
  destruct (wallVertices rest); reflexivity.
Qed.

Lemma fromDegreesArrayHeights_vertices positions cs :
  (2 <= List.length positions)%nat -> wallVertices positions = Some cs ->
  fromDegreesArrayHeights (flat (coordinates_of positions)) = Normal cs.
Proof.
  intros Hlen Hv. unfold fromDegreesArrayHeights.
  pose proof (fromDegreesArrayHeights_loop_vertices positions) as Hloop.
  rewrite Hv in Hloop.
  destruct positions as [|pos rest]; [cbn in Hlen; lia|].
  cbn [coordinates_of List.map flat List.concat app] in *. exact Hloop.
Qed.

Lemma coordinates_of_length positions :
  List.length (coordinates_of positions) = List.length positions.
Proof. unfold coordinates_of. apply List.length_map. Qed.

Lemma flame_fence_creates engine (o : Fence.Options) (w : World) v positions cs c :
  viewer w = Some v ->
  graphicMap w !! Fence.id o = None ->
  Fence.positions o = Some positions ->
  (2 <= List.length positions)%nat ->
  fromDegreesArrayHeights (flat (coordinates_of positions)) = Normal cs ->
  fromCssColorString engine (or_string (Fence.color o) "#FF6600") = Some c ->
  (forall call, fault engine call = None) ->
  let p := flamePrimitive o (List.length positions) cs c (allocated w) in
  Fence.fenceFlowEffect engine o w =
  (Normal (Some (GPrimitive p)),
   afterFence engine (Fence.id o) p
     (LogFlameFence (List.length positions) (or_number (Fence.maxHeight o) 100)) v w).
Proof.
  intros Hv Hid Hpos Hlen Hcs Hc Hf p.
  unfold Fence.fenceFlowEffect. run_step. rewrite Hv, Hid, Hpos. run_step.
  destruct (Nat.ltb_spec (List.length positions) 2) as [?|_]; [lia|].
  run_step. rewrite Hcs.
  rewrite coordinates_of_length, !Hf, Hc. run_step. rewrite !Hf. run_step.
  unfold set_console, set_graphicMap, set_viewer, set_allocated, set_material.
  cbn [viewer graphicMap radarPrimitiveType materialCache console clock allocated].
  rewrite Hv. reflexivity.
Qed.

Lemma flow_fence_creates engine (o : FenceFlow.Options) (w : World) v positions cs c :
  viewer w = Some v ->
  graphicMap w !! FenceFlow.id o = None ->
  FenceFlow.positions o = Some positions ->
  (2 <= List.length positions)%nat ->
  fromDegreesArrayHeights (flat (coordinates_of positions)) = Normal cs ->
  fromCssColorString engine (or_string (FenceFlow.color o) "#00FFFF") = Some c ->
  (forall call, fault engine call = None) ->
  let p := flowPrimitive o (List.length positions) cs c (allocated w) in
  FenceFlow.fenceFlowEffect engine o w =
  (Normal (Some (GPrimitive p)),
   afterFence engine (FenceFlow.id o) p (LogFlowFence (List.length positions)) v w).
Proof.
  intros Hv Hid Hpos Hlen Hcs Hc Hf p.
  unfold FenceFlow.fenceFlowEffect. run_step. rewrite Hv, Hid, Hpos. run_step.
  destruct (Nat.ltb_spec (List.length positions) 2) as [?|_]; [lia|].
  unfold FenceFlow.build, FenceFlow.publish. run_step.
  rewrite Hcs.
  rewrite coordinates_of_length, !Hf, Hc. run_step. rewrite !Hf. run_step.
  unfold set_console, set_graphicMap, set_viewer, set_allocated, set_material.
  cbn [viewer graphicMap radarPrimitiveType materialCache console clock allocated].
  rewrite Hv. reflexivity.
Qed.

(** ** Failures during construction *)

(** The flame fence catches whatever the engine throws: it returns a handle
    or [null], never an exception, and a [null] leaves the registry alone. *)
Lemma flame_fence_atomic engine (o : Fence.Options) (w : World) :
  exists r w', Fence.fenceFlowEffect engine o w = (Normal r, w')
               /\ registryAfter (Fence.id o) w (Normal r) w'.
Proof.
  unfold Fence.fenceFlowEffect. crunch; do 2 eexists; (split; [reflexivity|]);
    reflexivity.
Qed.

(** The flowing fence returns a handle or [null], or throws out of its
    catch clause when the engine refuses the removal; the registry is
    touched by a successful creation only. *)
Lemma flow_fence_atomic engine (o : FenceFlow.Options) (w : World) :
  exists r w', FenceFlow.fenceFlowEffect engine o w = (r, w')
               /\ registryAfter (FenceFlow.id o) w r w'.
Proof.
  unfold FenceFlow.fenceFlowEffect, FenceFlow.build, FenceFlow.publish, FenceFlow.cleanup.
  crunch; do 2 eexists; (split; [reflexivity|]); reflexivity.
Qed.

Lemma conicalEffect_atomic engine (o : Fence.ConeOptions) (w : World) :
  exists r w', Fence.conicalEffect engine o w = (Normal r, w')
               /\ registryAfter (Fence.cone_id o) w (Normal r) w'.
Proof.
  unfold Fence.conicalEffect. crunch; do 2 eexists; (split; [reflexivity|]);
    reflexivity.
Qed.

(** [conicalWave] has no catch clause: it may end in an exception; the
    registry is touched by a successful creation only. *)
Lemma conicalWave_registry engine (o : Geometry.Options) (w : World) :
  exists r w', Geometry.conicalWave engine o w = (r, w')
               /\ registryAfter (Geometry.id o) w r w'.
Proof.
  unfold Geometry.conicalWave. crunch; do 2 eexists; (split; [reflexivity|]);
    reflexivity.
Qed.

(** C6, at the failing input: with a colour string the engine does not
    parse, [conicalWave] ends in a [TypeError] that nothing catches, where
    the flame fence given the same colour string returns [null]; in both
    cases the registry stays empty. *)
Theorem conicalWave_uncaught_exception :
  (exists w', Geometry.conicalWave quietEngine miscolouredWave freshWorld
              = (Throw TypeError, w')
              /\ graphicMap w' = graphicMap freshWorld)
  /\ (exists w', Fence.fenceFlowEffect quietEngine miscolouredFence freshWorld
                 = (Normal None, w')
                 /\ graphicMap w' = graphicMap freshWorld).
Proof.
  split.
  - eexists. split; [reflexivity|reflexivity].
  - eexists. split.
    + vm_compute. reflexivity.
    + reflexivity.
Qed.

(** ** C7: the vertex count of a wall *)

(** C7: a fence with a single position is refused, in any world and by
    either fence creator: the call returns [null] and nothing is created or
    stored; with a map and a fresh identifier the console receives the
    two-points error.  A fence with two positions that the engine converts,
    a map, a fresh identifier, a colour the engine parses and an engine that
    does not fault, is created: the primitive is returned, added
    to the scene and stored under the identifier. *)
Theorem fence_vertex_count engine (w0 w : World) v (id : string)
    (one two : Fence.Options) (oneF twoF : FenceFlow.Options) pos p1 p2 cs c cF :
  Fence.positions one = Some [pos] -> FenceFlow.positions oneF = Some [pos] ->
  Fence.positions two = Some [p1; p2] -> FenceFlow.positions twoF = Some [p1; p2] ->
  Fence.id one = id -> FenceFlow.id oneF = id -> Fence.id two = id -> FenceFlow.id twoF = id ->
  viewer w = Some v -> graphicMap w !! id = None ->
  fromDegreesArrayHeights (flat (coordinates_of [p1; p2])) = Normal cs ->
  fromCssColorString engine (or_string (Fence.color two) "#FF6600") = Some c ->
  fromCssColorString engine (or_string (FenceFlow.color twoF) "#00FFFF") = Some cF ->
  (forall call, fault engine call = None) ->
  refuses (Fence.fenceFlowEffect engine one) w0
  /\ refuses (FenceFlow.fenceFlowEffect engine oneF) w0
  /\ snd (Fence.fenceFlowEffect engine one w)
     = set_console (console w ++ [ErrFenceNeedsTwoPoints]) w
  /\ snd (FenceFlow.fenceFlowEffect engine oneF w)
     = set_console (console w ++ [ErrFenceNeedsTwoPoints]) w
  /\ (exists p w',
        Fence.fenceFlowEffect engine two w = (Normal (Some (GPrimitive p)), w')
        /\ graphicMap w' !! id = Some (GPrimitive p)
        /\ (primitives <$> viewer w') = Some (primitives v ++ [p])
        /\ prim_geometry (prim_options p)
           = GWall (mkWall cs (fill 2 0) (fill 2 (or_number (Fence.maxHeight two) 100))))
  /\ (exists p w',
        FenceFlow.fenceFlowEffect engine twoF w = (Normal (Some (GPrimitive p)), w')
        /\ graphicMap w' !! id = Some (GPrimitive p)
        /\ (primitives <$> viewer w') = Some (primitives v ++ [p])
        /\ prim_geometry (prim_options p) = GWall (mkWall cs (fill 2 0) (fill 2 100))).
Proof.
  intros H1 H1F H2 H2F I1 I1F I2 I2F Hv Hid Hcs Hc HcF Hq.
  repeat apply conj.
  - unfold refuses, Fence.fenceFlowEffect. run_step.
    destruct (viewer w0); run_step; [destruct (graphicMap w0 !! Fence.id one); run_step|];
      rewrite ?H1; run_step; eexists; (split; [reflexivity|]); repeat split.
  - unfold refuses, FenceFlow.fenceFlowEffect. run_step.
    destruct (viewer w0); run_step; [destruct (graphicMap w0 !! FenceFlow.id oneF); run_step|];
      rewrite ?H1F; run_step; eexists; (split; [reflexivity|]); repeat split.
  - unfold Fence.fenceFlowEffect. run_step. rewrite Hv, I1, Hid, H1. reflexivity.
  - unfold FenceFlow.fenceFlowEffect. run_step. rewrite Hv, I1F, Hid, H1F. reflexivity.
  - rewrite <- I2 in Hid |- *. do 2 eexists. split.
    + apply (flame_fence_creates engine two w v [p1; p2] cs c); auto.
    + unfold afterFence. cbn [graphicMap viewer fmap option_fmap option_map primitives].
      rewrite lookup_insert_eq. repeat split.
  - rewrite <- I2F in Hid |- *. do 2 eexists. split.
    + apply (flow_fence_creates engine twoF w v [p1; p2] cs cF); auto.
    + unfold afterFence. cbn [graphicMap viewer fmap option_fmap option_map primitives].
      rewrite lookup_insert_eq. repeat split.
Qed.

(** The theorem at fences of one and of two positions on the equator. *)
Lemma fence_vertex_count_witness :
  refuses (Fence.fenceFlowEffect quietEngine pointFence) freshWorld
  /\ refuses (FenceFlow.fenceFlowEffect quietEngine pointFlow) freshWorld
  /\ snd (Fence.fenceFlowEffect quietEngine pointFence freshWorld)
     = set_console (console freshWorld ++ [ErrFenceNeedsTwoPoints]) freshWorld
  /\ snd (FenceFlow.fenceFlowEffect quietEngine pointFlow freshWorld)
     = set_console (console freshWorld ++ [ErrFenceNeedsTwoPoints]) freshWorld
  /\ (exists p w',
        Fence.fenceFlowEffect quietEngine lineFence freshWorld
        = (Normal (Some (GPrimitive p)), w')
        /\ graphicMap w' !! "fence"%string = Some (GPrimitive p)
        /\ (primitives <$> viewer w') = Some ([] ++ [p])
        /\ prim_geometry (prim_options p)
           = GWall (mkWall lineVertices (fill 2 0)
                           (fill 2 (or_number (Fence.maxHeight lineFence) 100))))
  /\ (exists p w',
        FenceFlow.fenceFlowEffect quietEngine lineFlow freshWorld
        = (Normal (Some (GPrimitive p)), w')
        /\ graphicMap w' !! "fence"%string = Some (GPrimitive p)
        /\ (primitives <$> viewer w') = Some ([] ++ [p])
        /\ prim_geometry (prim_options p) = GWall (mkWall lineVertices (fill 2 0) (fill 2 100))).
Proof.
  apply (fence_vertex_count quietEngine freshWorld freshWorld (mkViewer [] []) "fence"
           pointFence lineFence pointFlow lineFlow [0; 0] [0; 0] [1; 0] lineVertices
           (mkColor 1 0.4 0 1) (mkColor 0 1 1 1));
    reflexivity.
Defined.

(** ** C10: falsy options fall back to the defaults *)

(** C10: the flame fence replaces a falsy option by its default.  With
    [maxHeight = 0] the wall is built from height 0 to height 100 at every
    vertex and the shader is given a maximum height of 100; with [speed = 0]
    the shader is given speed 1; a position without a third coordinate, or
    with a third coordinate of 0, is given the height 0.  Such a fence is
    created and stored like any other. *)
Theorem fence_falsy_defaults engine (o : Fence.Options) (w : World) v positions cs c :
  viewer w = Some v ->
  graphicMap w !! Fence.id o = None ->
  Fence.positions o = Some positions ->
  (2 <= List.length positions)%nat ->
  fromDegreesArrayHeights (flat (coordinates_of positions)) = Normal cs ->
  fromCssColorString engine (or_string (Fence.color o) "#FF6600") = Some c ->
  (forall call, fault engine call = None) ->
  let n := List.length positions in
  exists p w' speed maxHeight,
    Fence.fenceFlowEffect engine o w = (Normal (Some (GPrimitive p)), w')
    /\ graphicMap w' !! Fence.id o = Some (GPrimitive p)
    /\ prim_geometry (prim_options p) = GWall (mkWall cs (fill n 0) (fill n maxHeight))
    /\ prim_fabric (prim_options p) = FlameFabric (Color.withAlpha c 0.9) speed maxHeight 0
    /\ (Fence.maxHeight o = Some 0 -> maxHeight = 100 /\ fill n maxHeight = List.repeat 100 n)
    /\ (Fence.speed o = Some 0 -> speed = 1)
    /\ (forall lng lat, coordinates_of [[lng; lat]] = [[Some lng; Some lat; Some 0]])
    /\ (forall lng lat, coordinates_of [[lng; lat; 0]] = [[Some lng; Some lat; Some 0]])
    /\ (forall lng lat h, h <> 0 ->
          coordinates_of [[lng; lat; h]] = [[Some lng; Some lat; Some h]]).
Proof.
  intros Hv Hid Hpos Hlen Hcs Hc Hq n.
  exists (flamePrimitive o n cs c (allocated w)). eexists.
  exists (or_number (Fence.speed o) 1), (or_number (Fence.maxHeight o) 100).
  split; [apply (flame_fence_creates engine o w v positions cs c); auto|].
  unfold afterFence. cbn [graphicMap]. rewrite lookup_insert_eq.
  assert (Hz : forall d, or_number (Some 0) d = d).
  { intros d. unfold or_number. destruct (Req_dec_T 0 0) as [_|Hn]; [reflexivity|].
    exfalso. apply Hn. reflexivity. }
  split; [reflexivity|]. split; [reflexivity|]. split; [reflexivity|].
  split; [intros E; rewrite E, Hz; split; reflexivity|].
  split; [intros E; rewrite E, Hz; lra|].
  split; [reflexivity|].
  split.
  { intros lng lat. unfold coordinates_of. cbn [List.map lookup list_lookup].
    rewrite Hz. reflexivity. }
  intros lng lat h Hh. unfold coordinates_of, or_number. cbn [List.map lookup list_lookup].
  destruct (Req_dec_T h 0) as [E|_]; [contradiction|reflexivity].
Qed.

(** The theorem at a fence given [maxHeight = 0] and [speed = 0]. *)
Lemma fence_falsy_defaults_witness :
  exists p w' speed maxHeight,
    Fence.fenceFlowEffect quietEngine zeroedFence freshWorld
    = (Normal (Some (GPrimitive p)), w')
    /\ graphicMap w' !! "fence"%string = Some (GPrimitive p)
    /\ prim_geometry (prim_options p)
       = GWall (mkWall lineVertices (fill 2 0) (fill 2 maxHeight))
    /\ prim_fabric (prim_options p)
       = FlameFabric (Color.withAlpha (mkColor 1 0.4 0 1) 0.9) speed maxHeight 0
    /\ (Fence.maxHeight zeroedFence = Some 0 ->
        maxHeight = 100 /\ fill 2 maxHeight = List.repeat 100 2%nat)
    /\ (Fence.speed zeroedFence = Some 0 -> speed = 1)
    /\ (forall lng lat, coordinates_of [[lng; lat]] = [[Some lng; Some lat; Some 0]])
    /\ (forall lng lat, coordinates_of [[lng; lat; 0]] = [[Some lng; Some lat; Some 0]])
    /\ (forall lng lat h, h <> 0 ->
          coordinates_of [[lng; lat; h]] = [[Some lng; Some lat; Some h]]).
Proof.
  apply (fence_falsy_defaults quietEngine zeroedFence freshWorld (mkViewer [] [])
           [[0; 0]; [1; 0]] lineVertices (mkColor 1 0.4 0 1));
    try reflexivity; cbn; lia.
Defined.

(** ** C8: a cone of length zero *)

(** C8, as stated, fails: [conicalWave] given [length = 0] in a world with
    a map and no effect returns an entity whose cylinder has length 0, and
    the entity is in the viewer and in the registry. *)
Lemma conicalWave_accepts_zero_length :
  exists e w',
    Geometry.conicalWave quietEngine flatWave freshWorld = (Normal (Some (GEntity e)), w')
    /\ cyl_length (ent_cylinder e) = 0
    /\ graphicMap w' !! "wave"%string = Some (GEntity e)
    /\ (entities <$> viewer w') = Some [e].
Proof.
  do 2 eexists. split.
  - apply (conicalWave_creates quietEngine flatWave freshWorld (mkViewer [] []) 0 0 [0]
             (mkColor 0 1 1 1)); reflexivity.
  - unfold afterConicalWave.
    cbn [graphicMap viewer fmap option_fmap option_map entities ent_cylinder cyl_length
         radarCone Geometry.length flatWave Geometry.id app].
    rewrite lookup_insert_eq. repeat split.
Qed.

Lemma shift_by_nothing (p d : Cartesian3) :
  Cartesian3.subtract (Cartesian3.clone p) (Cartesian3.multiplyByScalar d (0 / 2)) = p.
Proof.
  destruct p as [px py pz].
  unfold Cartesian3.subtract, Cartesian3.multiplyByScalar, Cartesian3.clone.
  cbn [x y z]. f_equal; lra.
Qed.

(** C8 (amended): [conicalWave] does not look at [options.length] before
    building.  With [length = 0], a map, a fresh identifier, a longitude and
    a latitude, a colour the engine parses and an engine that accepts the
    entity, it returns an entity whose cylinder has length 0 and whose centre
    is the vertex position itself, and adds it to the viewer and to the
    registry. *)
Theorem conicalWave_zero_length engine (o : Geometry.Options) (w : World) v lng lat rest c :
  Geometry.length o = 0 ->
  viewer w = Some v ->
  graphicMap w !! Geometry.id o = None ->
  Geometry.positions o = lng :: lat :: rest ->
  fromCssColorString engine (or_string (Geometry.color o) "#00FFFF") = Some c ->
  (forall e, fault engine (EntitiesAdd e) = None) ->
  exists e w',
    Geometry.conicalWave engine o w = (Normal (Some (GEntity e)), w')
    /\ cyl_length (ent_cylinder e) = 0
    /\ ent_position e = Cartesian3.fromDegrees lng lat (heightOf (Geometry.positions o))
    /\ graphicMap w' !! Geometry.id o = Some (GEntity e)
    /\ (entities <$> viewer w') = Some (entities v ++ [e]).
Proof.
  intros Hlen Hv Hid Hpos Hc Hf.
  do 2 eexists. split.
  - apply (conicalWave_creates engine o w v lng lat rest c); assumption.
  - unfold afterConicalWave.
    cbn [graphicMap viewer fmap option_fmap option_map entities ent_cylinder cyl_length
         ent_position radarCone].
    rewrite lookup_insert_eq.
    split; [exact Hlen|]. split; [|split; reflexivity].
    unfold Geometry.cylinderCenter, Geometry.offset, Geometry.halfLength,
      Geometry.vertexPosition.
    rewrite Hlen. apply shift_by_nothing.
Qed.

(** The theorem at the cone of length 0 in an empty world. *)
Lemma conicalWave_zero_length_witness :
  exists e w',
    Geometry.conicalWave quietEngine flatWave freshWorld = (Normal (Some (GEntity e)), w')
    /\ cyl_length (ent_cylinder e) = 0
    /\ ent_position e = Cartesian3.fromDegrees 0 0 (heightOf [0; 0; 0])
    /\ graphicMap w' !! "wave"%string = Some (GEntity e)
    /\ (entities <$> viewer w') = Some ([] ++ [e]).
Proof.
  apply (conicalWave_zero_length quietEngine flatWave freshWorld (mkViewer [] []) 0 0 [0]
           (mkColor 0 1 1 1)); reflexivity.
Defined.

(** ** C5: a world with a live fence *)

(** The theorem at a world in which the fence is live, for the flame fence. *)
Lemma create_existing_id_witness :
  exists w',
    Fence.fenceFlowEffect quietEngine lineFence fencedWorld = (Normal None, w')
    /\ sameButConsole fencedWorld w'
    /\ graphicMap w' !! "fence"%string = Some storedFence
    /\ liveEntries w' "fence" = [("fence"%string, storedFence)]
    /\ NoDup (map_to_list (graphicMap w')).*1.
Proof.
  apply (create_existing_id quietEngine fencedWorld "fence" storedFence
           (Geometry.mkOptions "fence" [0; 0; 0] 0 0 1 1 0.3 None)
           lineFence
           (Fence.mkConeOptions "fence" (Some [0; 0; 0]) None None None None None)
           lineFlow);
    try reflexivity.
  cbn [In]. right. left. reflexivity.
Defined.

(** * Further properties of the code *)

(** ** The sweep material over time *)

Lemma rem_shift (a k d : Z) :
  (0 < d)%Z -> (0 <= a)%Z -> (0 <= k)%Z -> Z.rem (a + k * d) d = Z.rem a d.
Proof. intros Hd Ha Hk. apply Z.rem_add; nia. Qed.

(** X1: the sweep is periodic in the wall clock.  For a material with a
    positive duration evaluated at or after its origin, evaluating any whole
    number of durations later returns the same uniforms, in geometry.ts and
    in RadarEmission.js; and at the origin plus a whole number of durations
    the [time] uniform is 0. *)
Theorem sweep_periodic
    (m : RadarPrimitiveMaterialProperty.t) (m' : RadarEmission.RadarPrimitiveMaterialProperty.t)
    (julian : R) (result : option Uniforms) (now k : Z) :
  (0 < RadarPrimitiveMaterialProperty.duration (RadarPrimitiveMaterialProperty.opts m))%Z ->
  (RadarPrimitiveMaterialProperty.time (RadarPrimitiveMaterialProperty.opts m) <= now)%Z ->
  (0 < RadarEmission.RadarPrimitiveMaterialProperty.this_duration m')%Z ->
  (RadarEmission.RadarPrimitiveMaterialProperty._time m' <= now)%Z ->
  (0 <= k)%Z ->
  let d := RadarPrimitiveMaterialProperty.duration (RadarPrimitiveMaterialProperty.opts m) in
  let t0 := RadarPrimitiveMaterialProperty.time (RadarPrimitiveMaterialProperty.opts m) in
  let d' := RadarEmission.RadarPrimitiveMaterialProperty.this_duration m' in
  let t0' := RadarEmission.RadarPrimitiveMaterialProperty._time m' in
  RadarPrimitiveMaterialProperty.getValue m julian result (now + k * d)
  = RadarPrimitiveMaterialProperty.getValue m julian result now
  /\ RadarEmission.RadarPrimitiveMaterialProperty.getValue m' julian result (now + k * d')
     = RadarEmission.RadarPrimitiveMaterialProperty.getValue m' julian result now
  /\ u_time (RadarPrimitiveMaterialProperty.getValue m julian result (t0 + k * d)) = 0
  /\ u_time (RadarEmission.RadarPrimitiveMaterialProperty.getValue m' julian result
               (t0' + k * d')) = 0.
Proof.
  intros Hd Ht Hd' Ht' Hk. cbv zeta.
  unfold RadarPrimitiveMaterialProperty.getValue,
    RadarEmission.RadarPrimitiveMaterialProperty.getValue. cbn [u_time].
  set (d := RadarPrimitiveMaterialProperty.duration (RadarPrimitiveMaterialProperty.opts m)) in *.
  set (t0 := RadarPrimitiveMaterialProperty.time (RadarPrimitiveMaterialProperty.opts m)) in *.
  set (d' := RadarEmission.RadarPrimitiveMaterialProperty.this_duration m') in *.
  set (t0' := RadarEmission.RadarPrimitiveMaterialProperty._time m') in *.
  replace (now + k * d - t0)%Z with ((now - t0) + k * d)%Z by lia.
  replace (now + k * d' - t0')%Z with ((now - t0') + k * d')%Z by lia.
  replace (t0 + k * d - t0)%Z with (0 + k * d)%Z by lia.
  replace (t0' + k * d' - t0')%Z with (0 + k * d')%Z by lia.
  rewrite !rem_shift by lia.
  rewrite !Z.rem_0_l by lia.
  repeat split; unfold Rdiv; ring.
Qed.

(** The theorem for a sweep created at time 0, at 1000 ms and three periods on. *)
Lemma sweep_periodic_witness :
  let m := RadarPrimitiveMaterialProperty.new Color.RED 0.3 0 in
  let m' := RadarEmission.RadarPrimitiveMaterialProperty.new (Some Color.RED) 0.3 0 in
  RadarPrimitiveMaterialProperty.getValue m 0 None (1000 + 3 * 2000)
  = RadarPrimitiveMaterialProperty.getValue m 0 None 1000
  /\ RadarEmission.RadarPrimitiveMaterialProperty.getValue m' 0 None (1000 + 3 * 2000)
     = RadarEmission.RadarPrimitiveMaterialProperty.getValue m' 0 None 1000
  /\ u_time (RadarPrimitiveMaterialProperty.getValue m 0 None (0 + 3 * 2000)) = 0
  /\ u_time (RadarEmission.RadarPrimitiveMaterialProperty.getValue m' 0 None (0 + 3 * 2000)) = 0.
Proof.
  apply (sweep_periodic (RadarPrimitiveMaterialProperty.new Color.RED 0.3 0)
           (RadarEmission.RadarPrimitiveMaterialProperty.new (Some Color.RED) 0.3 0)
           0 None 1000 3); cbn; lia.
Defined.

(** X2: evaluated before its origin (the clock was set back), a material
    with a positive duration returns a [time] uniform that is not positive:
    it lies in (-1/10, 0], because [%] keeps the sign of the elapsed time. *)
Theorem sweep_before_origin
    (m : RadarPrimitiveMaterialProperty.t) (julian : R) (result : option Uniforms) (now : Z) :
  (0 < RadarPrimitiveMaterialProperty.duration (RadarPrimitiveMaterialProperty.opts m))%Z ->
  (now < RadarPrimitiveMaterialProperty.time (RadarPrimitiveMaterialProperty.opts m))%Z ->
  let t := u_time (RadarPrimitiveMaterialProperty.getValue m julian result now) in
  - (1 / 10) < t <= 0
  /\ ((now - RadarPrimitiveMaterialProperty.time (RadarPrimitiveMaterialProperty.opts m)
       > - RadarPrimitiveMaterialProperty.duration (RadarPrimitiveMaterialProperty.opts m))%Z ->
      t < 0).
Proof.
  intros Hd Ht. cbv zeta. unfold RadarPrimitiveMaterialProperty.getValue. cbn [u_time].
  set (d := RadarPrimitiveMaterialProperty.duration (RadarPrimitiveMaterialProperty.opts m)) in *.
  set (t0 := RadarPrimitiveMaterialProperty.time (RadarPrimitiveMaterialProperty.opts m)) in *.
  assert (Hle : (Z.rem (now - t0) d <= 0)%Z) by (apply Z.rem_nonpos; lia).
  assert (Hlo : (- d < Z.rem (now - t0) d)%Z).
  { pose proof (Z.rem_bound_abs (now - t0) d ltac:(lia)) as Hb. lia. }
  apply IZR_le in Hle. apply IZR_lt in Hlo. rewrite opp_IZR in Hlo.
  pose proof (IZR_lt _ _ Hd) as Hd0.
  assert (Hi : 0 < / IZR d) by now apply Rinv_0_lt_compat.
  assert (Hb : IZR d * / IZR d = 1) by (apply Rinv_r; lra).
  assert (H1 : - IZR d * / IZR d < IZR (Z.rem (now - t0) d) * / IZR d)
    by (apply Rmult_lt_compat_r; lra).
  assert (H2 : IZR (Z.rem (now - t0) d) * / IZR d <= 0).
  { replace 0 with (0 * / IZR d) by ring. apply Rmult_le_compat_r; lra. }
  unfold Rdiv. split; [split; lra|].
  intros Hs.
  assert (Hrem : Z.rem (now - t0) d = (now - t0)%Z) by (apply Z.rem_small_iff; lia).
  rewrite Hrem.
  assert (IZR (now - t0) < 0) by (apply IZR_lt; lia).
  assert (IZR (now - t0) * / IZR d < 0 * / IZR d) by (apply Rmult_lt_compat_r; lra).
  lra.
Qed.

(** The theorem for a sweep created at time 1000, read at time 0. *)
Lemma sweep_before_origin_witness :
  let t := u_time (RadarPrimitiveMaterialProperty.getValue
                     (RadarPrimitiveMaterialProperty.new Color.RED 0.3 1000) 0 None 0) in
  - (1 / 10) < t <= 0 /\ ((0 - 1000 > - 2000)%Z -> t < 0).
Proof.
  apply (sweep_before_origin (RadarPrimitiveMaterialProperty.new Color.RED 0.3 1000) 0 None 0);
    cbn; lia.
Defined.


(** ** The shader of the radial sweep *)

Lemma floor_shift (v : R) (k : Z) : Glsl.floor (v + IZR k) = Glsl.floor v + IZR k.
Proof.
  unfold Glsl.floor. rewrite <- plus_IZR. f_equal. symmetry. apply Int_part_spec.
  destruct (base_Int_part v) as [H1 H2]. rewrite plus_IZR. lra.
Qed.

Lemma mod_range (v b : R) : 0 < b -> 0 <= Glsl.mod_ v b < b.
Proof.
  intros Hb. unfold Glsl.mod_, Glsl.floor.
  destruct (base_Int_part (v / b)) as [H1 H2].
  assert (Hv : v = b * (v / b)) by (field; lra).
  remember (IZR (Int_part (v / b))) as f eqn:Ef. clear Ef.
  remember (v / b) as q eqn:Eq. clear Eq. subst v.
  split; nra.
Qed.

Lemma mod_shift (v b : R) (k : Z) : b <> 0 -> Glsl.mod_ (v - IZR k * b) b = Glsl.mod_ v b.
Proof.
  intros Hb. unfold Glsl.mod_.
  replace ((v - IZR k * b) / b) with (v / b + IZR (- k)) by (rewrite opp_IZR; field; exact Hb).
  rewrite floor_shift, opp_IZR. ring.
Qed.

Lemma radar_shader_shift (c : Color) (time repeat offset thickness : R) (st : R * R) (k : Z) :
  repeat <> 0 ->
  RadarShader.czm_getMaterial (mkUniforms c (time + IZR k / repeat) repeat offset thickness) st
  = RadarShader.czm_getMaterial (mkUniforms c time repeat offset thickness) st.
Proof.
  intros Hr0.
  unfold RadarShader.czm_getMaterial, RadarShader.a, RadarShader.m, RadarShader.sp,
    RadarShader.dis.
  cbn [u_time u_repeat u_offset u_thickness u_color].
  replace (Glsl.distance st (0.5, 0.5) + offset - (time + IZR k / repeat))
    with (Glsl.distance st (0.5, 0.5) + offset - time - IZR k * (1 / repeat))
    by (field; exact Hr0).
  rewrite mod_shift; [reflexivity|].
  unfold Rdiv. rewrite Rmult_1_l. now apply Rinv_neq_0_compat.
Qed.

(** X3: the ring pattern only depends on the [time] uniform modulo the ring
    spacing [1 / repeat]: adding a whole number of spacings to [time] leaves
    the material unchanged.  With the repeat count 30 that every sweep
    material carries, the upper end 1/10 of the range of [time] is three
    spacings, so the pattern at [time + 1/10] is the pattern at [time]. *)
Theorem radar_pattern_spacing (c : Color) (time repeat offset thickness : R) (st : R * R)
    (k : Z) :
  repeat <> 0 ->
  RadarShader.czm_getMaterial (mkUniforms c (time + IZR k / repeat) repeat offset thickness) st
  = RadarShader.czm_getMaterial (mkUniforms c time repeat offset thickness) st
  /\ RadarShader.czm_getMaterial (mkUniforms c (time + 1 / 10) 30 offset thickness) st
     = RadarShader.czm_getMaterial (mkUniforms c time 30 offset thickness) st.
Proof.
  intros Hr. split; [apply radar_shader_shift; exact Hr|].
  replace (1 / 10) with (IZR 3 / 30) by lra. apply radar_shader_shift. lra.
Qed.

(** The theorem for the repeat count 30 and one spacing. *)
Lemma radar_pattern_spacing_witness :
  RadarShader.czm_getMaterial (mkUniforms Color.RED (0 + IZR 1 / 30) 30 0 0.3) (0, 0)
  = RadarShader.czm_getMaterial (mkUniforms Color.RED 0 30 0 0.3) (0, 0)
  /\ RadarShader.czm_getMaterial (mkUniforms Color.RED (0 + 1 / 10) 30 0 0.3) (0, 0)
     = RadarShader.czm_getMaterial (mkUniforms Color.RED 0 30 0 0.3) (0, 0).
Proof.
  apply (radar_pattern_spacing Color.RED 0 30 0 0.3 (0, 0) 1). lra.
Defined.

(** X4: the sweep advances evenly across the period boundary.  For a sweep
    material built by the constructor of geometry.ts (duration 2000, repeat
    30), the material drawn one millisecond later is the material drawn with
    the [time] uniform advanced by 1/20000, also when the clock reading wraps
    from the end of a period to the start of the next. *)
Theorem sweep_advances_evenly (c : Color) (thickness : R) (origin now : Z)
    (julian : R) (result : option Uniforms) (st : R * R) :
  (origin <= now)%Z ->
  let prop := RadarPrimitiveMaterialProperty.new c thickness origin in
  let u := RadarPrimitiveMaterialProperty.getValue prop julian result now in
  let u1 := RadarPrimitiveMaterialProperty.getValue prop julian result (now + 1) in
  RadarShader.czm_getMaterial u1 st
  = RadarShader.czm_getMaterial
      (mkUniforms (u_color u) (u_time u + 1 / 20000) (u_repeat u) (u_offset u) (u_thickness u))
      st.
Proof.
  intros Hn. cbv zeta.
  unfold RadarPrimitiveMaterialProperty.getValue, RadarPrimitiveMaterialProperty.new.
  cbn [RadarPrimitiveMaterialProperty.opts RadarPrimitiveMaterialProperty._color
       RadarPrimitiveMaterialProperty.time RadarPrimitiveMaterialProperty.duration
       RadarPrimitiveMaterialProperty.repeat RadarPrimitiveMaterialProperty.offset
       RadarPrimitiveMaterialProperty.thickness RadarPrimitiveMaterialProperty.color
       u_color u_time u_repeat u_offset u_thickness].
  destruct (Z.rem_bound_pos (now - origin) 2000) as [Hlo Hhi]; [lia|lia|].
  pose proof (Z.rem_mod_nonneg (now - origin) 2000 ltac:(lia) ltac:(lia)) as Hm.
  pose proof (Z.rem_mod_nonneg (now + 1 - origin) 2000 ltac:(lia) ltac:(lia)) as Hm1.
  replace (now + 1 - origin)%Z with ((now - origin) + 1)%Z in * by lia.
  rewrite Hm1, Hm in *.
  pose proof (Z.div_mod (now - origin) 2000 ltac:(lia)) as Hd.
  destruct (Z.eq_dec ((now - origin) mod 2000)%Z 1999%Z) as [E|E].
  - assert (E1 : ((now - origin + 1) mod 2000 = 0)%Z).
    { replace (now - origin + 1)%Z with (0 + ((now - origin) / 2000 + 1) * 2000)%Z by lia.
      rewrite Z.mod_add by lia. reflexivity. }
    rewrite E, E1.
    replace (IZR 1999 / IZR 2000 / 10 + 1 / 20000) with (0 + IZR 3 / 30) by lra.
    replace (IZR 0 / IZR 2000 / 10) with 0 by lra.
    symmetry. apply radar_shader_shift. lra.
  - assert (E1 : ((now - origin + 1) mod 2000 = (now - origin) mod 2000 + 1)%Z).
    { symmetry. apply (Z.mod_unique_pos _ _ ((now - origin) / 2000)); lia. }
    rewrite E1, plus_IZR. f_equal. f_equal. lra.
Qed.

(** The theorem at the last millisecond of the first period. *)
Lemma sweep_advances_evenly_witness :
  RadarShader.czm_getMaterial
    (RadarPrimitiveMaterialProperty.getValue
       (RadarPrimitiveMaterialProperty.new Color.RED 0.3 0) 0 None (1999 + 1)) (0, 0)
  = RadarShader.czm_getMaterial
      (mkUniforms
         (u_color (RadarPrimitiveMaterialProperty.getValue
                     (RadarPrimitiveMaterialProperty.new Color.RED 0.3 0) 0 None 1999))
         (u_time (RadarPrimitiveMaterialProperty.getValue
                    (RadarPrimitiveMaterialProperty.new Color.RED 0.3 0) 0 None 1999)
          + 1 / 20000)
         (u_repeat (RadarPrimitiveMaterialProperty.getValue
                      (RadarPrimitiveMaterialProperty.new Color.RED 0.3 0) 0 None 1999))
         (u_offset (RadarPrimitiveMaterialProperty.getValue
                      (RadarPrimitiveMaterialProperty.new Color.RED 0.3 0) 0 None 1999))
         (u_thickness (RadarPrimitiveMaterialProperty.getValue
                         (RadarPrimitiveMaterialProperty.new Color.RED 0.3 0) 0 None 1999)))
      (0, 0).
Proof.
  apply (sweep_advances_evenly Color.RED 0.3 0 1999 0 None (0, 0)). lia.
Defined.

(** X5: what the thickness does.  With a positive repeat count the alpha of
    the sweep is either zero or the alpha of the colour; a thickness of zero
    or less leaves nothing visible, a thickness of one or more fills the
    whole surface. *)
Theorem radar_thickness_extremes (u : Uniforms) (st : R * R) :
  0 < u_repeat u ->
  let material := RadarShader.czm_getMaterial u st in
  (mat_alpha material = 0 \/ mat_alpha material = alpha (u_color u))
  /\ (u_thickness u <= 0 -> mat_alpha material = 0)
  /\ (1 <= u_thickness u -> mat_alpha material = alpha (u_color u))
  /\ mat_diffuse material = (red (u_color u), green (u_color u), blue (u_color u)).
Proof.
  intros Hr. cbv zeta.
  unfold RadarShader.czm_getMaterial, RadarShader.a. cbn [mat_alpha mat_diffuse].
  assert (Hsp : 0 < RadarShader.sp u).
  { unfold RadarShader.sp. apply Rdiv_lt_0_compat; lra. }
  pose proof (mod_range (RadarShader.dis st + u_offset u - u_time u) (RadarShader.sp u) Hsp)
    as Hm.
  fold (RadarShader.m u st) in Hm.
  unfold Glsl.step.
  destruct (Rlt_dec (RadarShader.m u st) (RadarShader.sp u * (1 - u_thickness u))) as [Hlt|Hge].
  - split; [left; ring|]. split; [intros _; ring|]. split; [|reflexivity].
    intros Ht. exfalso. nra.
  - split; [right; ring|]. split; [|split; [intros _; ring|reflexivity]].
    intros Ht. exfalso. apply Hge. nra.
Qed.

(** The theorem at the two extremes, for a half transparent red with 30
    rings: with thickness 0 the fragment is invisible, with thickness 1 it
    has the alpha of the colour. *)
Lemma radar_thickness_extremes_witness :
  mat_alpha (RadarShader.czm_getMaterial (mkUniforms (mkColor 1 0 0 0.5) 0 30 0 0)
                                         (0.25, 0.5)) = 0
  /\ mat_alpha (RadarShader.czm_getMaterial (mkUniforms (mkColor 1 0 0 0.5) 0 30 0 1)
                                            (0.25, 0.5)) = 0.5.
Proof.
  split.
  - destruct (radar_thickness_extremes (mkUniforms (mkColor 1 0 0 0.5) 0 30 0 0) (0.25, 0.5))
      as (_ & Hzero & _); [cbn [u_repeat]; lra|].
    apply Hzero. cbn [u_thickness]. lra.
  - destruct (radar_thickness_extremes (mkUniforms (mkColor 1 0 0 0.5) 0 30 0 1) (0.25, 0.5))
      as (_ & _ & Hone & _); [cbn [u_repeat]; lra|].
    apply Hone. cbn [u_thickness]. lra.
Defined.


(** ** Every creator, step by step *)

Lemma creation_step engine (r : Request) (w : World) :
  creation engine r w (fst (create engine r w)) (snd (create engine r w)).
Proof.
  destruct r as [o|o|o|o]; unfold create.
  - unfold Geometry.conicalWave. crunch; settle.
  - unfold Fence.fenceFlowEffect. crunch; settle.
  - unfold Fence.conicalEffect. crunch; settle.
  - unfold FenceFlow.fenceFlowEffect, FenceFlow.build, FenceFlow.publish, FenceFlow.cleanup.
    crunch; settle.
Qed.


Lemma create_refuses engine (r : Request) (w : World) (g : Graphic) :
  graphicMap w !! request_id r = Some g -> refuses (create engine r) w.
Proof.
  intros Hg. destruct r as [o|o|o|o]; cbn [request_id] in Hg; unfold create, refuses.
  - unfold Geometry.conicalWave. run_step.
    destruct (viewer w); run_step; [rewrite Hg; run_step|];
      eexists; (split; [reflexivity|]); repeat split.
  - unfold Fence.fenceFlowEffect. run_step.
    destruct (viewer w); run_step; [rewrite Hg; run_step|];
      eexists; (split; [reflexivity|]); repeat split.
  - unfold Fence.conicalEffect. run_step.
    destruct (viewer w); run_step; [rewrite Hg; run_step|];
      eexists; (split; [reflexivity|]); repeat split.
  - unfold FenceFlow.fenceFlowEffect. run_step.
    destruct (viewer w); run_step; [rewrite Hg; run_step|];
      eexists; (split; [reflexivity|]); repeat split.
Qed.

Lemma create_keeps_entry engine (r : Request) (w : World) id g :
  graphicMap w !! id = Some g -> graphicMap (snd (create engine r w)) !! id = Some g.
Proof.
  intros Hg. pose proof (creation_step engine r w) as [H _].
  destruct (fst (create engine r w)) as [[h|]|e].
  - destruct H as (Hnone & Hmap & _). rewrite Hmap.
    destruct (decide (id = request_id r)) as [->|Hne]; [congruence|].
    rewrite lookup_insert_ne by congruence. exact Hg.
  - destruct H as (Hmap & _). rewrite Hmap. exact Hg.
  - destruct H as (Hmap & _). rewrite Hmap. exact Hg.
Qed.

Lemma createAll_keeps_entry engine (rs : list Request) (w : World) id g :
  graphicMap w !! id = Some g -> graphicMap (createAll engine rs w) !! id = Some g.
Proof.
  revert w. induction rs as [|r rest IH]; intros w Hg; [exact Hg|].
  cbn [createAll]. apply IH. apply create_keeps_entry. exact Hg.
Qed.

(** ** The registry across calls *)

(** X6: the registry is the record of the handles returned.  Whatever the
    engine does, a call of any of the four creators keeps every live entry
    with its handle, leaves the entries of every other identifier as they
    were, and returns a handle exactly when its identifier was free before
    the call and is bound to that handle after it. *)
Theorem registry_records_returned_handles (engine : Engine) (r : Request) (w : World) :
  let res := fst (create engine r w) in
  let w' := snd (create engine r w) in
  (forall id g, graphicMap w !! id = Some g -> graphicMap w' !! id = Some g)
  /\ (forall id, id <> request_id r -> graphicMap w' !! id = graphicMap w !! id)
  /\ (forall g, res = Normal (Some g)
                <-> graphicMap w !! request_id r = None
                    /\ graphicMap w' !! request_id r = Some g).
Proof.
  cbv zeta. split; [intros id g; apply create_keeps_entry|].
  pose proof (creation_step engine r w) as [H _].
  destruct (fst (create engine r w)) as [[h|]|e].
  - destruct H as (Hnone & Hmap & _). rewrite Hmap. split.
    + intros id Hne. apply lookup_insert_ne. congruence.
    + intros g. rewrite lookup_insert_eq. split.
      * intros E. injection E as ->. split; [exact Hnone|reflexivity].
      * intros [_ E]. congruence.
  - destruct H as (Hmap & _). rewrite Hmap. split; [reflexivity|].
    intros g. split; [discriminate|]. intros [E1 E2]. congruence.
  - destruct H as (Hmap & _). rewrite Hmap. split; [reflexivity|].
    intros g. split; [discriminate|]. intros [E1 E2]. congruence.
Qed.

(** X7: the first handle wins.  Once a creator has returned a handle for an
    identifier, then after any further sequence of requests a request with
    that identifier, to whichever creator and whatever the engine does,
    returns [null], changes nothing but the console, and the identifier is
    still bound to the first handle, its only live entry. *)
Theorem first_handle_wins (engine engine' engine'' : Engine) (r1 r2 : Request)
    (rs : list Request) (w : World) (g : Graphic) :
  fst (create engine r1 w) = Normal (Some g) ->
  request_id r2 = request_id r1 ->
  let w1 := createAll engine' rs (snd (create engine r1 w)) in
  let w2 := snd (create engine'' r2 w1) in
  fst (create engine'' r2 w1) = Normal None
  /\ sameButConsole w1 w2
  /\ graphicMap w2 !! request_id r1 = Some g
  /\ liveEntries w2 (request_id r1) = [(request_id r1, g)].
Proof.
  intros Hres Hid. cbv zeta.
  assert (Hg : graphicMap (createAll engine' rs (snd (create engine r1 w))) !! request_id r1
               = Some g).
  { apply createAll_keeps_entry.
    pose proof (creation_step engine r1 w) as [H _]. rewrite Hres in H.
    destruct H as (_ & Hmap & _). rewrite Hmap. apply lookup_insert_eq. }
  remember (createAll engine' rs (snd (create engine r1 w))) as w1 eqn:E1. clear E1.
  destruct (create_refuses engine'' r2 w1 g) as (w2 & Hcall & Hsame);
    [rewrite Hid; exact Hg|].
  rewrite Hcall. cbn [fst snd]. split; [reflexivity|]. split; [exact Hsame|].
  destruct Hsame as (_ & Hmap & _).
  split; [rewrite Hmap; exact Hg|].
  apply liveEntries_one. rewrite Hmap. exact Hg.
Qed.

Lemma lineFence_created :
  fst (create quietEngine (FlameFence lineFence) freshWorld) = Normal (Some storedFence).
Proof.
  unfold create.
  rewrite (flame_fence_creates quietEngine lineFence freshWorld (mkViewer [] [])
             [[0; 0]; [1; 0]] lineVertices (mkColor 1 0.4 0 1)); reflexivity.
Qed.

(** The theorem for the two-position flame fence followed by a one-position
    flowing fence and then a flowing fence under the same identifier. *)
Lemma first_handle_wins_witness :
  let g := storedFence in
  let w1 := createAll quietEngine [FlowFence pointFlow]
              (snd (create quietEngine (FlameFence lineFence) freshWorld)) in
  let w2 := snd (create quietEngine (FlowFence lineFlow) w1) in
  fst (create quietEngine (FlowFence lineFlow) w1) = Normal None
  /\ sameButConsole w1 w2
  /\ graphicMap w2 !! request_id (FlameFence lineFence) = Some g
  /\ liveEntries w2 (request_id (FlameFence lineFence))
     = [(request_id (FlameFence lineFence), g)].
Proof.
  apply (first_handle_wins quietEngine quietEngine quietEngine (FlameFence lineFence)
           (FlowFence lineFlow) [FlowFence pointFlow] freshWorld storedFence).
  - exact lineFence_created.
  - reflexivity.
Defined.

(** ** The scene and the registry together *)

Lemma withoutRef_fresh (n : nat) (v : Viewer) :
  (forall p, In p (primitives v) -> (prim_ref p < n)%nat) -> withoutRef n v = v.
Proof.
  intros H. destruct v as [es ps]. unfold withoutRef. cbn [entities primitives] in *.
  f_equal. induction ps as [|p ps IH]; [reflexivity|].
  cbn [List.filter].
  destruct (Nat.eqb_spec (prim_ref p) n) as [E|_].
  - specialize (H p (or_introl eq_refl)). lia.
  - cbn [negb]. f_equal. apply IH. intros q Hq. apply H. right. exact Hq.
Qed.

Lemma inScene_sceneWith (g h : Graphic) (v : Viewer) : inScene v h -> inScene (sceneWith g v) h.
Proof.
  destruct g, h; cbn [inScene sceneWith entities primitives]; intros H;
    try exact H; apply in_or_app; left; exact H.
Qed.

Lemma inScene_added (g : Graphic) (v : Viewer) : inScene (sceneWith g v) g.
Proof.
  destruct g; cbn [inScene sceneWith entities primitives]; apply in_or_app; right; left;
    reflexivity.
Qed.

Lemma create_wellFormed engine (r : Request) (w : World) :
  wellFormed w -> wellFormed (snd (create engine r w)).
Proof.
  intros Hwf. pose proof (creation_step engine r w) as (H & _ & _).
  destruct (fst (create engine r w)) as [[h|]|e].
  - destruct H as (Hnone & Hmap & (v & Hv & Hv') & Href).
    intros v' Ev'. rewrite Hv' in Ev'. injection Ev' as <-.
    destruct (Hwf v Hv) as (Hreg & Hlt & Hnd).
    split; [|split].
    + intros id g. rewrite Hmap.
      destruct (decide (id = request_id r)) as [->|Hne].
      * rewrite lookup_insert_eq. intros E. injection E as <-. apply inScene_added.
      * rewrite lookup_insert_ne by congruence. intros E.
        apply inScene_sceneWith. exact (Hreg id g E).
    + destruct h as [e|p]; cbn [sceneWith primitives].
      * rewrite Href. exact Hlt.
      * destruct Href as [Hp Ha]. rewrite Ha. intros q Hq.
        apply in_app_or in Hq as [Hq|[<-|[]]]; [specialize (Hlt q Hq); lia|lia].
    + destruct h as [e|p]; cbn [sceneWith primitives]; [exact Hnd|].
      destruct Href as [Hp Ha]. rewrite List.map_app. cbn [List.map].
      apply NoDup_app. split; [exact Hnd|]. split; [|apply NoDup_singleton].
      intros n Hn Hn'. apply list_elem_of_In in Hn, Hn'.
      destruct Hn' as [<-|[]].
      apply in_map_iff in Hn as (q & Eq & Hq). specialize (Hlt q Hq). lia.
  - destruct H as (Hmap & Hview & Halloc).
    assert (Hsame : viewer (snd (create engine r w)) = viewer w).
    { destruct Hview as [E|E]; [exact E|]. rewrite E.
      destruct (viewer w) as [v|] eqn:Hv; [|reflexivity].
      cbn [fmap option_fmap option_map]. f_equal. apply withoutRef_fresh.
      exact (proj1 (proj2 (Hwf v Hv))). }
    intros v Hv. rewrite Hsame in Hv. destruct (Hwf v Hv) as (Hreg & Hlt & Hnd).
    split; [rewrite Hmap; exact Hreg|]. split; [|exact Hnd].
    intros p Hp. specialize (Hlt p Hp). destruct Halloc as [->| ->]; lia.
  - destruct H as (Hmap & Hview & Halloc).
    assert (Hsame : viewer (snd (create engine r w)) = viewer w).
    { destruct Hview as [E|E]; [exact E|]. rewrite E.
      destruct (viewer w) as [v|] eqn:Hv; [|reflexivity].
      cbn [fmap option_fmap option_map]. f_equal. apply withoutRef_fresh.
      exact (proj1 (proj2 (Hwf v Hv))). }
    intros v Hv. rewrite Hsame in Hv. destruct (Hwf v Hv) as (Hreg & Hlt & Hnd).
    split; [rewrite Hmap; exact Hreg|]. split; [|exact Hnd].
    intros p Hp. specialize (Hlt p Hp). destruct Halloc as [->| ->]; lia.
Qed.

Lemma wellFormed_freshWorld : wellFormed freshWorld.
Proof.
  intros v Hv. injection Hv as <-. cbn [primitives entities freshWorld graphicMap allocated].
  split; [|split].
  - intros id g. rewrite lookup_empty. discriminate.
  - intros p [].
  - apply NoDup_nil. exact I.
Qed.

(** X8: what the registry names is on the map.  Starting from a world in
    which every registered handle is in the scene and the primitives of the
    scene are distinct objects allocated earlier (the empty world is one),
    any sequence of requests to the four creators, whatever the engine does
    and whether the calls return, refuse or throw, ends in such a world:
    every handle found in the registry is an entity or a primitive of the
    viewer. *)
Theorem registry_entries_in_scene (engine : Engine) (rs : list Request) (w : World) :
  wellFormed w ->
  wellFormed (createAll engine rs w)
  /\ forall v id g, viewer (createAll engine rs w) = Some v ->
                    graphicMap (createAll engine rs w) !! id = Some g -> inScene v g.
Proof.
  intros Hwf.
  assert (H : wellFormed (createAll engine rs w)).
  { revert w Hwf. induction rs as [|r rest IH]; intros w Hwf; [exact Hwf|].
    cbn [createAll]. apply IH. apply create_wellFormed. exact Hwf. }
  split; [exact H|]. intros v id g Hv Hg. exact (proj1 (H v Hv) id g Hg).
Qed.

(** The theorem from the empty world, for a flame fence, a cone with a
    colour that is not one, and a flowing fence under the identifier of the
    first. *)
Lemma registry_entries_in_scene_witness :
  let rs := [FlameFence lineFence; Wave miscolouredWave; FlowFence lineFlow] in
  wellFormed freshWorld
  /\ wellFormed (createAll quietEngine rs freshWorld)
  /\ forall v id g, viewer (createAll quietEngine rs freshWorld) = Some v ->
                    graphicMap (createAll quietEngine rs freshWorld) !! id = Some g ->
                    inScene v g.
Proof.
  split; [exact wellFormed_freshWorld|].
  apply (registry_entries_in_scene quietEngine
           [FlameFence lineFence; Wave miscolouredWave; FlowFence lineFlow] freshWorld).
  exact wellFormed_freshWorld.
Defined.

(** X9: a creation is all or nothing for the scene.  In a world whose
    scene holds what the registry names, its primitives being distinct
    objects allocated earlier, a call that returns a handle has added
    exactly that handle at the end of the viewer's entities or primitives,
    a primitive being a new object; a call that returns [null] or throws
    leaves the viewer and the registry exactly as they were: the flowing
    fence removes in its catch clause what it had built, and nothing else. *)
Theorem scene_all_or_nothing (engine : Engine) (r : Request) (w : World) :
  wellFormed w ->
  let w' := snd (create engine r w) in
  match fst (create engine r w) with
  | Normal (Some g) =>
    exists v, viewer w = Some v /\ viewer w' = Some (sceneWith g v)
              /\ match g with
                 | GPrimitive p => ~ In (prim_ref p) (List.map prim_ref (primitives v))
                 | GEntity e => primitives v = primitives (sceneWith g v)
                 end
  | _ => viewer w' = viewer w /\ graphicMap w' = graphicMap w
  end.
Proof.
  intros Hwf. cbv zeta. pose proof (creation_step engine r w) as (H & _ & _).
  assert (Hfail : graphicMap (snd (create engine r w)) = graphicMap w
                  /\ (viewer (snd (create engine r w)) = viewer w
                      \/ viewer (snd (create engine r w))
                         = withoutRef (allocated w) <$> viewer w)
                  /\ (allocated (snd (create engine r w)) = allocated w
                      \/ allocated (snd (create engine r w)) = S (allocated w))
                  -> viewer (snd (create engine r w)) = viewer w
                     /\ graphicMap (snd (create engine r w)) = graphicMap w).
  { intros (Hmap & Hview & _). split; [|exact Hmap].
    destruct Hview as [E|E]; [exact E|]. rewrite E.
    destruct (viewer w) as [v|] eqn:Hv; [|reflexivity].
    cbn [fmap option_fmap option_map]. f_equal. apply withoutRef_fresh.
    exact (proj1 (proj2 (Hwf v Hv))). }
  destruct (fst (create engine r w)) as [[h|]|e]; [|exact (Hfail H)|exact (Hfail H)].
  destruct H as (_ & _ & (v & Hv & Hv') & Href).
  exists v. split; [exact Hv|]. split; [exact Hv'|].
  destruct h as [e|p]; [reflexivity|].
  destruct Href as [Hp _]. intros Hin.
  apply in_map_iff in Hin as (q & Eq & Hq).
  pose proof (proj1 (proj2 (Hwf v Hv)) q Hq). lia.
Qed.

(** The theorem for the flame fence whose colour string is not a colour. *)
Lemma scene_all_or_nothing_witness :
  wellFormed freshWorld
  /\ let w' := snd (create quietEngine (FlameFence miscolouredFence) freshWorld) in
     match fst (create quietEngine (FlameFence miscolouredFence) freshWorld) with
     | Normal (Some g) =>
       exists v, viewer freshWorld = Some v /\ viewer w' = Some (sceneWith g v)
                 /\ match g with
                    | GPrimitive p => ~ In (prim_ref p) (List.map prim_ref (primitives v))
                    | GEntity e => primitives v = primitives (sceneWith g v)
                    end
     | _ => viewer w' = viewer freshWorld /\ graphicMap w' = graphicMap freshWorld
     end.
Proof.
  split; [exact wellFormed_freshWorld|].
  apply (scene_all_or_nothing quietEngine (FlameFence miscolouredFence) freshWorld).
  exact wellFormed_freshWorld.
Defined.

(** ** The registration of the sweep material *)

Lemma cacheWith_grows (type : string) (cache : list string) :
  exists added, cacheWith type cache = cache ++ added.
Proof.
  unfold cacheWith. destruct (decide (type ∈ cache)).
  - exists []. now rewrite app_nil_r.
  - now exists [type].
Qed.

Lemma materialGrowth_refl (w : World) : materialGrowth w w.
Proof.
  split; [now left|]. exists []. now rewrite app_nil_r.
Qed.

Lemma materialGrowth_trans (w1 w2 w3 : World) :
  materialGrowth w1 w2 -> materialGrowth w2 w3 -> materialGrowth w1 w3.
Proof.
  intros [A (a & Ea)] [B (b & Eb)]. split.
  - destruct A as [A|[A1 A2]], B as [B|[B1 B2]].
    + left. congruence.
    + right. split; congruence.
    + right. split; congruence.
    + congruence.
  - exists (a ++ b). rewrite Eb, Ea. now rewrite <- app_assoc.
Qed.

Lemma materialStep_growth (engine : Engine) (w w' : World) :
  materialStep engine w w' -> materialGrowth w w'.
Proof.
  intros [[A B]|[(A & B & C)|[A B]]].
  - split; [now left|]. exists []. rewrite B. now rewrite app_nil_r.
  - split; [now right|]. now exists ["radarPrimitive"%string].
  - split; [now left|]. rewrite B. apply cacheWith_grows.
Qed.

Lemma conicalWave_registered (engine : Engine) (o : Geometry.Options) (w : World) :
  radarPrimitiveType w <> None ->
  radarPrimitiveType (snd (Geometry.conicalWave engine o w)) = radarPrimitiveType w
  /\ materialCache (snd (Geometry.conicalWave engine o w)) = materialCache w.
Proof.
  intros H. unfold Geometry.conicalWave. crunch; cbn [snd radarPrimitiveType materialCache];
    first [now split | congruence].
Qed.

(** X10: the sweep material is registered at most once.  Across any
    sequence of requests a registered type is kept, the only type ever
    registered is ["radarPrimitive"], and the engine's material cache only
    grows.  Once a type is registered no sequence of [conicalWave] calls
    changes the cache.  A call of [conicalWave] that finds a map and a free
    identifier leaves a type registered even if it then throws, and, when
    none was registered, has added the one entry ["radarPrimitive"].  The
    fence and cone creators never touch the registered type; a call of one
    leaves the cache as it was or with the made-up type under which the
    engine caches the material built from their fabric, and a call that
    returns a handle has cached it. *)
Theorem radar_material_registered_once (engine : Engine) (rs : list Request) (w : World) :
  materialGrowth w (createAll engine rs w)
  /\ (forallb isWave rs = true -> radarPrimitiveType w <> None ->
      materialCache (createAll engine rs w) = materialCache w)
  /\ (forall o v, viewer w = Some v -> graphicMap w !! Geometry.id o = None ->
                  radarPrimitiveType (snd (Geometry.conicalWave engine o w)) <> None
                  /\ (radarPrimitiveType w = None ->
                      radarPrimitiveType (snd (Geometry.conicalWave engine o w))
                      = Some "radarPrimitive"%string
                      /\ materialCache (snd (Geometry.conicalWave engine o w))
                         = materialCache w ++ ["radarPrimitive"%string]))
  /\ (forall r, (forall o, r <> Wave o) ->
                radarPrimitiveType (snd (create engine r w)) = radarPrimitiveType w
                /\ (materialCache (snd (create engine r w)) = materialCache w
                    \/ materialCache (snd (create engine r w))
                       = cacheWith (createGuid engine (materialCache w)) (materialCache w))
                /\ (forall g, fst (create engine r w) = Normal (Some g) ->
                              materialCache (snd (create engine r w))
                              = cacheWith (createGuid engine (materialCache w))
                                          (materialCache w))).
Proof.
  split; [|split; [|split]].
  - revert w. induction rs as [|r rest IH]; intros w.
    + apply materialGrowth_refl.
    + cbn [createAll]. eapply materialGrowth_trans; [|apply IH].
      eapply materialStep_growth. exact (proj1 (proj2 (creation_step engine r w))).
  - revert w. induction rs as [|r rest IH]; intros w Hrs Hw; [reflexivity|].
    cbn [forallb] in Hrs. apply andb_prop in Hrs as [Hr Hrest].
    destruct r as [o|o|o|o]; try discriminate Hr.
    cbn [createAll create].
    destruct (conicalWave_registered engine o w Hw) as [Ht Hc].
    rewrite IH; [exact Hc|exact Hrest|congruence].
  - intros o v Hv Hid. unfold Geometry.conicalWave. run_step. rewrite Hv, Hid.
    crunch; cbn [snd radarPrimitiveType materialCache];
      (split; [congruence|intros Hn; first [now split|congruence]]).
  - intros r Hr. destruct r as [o|o|o|o]; [destruct (Hr o eq_refl)| | |]; unfold create.
    + unfold Fence.fenceFlowEffect. crunch;
        cbn [fst snd radarPrimitiveType materialCache];
        (split; [reflexivity|split; [auto|intros gh Hg; first [discriminate Hg|reflexivity]]]).
    + unfold Fence.conicalEffect. crunch;
        cbn [fst snd radarPrimitiveType materialCache];
        (split; [reflexivity|split; [auto|intros gh Hg; first [discriminate Hg|reflexivity]]]).
    + unfold FenceFlow.fenceFlowEffect, FenceFlow.build, FenceFlow.publish,
        FenceFlow.cleanup.
      crunch; cbn [fst snd radarPrimitiveType materialCache];
        (split; [reflexivity|split; [auto|intros gh Hg; first [discriminate Hg|reflexivity]]]).
Qed.

(** The theorem from the empty world under the engine that never fails:
    a cone registers the type and adds its one entry, two further cones
    add none, and the flame fence alone caches one made-up type. *)
Lemma radar_material_registered_once_witness :
  let w1 := snd (Geometry.conicalWave quietEngine shortWave freshWorld) in
  radarPrimitiveType w1 = Some "radarPrimitive"%string
  /\ materialCache w1 = materialCache freshWorld ++ ["radarPrimitive"%string]
  /\ materialCache (createAll quietEngine [Wave shortWave; Wave miscolouredWave] w1)
     = materialCache w1
  /\ materialCache (snd (create quietEngine (FlameFence lineFence) freshWorld))
     = ["guid"%string].
Proof.
  cbv zeta.
  pose proof (radar_material_registered_once quietEngine [Wave shortWave] freshWorld)
    as (_ & _ & Hwave & Hother).
  destruct (Hwave shortWave (mkViewer [] []) eq_refl eq_refl) as [_ Hreg].
  destruct (Hreg eq_refl) as [Ht Hc].
  split; [exact Ht|]. split; [exact Hc|]. split.
  - apply (radar_material_registered_once quietEngine [Wave shortWave; Wave miscolouredWave]
             (snd (Geometry.conicalWave quietEngine shortWave freshWorld))).
    + reflexivity.
    + rewrite Ht. discriminate.
  - destruct (Hother (FlameFence lineFence) ltac:(discriminate)) as (_ & _ & Hg).
    rewrite (Hg _ lineFence_created). reflexivity.
Defined.


(** ** The cone effect *)

Lemma multiplyByPoint_multiply (a b : Matrix4) (p : Cartesian3) :
  m3 b = 0 -> m7 b = 0 -> m11 b = 0 -> m15 b = 1 ->
  multiplyByPoint (Matrix4.multiply a b) p = multiplyByPoint a (multiplyByPoint b p).
Proof.
  intros H3 H7 H11 H15. unfold multiplyByPoint, Matrix4.multiply.
  cbn [x y z m0 m1 m2 m3 m4 m5 m6 m7 m8 m9 m10 m11 m12 m13 m14 m15].
  rewrite H3, H7, H11, H15. f_equal; ring.
Qed.

Lemma multiplyByPoint_rotation (r : Matrix3) :
  multiplyByPoint (Matrix4.fromRotationTranslation r Cartesian3.ZERO) Cartesian3.ZERO
  = Cartesian3.ZERO.
Proof.
  unfold multiplyByPoint, Matrix4.fromRotationTranslation, Cartesian3.ZERO.
  cbn [x y z m0 m1 m2 m4 m5 m6 m8 m9 m10 m12 m13 m14]. f_equal; ring.
Qed.

Lemma multiplyByPoint_translation (t p : Cartesian3) :
  multiplyByPoint (Matrix4.fromTranslation t) p = Cartesian3.add p t.
Proof.
  unfold multiplyByPoint, Matrix4.fromTranslation, Cartesian3.add.
  cbn [x y z m0 m1 m2 m4 m5 m6 m8 m9 m10 m12 m13 m14]. f_equal; ring.
Qed.

Lemma modelMatrix_point (center : Cartesian3) (conicalHeight heading pitch : R)
    (p : Cartesian3) :
  multiplyByPoint (Fence.modelMatrix center conicalHeight heading pitch) p
  = multiplyByPoint (Fence.translateToGround center)
      (multiplyByPoint (Fence.rotateHPR heading pitch)
         (multiplyByPoint Fence.rotateX
            (multiplyByPoint (Fence.translateUp conicalHeight) p))).
Proof.
  unfold Fence.modelMatrix.
  rewrite multiplyByPoint_multiply.
  2-5: unfold Matrix4.multiply, Fence.rotateHPR, Fence.rotateX, Fence.translateUp,
         Matrix4.fromRotationTranslation, Matrix4.fromTranslation;
       cbn [m0 m1 m2 m3 m4 m5 m6 m7 m8 m9 m10 m11 m12 m13 m14 m15]; ring.
  rewrite multiplyByPoint_multiply.
  2-5: unfold Matrix4.multiply, Fence.rotateX, Fence.translateUp,
         Matrix4.fromRotationTranslation, Matrix4.fromTranslation;
       cbn [m0 m1 m2 m3 m4 m5 m6 m7 m8 m9 m10 m11 m12 m13 m14 m15]; ring.
  rewrite multiplyByPoint_multiply; reflexivity.
Qed.

Lemma modelMatrix_tip (center : Cartesian3) (conicalHeight heading pitch : R) :
  multiplyByPoint (Fence.modelMatrix center conicalHeight heading pitch)
                  (mkCartesian3 0 0 (conicalHeight / 2)) = center.
Proof.
  rewrite modelMatrix_point.
  unfold Fence.translateUp, Fence.translateToGround. rewrite !multiplyByPoint_translation.
  replace (Cartesian3.add (mkCartesian3 0 0 (conicalHeight / 2))
                          (mkCartesian3 0 0 (- conicalHeight / 2)))
    with Cartesian3.ZERO
    by (unfold Cartesian3.add, Cartesian3.ZERO; cbn [x y z]; f_equal; lra).
  unfold Fence.rotateX, Fence.rotateHPR. rewrite !multiplyByPoint_rotation.
  destruct center. unfold Cartesian3.add, Cartesian3.ZERO. cbn [x y z]. f_equal; ring.
Qed.

Lemma conicalEffect_creates engine (o : Fence.ConeOptions) (w : World) v lng lat h rest c :
  viewer w = Some v ->
  graphicMap w !! Fence.cone_id o = None ->
  Fence.cone_positions o = Some (lng :: lat :: h :: rest) ->
  fromCssColorString engine (or_string (Fence.cone_color o) "#00FFFF") = Some c ->
  (forall call, fault engine call = None) ->
  let p := glowPrimitive o lng lat h c (allocated w) in
  Fence.conicalEffect engine o w =
  (Normal (Some (GPrimitive p)),
   afterFence engine (Fence.cone_id o) p
     (LogCone [lng; lat; h] (or_number (Fence.height o) 200) (or_number (Fence.radius o) 50))
     v w).
Proof.
  intros Hv Hid Hpos Hc Hf p.
  unfold Fence.conicalEffect. run_step. rewrite Hv, Hid, Hpos. run_step.
  rewrite !Hf, Hc. run_step. rewrite !Hf. run_step.
  unfold set_console, set_graphicMap, set_viewer, set_allocated, set_material.
  cbn [viewer graphicMap radarPrimitiveType materialCache console clock allocated].
  rewrite Hv. reflexivity.
Qed.

Lemma sampleCone_created :
  Fence.conicalEffect quietEngine sampleCone freshWorld
  = (Normal (Some (GPrimitive (glowPrimitive sampleCone 0 0 0 (mkColor 0 1 1 1) 0))),
     afterFence quietEngine "cone" (glowPrimitive sampleCone 0 0 0 (mkColor 0 1 1 1) 0)
       (LogCone [0; 0; 0] 200 50) (mkViewer [] []) freshWorld).
Proof.
  rewrite (conicalEffect_creates quietEngine sampleCone freshWorld (mkViewer [] [])
             0 0 0 [] (mkColor 0 1 1 1)); reflexivity.
Qed.

(** X11: the tip of the cone is at the requested position.  Whenever
    [conicalEffect] returns a handle, whatever the engine and the world, the
    handle is a primitive whose geometry is a cone (top radius 0, 64 slices)
    of the requested height and radius, 200 and 50 standing in for a missing
    or zero option, and whose model matrix takes the tip of that cone to the
    Cartesian point of the first three numbers of [positions], for every
    heading and pitch. *)
Theorem cone_tip_at_position (engine : Engine) (o : Fence.ConeOptions) (w w' : World)
    (g : Graphic) :
  Fence.conicalEffect engine o w = (Normal (Some g), w') ->
  exists lng lat h rest p m c,
    Fence.cone_positions o = Some (lng :: lat :: h :: rest)
    /\ g = GPrimitive p
    /\ prim_geometry (prim_options p) = GCylinder c
    /\ prim_modelMatrix (prim_options p) = Some m
    /\ cg_length c = or_number (Fence.height o) 200
    /\ cg_bottomRadius c = or_number (Fence.radius o) 50
    /\ cg_topRadius c = 0
    /\ slices c = 64%nat
    /\ multiplyByPoint m (tipOf c) = Cartesian3.fromDegrees lng lat h.
Proof.
  unfold Fence.conicalEffect. crunch; intros H; try discriminate.
  injection H as <- _.
  do 7 eexists.
  repeat match goal with |- _ /\ _ => split end; try reflexivity.
  cbn [prim_options prim_geometry prim_modelMatrix].
  unfold tipOf. cbn [cg_length]. apply modelMatrix_tip.
Qed.

(** The theorem for the cone on the equator with every option left out. *)
Lemma cone_tip_at_position_witness :
  exists lng lat h rest p m c,
    Fence.cone_positions sampleCone = Some (lng :: lat :: h :: rest)
    /\ GPrimitive (glowPrimitive sampleCone 0 0 0 (mkColor 0 1 1 1) 0) = GPrimitive p
    /\ prim_geometry (prim_options p) = GCylinder c
    /\ prim_modelMatrix (prim_options p) = Some m
    /\ cg_length c = or_number (Fence.height sampleCone) 200
    /\ cg_bottomRadius c = or_number (Fence.radius sampleCone) 50
    /\ cg_topRadius c = 0
    /\ slices c = 64%nat
    /\ multiplyByPoint m (tipOf c) = Cartesian3.fromDegrees lng lat h.
Proof.
  exact (cone_tip_at_position quietEngine sampleCone freshWorld _ _ sampleCone_created).
Defined.


Lemma sqrt2_square : sqrt 2 * sqrt 2 = 2.
Proof. apply sqrt_sqrt. lra. Qed.

Lemma sqrt2_pos : 0 < sqrt 2.
Proof. apply sqrt_lt_R0. lra. Qed.

(** The quarter turn about the x axis, as a matrix. *)
Lemma rotateX_matrix :
  Fence.rotateX = mkMatrix4 1 0 0 0  0 0 1 0  0 (-1) 0 0  0 0 0 1.
Proof.
  unfold Fence.rotateX.
  change (mkCartesian3 1 0 0) with Cartesian3.UNIT_X. rewrite fromAxisAngle_X.
  unfold CesiumMath.PI_OVER_TWO. replace (PI / 2 / 2) with (PI / 4) by lra.
  rewrite sin_PI4, cos_PI4.
  pose proof sqrt2_square as Hs. pose proof sqrt2_pos as Hp.
  unfold Matrix4.fromRotationTranslation, Matrix3.fromQuaternion, Cartesian3.ZERO.
  cbn [qx qy qz qw n0 n1 n2 n3 n4 n5 n6 n7 n8 x y z].
  assert (Hh : 1 / sqrt 2 * (1 / sqrt 2) = 1 / 2).
  { replace (1 / sqrt 2 * (1 / sqrt 2)) with (1 / (sqrt 2 * sqrt 2)) by (field; lra).
    rewrite Hs. reflexivity. }
  remember (1 / sqrt 2) as s eqn:Es. clear Es.
  f_equal; nra.
Qed.

Lemma equalsEpsilon_ZERO :
  Cartesian3.equalsEpsilon Cartesian3.ZERO Cartesian3.ZERO CesiumMath.EPSILON14 = true.
Proof.
  unfold Cartesian3.equalsEpsilon, CesiumMath.equalsEpsilon, Cartesian3.ZERO,
    CesiumMath.EPSILON14.
  cbn [x y z]. rewrite Rminus_diag, Rabs_R0.
  destruct (Rle_dec 0 (/ 100000000000000)) as [_|H]; [reflexivity|].
  exfalso. apply H. lra.
Qed.

(** Heading 0 and pitch 0 taken at the centre of the ellipsoid: the frame
    there has its east along y and its north along -x. *)
Lemma rotateHPR_default :
  Fence.rotateHPR 0 0 = mkMatrix4 0 1 0 0  (-1) 0 0 0  0 0 1 0  0 0 0 1.
Proof.
  unfold Fence.rotateHPR, Fence.hprRotation, Transforms.headingPitchRollQuaternion,
    Transforms.headingPitchRollToFixedFrame, Transforms.eastNorthUpToFixedFrame.
  rewrite equalsEpsilon_ZERO, fromHeadingPitchRoll_noroll.
  replace (0 / 2) with 0 by lra. rewrite sin_0, cos_0.
  replace (- (0 * 0)) with 0 by lra. replace (- (1 * 0)) with 0 by lra.
  replace (- (0 * 1)) with 0 by lra. replace (1 * 1) with 1 by lra.
  unfold Matrix4.fromTranslationQuaternionRotationScale, Matrix3.fromQuaternion,
    Cartesian3.ZERO.
  cbn [qx qy qz qw n0 n1 n2 n3 n4 n5 n6 n7 n8 x y z].
  unfold Matrix4.multiply, Matrix4.getMatrix3.
  cbn [m0 m1 m2 m3 m4 m5 m6 m7 m8 m9 m10 m11 m12 m13 m14 m15].
  unfold Quaternion.fromRotationMatrix.
  cbn [n0 n1 n2 n3 n4 n5 n6 n7 n8].
  match goal with |- context [Rlt_dec 0 ?t] => replace t with 1 by ring end.
  destruct (Rlt_dec 0 1) as [_|H]; [|exfalso; apply H; lra].
  replace (1 + 1) with 2 by lra.
  pose proof sqrt2_square as Hs. pose proof sqrt2_pos as Hp.
  unfold Matrix4.fromRotationTranslation, Matrix3.fromQuaternion.
  cbn [qx qy qz qw n0 n1 n2 n3 n4 n5 n6 n7 n8 x y z].
  assert (Hi : 0.5 / sqrt 2 * sqrt 2 = 0.5) by (field; lra).
  remember (0.5 / sqrt 2) as r eqn:Er. clear Er.
  remember (sqrt 2) as q eqn:Eq. clear Eq.
  assert (Hi2 : r * r = 0.125).
  { assert (H2 : r * r * (q * q) = 0.25)
      by (replace (r * r * (q * q)) with (r * q * (r * q)) by ring; rewrite Hi; lra).
    rewrite Hs in H2. lra. }
  f_equal; nra.
Qed.


Lemma modelMatrix_base_default (center : Cartesian3) (conicalHeight : R) :
  multiplyByPoint (Fence.modelMatrix center conicalHeight 0 0)
                  (mkCartesian3 0 0 (- conicalHeight / 2))
  = Cartesian3.subtract center (mkCartesian3 conicalHeight 0 0).
Proof.
  rewrite modelMatrix_point, rotateHPR_default, rotateX_matrix.
  unfold Fence.translateUp, Fence.translateToGround. rewrite !multiplyByPoint_translation.
  destruct center as [cx cy cz].
  unfold multiplyByPoint, Cartesian3.add, Cartesian3.subtract.
  cbn [x y z m0 m1 m2 m3 m4 m5 m6 m7 m8 m9 m10 m11 m12 m13 m14 m15].
  f_equal; lra.
Qed.

Lemma modelMatrix_translate (center : Cartesian3) (conicalHeight heading pitch : R)
    (q : Cartesian3) :
  multiplyByPoint (Fence.modelMatrix center conicalHeight heading pitch) q
  = Cartesian3.add
      (multiplyByPoint (Fence.modelMatrix Cartesian3.ZERO conicalHeight heading pitch) q)
      center.
Proof.
  rewrite !modelMatrix_point. unfold Fence.translateToGround.
  rewrite !multiplyByPoint_translation.
  remember (multiplyByPoint (Fence.rotateHPR heading pitch) _) as v eqn:Ev. clear Ev.
  unfold Cartesian3.add, Cartesian3.ZERO. cbn [x y z]. f_equal; ring.
Qed.

(** X12: the axis of the cone effect is fixed to the earth, not to the
    place.  Whenever [conicalEffect] returns a handle, its model matrix is
    the model matrix of the same cone at the centre of the earth followed
    by the move to the position: the heading-pitch rotation is taken at
    [Cartesian3.ZERO] and the cone is not turned to the local east, north
    and up.  With heading and pitch missing or zero the centre of the base
    is the tip moved by the cone's height along the negative earth-fixed x
    axis, at every longitude and latitude. *)
Theorem cone_axis_earth_fixed (engine : Engine) (o : Fence.ConeOptions) (w w' : World)
    (g : Graphic) :
  Fence.conicalEffect engine o w = (Normal (Some g), w') ->
  exists lng lat h rest p m c,
    Fence.cone_positions o = Some (lng :: lat :: h :: rest)
    /\ g = GPrimitive p
    /\ prim_geometry (prim_options p) = GCylinder c
    /\ prim_modelMatrix (prim_options p) = Some m
    /\ (forall q,
          multiplyByPoint m q
          = Cartesian3.add
              (multiplyByPoint
                 (Fence.modelMatrix Cartesian3.ZERO (cg_length c)
                    (or_number (Fence.heading o) 0) (or_number (Fence.pitch o) 0)) q)
              (Cartesian3.fromDegrees lng lat h))
    /\ (or_number (Fence.heading o) 0 = 0 -> or_number (Fence.pitch o) 0 = 0 ->
        multiplyByPoint m (baseOf c)
        = Cartesian3.subtract (Cartesian3.fromDegrees lng lat h)
                              (mkCartesian3 (cg_length c) 0 0)).
Proof.
  unfold Fence.conicalEffect. crunch; intros H; try discriminate.
  injection H as <- _.
  do 7 eexists.
  repeat match goal with |- _ /\ _ => split end; try reflexivity.
  - intros q. cbn [prim_options prim_geometry prim_modelMatrix cg_length].
    apply modelMatrix_translate.
  - intros Hh Hp. cbn [prim_options prim_geometry prim_modelMatrix].
    unfold baseOf. cbn [cg_length]. rewrite Hh, Hp. apply modelMatrix_base_default.
Qed.

(** The theorem for the cone on the equator with every option left out: its
    base is 200 m below its tip, towards the centre of the earth. *)
Lemma cone_axis_earth_fixed_witness :
  exists lng lat h rest p m c,
    Fence.cone_positions sampleCone = Some (lng :: lat :: h :: rest)
    /\ GPrimitive (glowPrimitive sampleCone 0 0 0 (mkColor 0 1 1 1) 0) = GPrimitive p
    /\ prim_geometry (prim_options p) = GCylinder c
    /\ prim_modelMatrix (prim_options p) = Some m
    /\ (forall q,
          multiplyByPoint m q
          = Cartesian3.add
              (multiplyByPoint
                 (Fence.modelMatrix Cartesian3.ZERO (cg_length c)
                    (or_number (Fence.heading sampleCone) 0)
                    (or_number (Fence.pitch sampleCone) 0)) q)
              (Cartesian3.fromDegrees lng lat h))
    /\ (or_number (Fence.heading sampleCone) 0 = 0 ->
        or_number (Fence.pitch sampleCone) 0 = 0 ->
        multiplyByPoint m (baseOf c)
        = Cartesian3.subtract (Cartesian3.fromDegrees lng lat h)
                              (mkCartesian3 (cg_length c) 0 0)).
Proof.
  exact (cone_axis_earth_fixed quietEngine sampleCone freshWorld _ _ sampleCone_created).
Defined.

(** ** The walls of the fences *)

Lemma wallVertices_length positions cs :
  wallVertices positions = Some cs -> List.length cs = List.length positions.
Proof.
  revert cs. induction positions as [|pos rest IH]; intros cs H.
  - injection H as <-. reflexivity.
  - cbn [wallVertices] in H.
    destruct (vertexOf pos); [|discriminate].
    destruct (wallVertices rest) as [cs'|]; [|discriminate].
    injection H as <-. cbn [List.length]. f_equal. apply IH. reflexivity.
Qed.

Lemma fromDegreesArrayHeights_wallVertices positions cs :
  fromDegreesArrayHeights (flat (coordinates_of positions)) = Normal cs ->
  wallVertices positions = Some cs.
Proof.
  unfold fromDegreesArrayHeights.
  destruct (flat (coordinates_of positions)) eqn:E; [discriminate|].
  rewrite <- E, fromDegreesArrayHeights_loop_vertices.
  destruct (wallVertices positions); [|discriminate].
  intros H. injection H as <-. reflexivity.
Qed.

Lemma fromDegreesArrayHeights_missing positions :
  wallVertices positions = None ->
  fromDegreesArrayHeights (flat (coordinates_of positions)) = Throw DeveloperError.
Proof.
  intros H. unfold fromDegreesArrayHeights.
  destruct (flat (coordinates_of positions)) eqn:E; [reflexivity|].
  rewrite <- E, fromDegreesArrayHeights_loop_vertices, H. reflexivity.
Qed.

(** X14: a wall has one vertex per position.  Whenever a fence creator
    returns a handle, whatever the engine and the world, the request gave at
    least two positions, each with a longitude and a latitude, and the
    handle is a primitive whose wall has the Cartesian vertices of the
    positions, in their order and one for each, with a list of minimum
    heights and a list of maximum heights of that same length: all zeros,
    and all the wall height (the [maxHeight] option or 100 for the flame
    fence, 100 for the flowing fence). *)
Theorem fence_wall_shape (engine : Engine) (r : Request) (w : World) (g : Graphic)
    (positions : list (list R)) :
  fst (create engine r w) = Normal (Some g) ->
  fencePositions r = Some positions ->
  exists wall,
    wallOf g = Some wall
    /\ wallVertices positions = Some (wall_positions wall)
    /\ (2 <= List.length positions)%nat
    /\ List.length (wall_positions wall) = List.length positions
    /\ minimumHeights wall = fill (List.length positions) 0
    /\ maximumHeights wall = fill (List.length positions) (fenceHeight r).
Proof.
  destruct r as [o|o|o|o]; cbn [fencePositions create fenceHeight]; intros H Hpos;
    try discriminate; revert H.
  - unfold Fence.fenceFlowEffect. rewrite Hpos.
    destruct (Nat.ltb_spec (List.length positions) 2) as [Hlt|Hge].
    + crunch; cbn [fst]; intros H; discriminate.
    + destruct (fromDegreesArrayHeights (flat (coordinates_of positions))) as [cs|e] eqn:Ecs.
      * pose proof (fromDegreesArrayHeights_wallVertices positions cs Ecs) as Hw.
        pose proof (wallVertices_length positions cs Hw) as Hl.
        crunch; cbn [fst]; intros H; try discriminate.
        injection H as <-. eexists. split; [reflexivity|].
        cbn [wall_positions minimumHeights maximumHeights].
        rewrite coordinates_of_length. auto.
      * crunch; cbn [fst]; intros H; discriminate.
  - unfold FenceFlow.fenceFlowEffect. rewrite Hpos.
    destruct (Nat.ltb_spec (List.length positions) 2) as [Hlt|Hge].
    + crunch; cbn [fst]; intros H; discriminate.
    + unfold FenceFlow.build, FenceFlow.publish, FenceFlow.cleanup.
      destruct (fromDegreesArrayHeights (flat (coordinates_of positions))) as [cs|e] eqn:Ecs.
      * pose proof (fromDegreesArrayHeights_wallVertices positions cs Ecs) as Hw.
        pose proof (wallVertices_length positions cs Hw) as Hl.
        crunch; cbn [fst]; intros H; try discriminate.
        injection H as <-. eexists. split; [reflexivity|].
        cbn [wall_positions minimumHeights maximumHeights].
        rewrite coordinates_of_length. auto.
      * crunch; cbn [fst]; intros H; discriminate.
Qed.

(** The theorem for the two-position flame fence on the equator. *)
Lemma fence_wall_shape_witness :
  exists wall,
    wallOf storedFence = Some wall
    /\ wallVertices [[0; 0]; [1; 0]] = Some (wall_positions wall)
    /\ (2 <= List.length [[0; 0]; [1; 0]])%nat
    /\ List.length (wall_positions wall) = List.length [[0; 0]; [1; 0]]
    /\ minimumHeights wall = fill (List.length [[0; 0]; [1; 0]]) 0
    /\ maximumHeights wall
       = fill (List.length [[0; 0]; [1; 0]]) (fenceHeight (FlameFence lineFence)).
Proof.
  apply (fence_wall_shape quietEngine (FlameFence lineFence) freshWorld storedFence
           [[0; 0]; [1; 0]]).
  - exact lineFence_created.
  - reflexivity.
Defined.

(** X15: a position without its longitude or latitude.  When some position
    of a fence lacks its first or second number, the engine's conversion of
    the coordinates throws inside the try block: with a map, a free
    identifier and at least two positions, each fence creator returns
    [null], reports the engine's error on the console and changes nothing
    else, whatever the rest of the options and of the engine. *)
Theorem fence_missing_coordinate (engine : Engine) (fence : Fence.Options)
    (flow : FenceFlow.Options) (w : World) (v : Viewer) (positions : list (list R)) :
  viewer w = Some v ->
  graphicMap w !! Fence.id fence = None ->
  graphicMap w !! FenceFlow.id flow = None ->
  Fence.positions fence = Some positions ->
  FenceFlow.positions flow = Some positions ->
  (2 <= List.length positions)%nat ->
  wallVertices positions = None ->
  Fence.fenceFlowEffect engine fence w
  = (Normal None, set_console (console w ++ [ErrFlameFence DeveloperError]) w)
  /\ FenceFlow.fenceFlowEffect engine flow w
     = (Normal None, set_console (console w ++ [ErrFlowFence DeveloperError]) w).
Proof.
  intros Hv Hf Hl Hpf Hpl Hlen Hmiss.
  pose proof (fromDegreesArrayHeights_missing positions Hmiss) as Hthrow.
  split.
  - unfold Fence.fenceFlowEffect. run_step. rewrite Hv, Hf, Hpf. run_step.
    destruct (Nat.ltb_spec (List.length positions) 2) as [?|_]; [lia|].
    run_step. rewrite Hthrow. reflexivity.
  - unfold FenceFlow.fenceFlowEffect. run_step. rewrite Hv, Hl, Hpl. run_step.
    destruct (Nat.ltb_spec (List.length positions) 2) as [?|_]; [lia|].
    unfold FenceFlow.build, FenceFlow.cleanup. run_step. rewrite Hthrow. reflexivity.
Qed.

(** The theorem for fences whose second position is a longitude alone. *)
Lemma fence_missing_coordinate_witness :
  Fence.fenceFlowEffect quietEngine brokenFence freshWorld
  = (Normal None,
     set_console (console freshWorld ++ [ErrFlameFence DeveloperError]) freshWorld)
  /\ FenceFlow.fenceFlowEffect quietEngine brokenFlow freshWorld
     = (Normal None,
        set_console (console freshWorld ++ [ErrFlowFence DeveloperError]) freshWorld).
Proof.
  apply (fence_missing_coordinate quietEngine brokenFence brokenFlow freshWorld
           (mkViewer [] []) [[0; 0]; [1]]); reflexivity.
Defined.


(** ** The life of a [RadarEmission] *)

Lemma coneOf_cases (version : Lifecycle.Version) (o : Lifecycle.Merged) (now : Z) :
  match Lifecycle.m_position o with
  | None => Lifecycle.coneOf version o now = Throw TypeError
  | Some (_ :: _ :: _) =>
    match Lifecycle.m_heading o, Lifecycle.m_pitch o with
    | Some _, Some _ => exists e, Lifecycle.coneOf version o now = Normal e
    | _, _ => Lifecycle.coneOf version o now = Throw DeveloperError
    end
  | Some _ => Lifecycle.coneOf version o now = Throw DeveloperError
  end.
Proof.
  unfold Lifecycle.coneOf, RadarEmission.createRadarCone, RadarEmission2.createRadarCone.
  destruct version; cbv beta zeta; cbn [RadarEmission.options RadarEmission.position];
    destruct (Lifecycle.m_position o) as [[|lng [|lat rest]]|];
    cbn [lookup list_lookup]; try reflexivity;
    destruct (Lifecycle.m_heading o), (Lifecycle.m_pitch o);
    try reflexivity; eexists; reflexivity.
Qed.

Lemma coneOf_time (version : Lifecycle.Version) (o : Lifecycle.Merged) (now now' : Z) e :
  Lifecycle.coneOf version o now = Normal e ->
  exists e', Lifecycle.coneOf version o now' = Normal e'.
Proof.
  intros H. pose proof (coneOf_cases version o now) as C.
  pose proof (coneOf_cases version o now') as C'.
  destruct (Lifecycle.m_position o) as [[|lng [|lat rest]]|]; try congruence.
  destruct (Lifecycle.m_heading o), (Lifecycle.m_pitch o); first [congruence|exact C'].
Qed.

Lemma remove_last (l : list Lifecycle.Added) (n : nat) (e : RadarEmission.RadarConeEntity) :
  (forall a, In a l -> (fst a < n)%nat) ->
  List.filter (fun a => negb (Nat.eqb (fst a) n)) (l ++ [(n, e)]) = l.
Proof.
  intros H. induction l as [|a l IH].
  - cbn [app List.filter fst]. rewrite Nat.eqb_refl. reflexivity.
  - cbn [app List.filter].
    destruct (Nat.eqb_spec (fst a) n) as [E|_].
    + specialize (H a (or_introl eq_refl)). lia.
    + cbn [negb]. f_equal. apply IH. intros b Hb. apply H. right. exact Hb.
Qed.

Lemma constructor_cases (version : Lifecycle.Version) (h : Lifecycle.Host)
    (o : Lifecycle.PartialOptions) :
  let h0 := Lifecycle._registerRadarMaterial h in
  let options := Lifecycle.merge RadarEmission.defaults o in
  (exists e,
     Lifecycle.coneOf version options (Lifecycle.host_clock h) = Normal e
     /\ Lifecycle.constructor version h o
        = (Normal (Lifecycle.mkInstance options (Some (Lifecycle.host_next h, e))),
           Lifecycle.mkHost (Lifecycle.host_entities h ++ [(Lifecycle.host_next h, e)])
                            (S (Lifecycle.host_next h)) (Lifecycle.host_zoomed h)
                            (Lifecycle.host_type h0) (Lifecycle.host_cache h0)
                            (Lifecycle.host_clock h)))
  \/ (exists err,
        Lifecycle.coneOf version options (Lifecycle.host_clock h) = Throw err
        /\ Lifecycle.constructor version h o = (Throw err, h0)).
Proof.
  cbv zeta.
  assert (Hreg : Lifecycle.host_entities (Lifecycle._registerRadarMaterial h)
                 = Lifecycle.host_entities h
                 /\ Lifecycle.host_next (Lifecycle._registerRadarMaterial h)
                    = Lifecycle.host_next h
                 /\ Lifecycle.host_zoomed (Lifecycle._registerRadarMaterial h)
                    = Lifecycle.host_zoomed h
                 /\ Lifecycle.host_clock (Lifecycle._registerRadarMaterial h)
                    = Lifecycle.host_clock h).
  { unfold Lifecycle._registerRadarMaterial. destruct (Lifecycle.host_type h); repeat split. }
  destruct Hreg as (He & Hn & Hz & Hc).
  unfold Lifecycle.constructor, Lifecycle.init, Lifecycle.createRadarCone.
  cbn [Lifecycle.this_options]. rewrite Hc, He, Hn, Hz.
  destruct (Lifecycle.coneOf version (Lifecycle.merge RadarEmission.defaults o)
              (Lifecycle.host_clock h)) as [e|err].
  - left. exists e. split; reflexivity.
  - right. exists err. split; reflexivity.
Qed.

(** X16: create, then destroy.  When the constructor returns an instance,
    it has added one entity, with a new identifier, at the end of the
    viewer's collection and holds it; [destroy] then takes exactly that
    entity out again, given that the identifiers in the collection were all
    given out by it, so the collection is as before the construction; the
    instance holds no entity, a second [destroy] and a [zoomTo] do nothing. *)
Theorem radar_create_destroy (version : Lifecycle.Version) (h h1 : Lifecycle.Host)
    (o : Lifecycle.PartialOptions) (inst : Lifecycle.Instance) :
  Lifecycle.tidy h ->
  Lifecycle.constructor version h o = (Normal inst, h1) ->
  let inst2 := fst (Lifecycle.destroy inst h1) in
  let h2 := snd (Lifecycle.destroy inst h1) in
  (exists e, Lifecycle.this_entity inst = Some (Lifecycle.host_next h, e)
             /\ Lifecycle.host_entities h1
                = Lifecycle.host_entities h ++ [(Lifecycle.host_next h, e)])
  /\ Lifecycle.host_entities h2 = Lifecycle.host_entities h
  /\ Lifecycle.this_entity inst2 = None
  /\ Lifecycle.destroy inst2 h2 = (inst2, h2)
  /\ Lifecycle.zoomTo inst2 h2 = h2
  /\ Lifecycle.tidy h2.
Proof.
  intros Ht Hc. cbv zeta.
  destruct (constructor_cases version h o) as [(e & _ & E)|(err & _ & E)];
    rewrite E in Hc; [|discriminate].
  injection Hc as <- <-.
  unfold Lifecycle.destroy, Lifecycle.entities_remove, Lifecycle.zoomTo.
  cbn [Lifecycle.this_entity Lifecycle.this_options Lifecycle.host_entities fst snd].
  rewrite (remove_last _ _ _ Ht).
  split; [exists e; split; reflexivity|].
  repeat split.
  intros a Ha. cbn [Lifecycle.host_entities Lifecycle.host_next] in *.
  specialize (Ht a Ha). lia.
Qed.

Lemma defaultRadar_constructed :
  Lifecycle.constructor Lifecycle.First Lifecycle.emptyHost Lifecycle.noOptions
  = (Normal (Lifecycle.mkInstance Lifecycle.defaultOptions
               (Some (0%nat, RadarEmission.radarCone RadarEmission.defaults
                               (RadarEmission.vertexPosition 114 35)
                               (RadarEmission.cylinderCenter 114 35 RadarEmission.defaults)
                               (RadarEmission.orientation 114 35 RadarEmission.defaults) 0))),
     Lifecycle.mkHost
       [(0%nat, RadarEmission.radarCone RadarEmission.defaults
                  (RadarEmission.vertexPosition 114 35)
                  (RadarEmission.cylinderCenter 114 35 RadarEmission.defaults)
                  (RadarEmission.orientation 114 35 RadarEmission.defaults) 0)]
       1 [] (Some "radarPrimitive"%string) ["radarPrimitive"%string] 0).
Proof. reflexivity. Qed.

Lemma tidy_emptyHost : Lifecycle.tidy Lifecycle.emptyHost.
Proof. intros a []. Qed.

(** The theorem for an emitter built with every option left out, in an
    empty viewer. *)
Lemma radar_create_destroy_witness :
  let inst := Lifecycle.mkInstance Lifecycle.defaultOptions
                (Some (0%nat, RadarEmission.radarCone RadarEmission.defaults
                                (RadarEmission.vertexPosition 114 35)
                                (RadarEmission.cylinderCenter 114 35 RadarEmission.defaults)
                                (RadarEmission.orientation 114 35 RadarEmission.defaults) 0)) in
  let h1 := Lifecycle.mkHost
              [(0%nat, RadarEmission.radarCone RadarEmission.defaults
                         (RadarEmission.vertexPosition 114 35)
                         (RadarEmission.cylinderCenter 114 35 RadarEmission.defaults)
                         (RadarEmission.orientation 114 35 RadarEmission.defaults) 0)]
              1 [] (Some "radarPrimitive"%string) ["radarPrimitive"%string] 0 in
  let inst2 := fst (Lifecycle.destroy inst h1) in
  let h2 := snd (Lifecycle.destroy inst h1) in
  (exists e, Lifecycle.this_entity inst = Some (Lifecycle.host_next Lifecycle.emptyHost, e)
             /\ Lifecycle.host_entities h1
                = Lifecycle.host_entities Lifecycle.emptyHost
                  ++ [(Lifecycle.host_next Lifecycle.emptyHost, e)])
  /\ Lifecycle.host_entities h2 = Lifecycle.host_entities Lifecycle.emptyHost
  /\ Lifecycle.this_entity inst2 = None
  /\ Lifecycle.destroy inst2 h2 = (inst2, h2)
  /\ Lifecycle.zoomTo inst2 h2 = h2
  /\ Lifecycle.tidy h2.
Proof.
  exact (radar_create_destroy Lifecycle.First Lifecycle.emptyHost _ Lifecycle.noOptions _
           tidy_emptyHost defaultRadar_constructed).
Defined.

(** X17: a second [createRadarCone] leaks the first cone.  On an instance
    the constructor returned, calling [createRadarCone] again, at any later
    time, adds a second entity and makes the instance hold that one;
    [destroy] then removes the second entity only: the first stays in the
    viewer's collection and the instance, holding nothing, can no longer
    remove it. *)
Theorem radar_recreate_leaks (version : Lifecycle.Version) (h h1 : Lifecycle.Host)
    (o : Lifecycle.PartialOptions) (inst : Lifecycle.Instance) (later : Z) :
  Lifecycle.tidy h ->
  Lifecycle.constructor version h o = (Normal inst, h1) ->
  exists e1 e2 inst2 h2,
    Lifecycle.this_entity inst = Some (Lifecycle.host_next h, e1)
    /\ Lifecycle.createRadarCone version inst (at_time later h1)
       = (Normal (S (Lifecycle.host_next h), e2), inst2, h2)
    /\ Lifecycle.this_entity inst2 = Some (S (Lifecycle.host_next h), e2)
    /\ Lifecycle.host_entities h2
       = Lifecycle.host_entities h ++ [(Lifecycle.host_next h, e1)]
                                   ++ [(S (Lifecycle.host_next h), e2)]
    /\ Lifecycle.host_entities (snd (Lifecycle.destroy inst2 h2))
       = Lifecycle.host_entities h ++ [(Lifecycle.host_next h, e1)]
    /\ Lifecycle.this_entity (fst (Lifecycle.destroy inst2 h2)) = None
    /\ Lifecycle.destroy (fst (Lifecycle.destroy inst2 h2)) (snd (Lifecycle.destroy inst2 h2))
       = Lifecycle.destroy inst2 h2.
Proof.
  intros Ht Hc.
  destruct (constructor_cases version h o) as [(e1 & Hcone & E)|(err & _ & E)];
    rewrite E in Hc; [|discriminate].
  injection Hc as <- <-.
  destruct (coneOf_time version _ _ later e1 Hcone) as [e2 Hcone2].
  exists e1, e2. do 2 eexists.
  split; [reflexivity|].
  split.
  { unfold Lifecycle.createRadarCone, at_time.
    cbn [Lifecycle.this_options Lifecycle.host_clock Lifecycle.host_next
         Lifecycle.host_entities Lifecycle.host_zoomed Lifecycle.host_type
         Lifecycle.host_cache].
    rewrite Hcone2. reflexivity. }
  unfold Lifecycle.destroy, Lifecycle.entities_remove.
  cbn [Lifecycle.this_entity Lifecycle.this_options Lifecycle.host_entities fst snd].
  split; [reflexivity|]. split; [rewrite <- app_assoc; reflexivity|].
  split; [|split; reflexivity].
  apply remove_last. intros a Ha.
  apply in_app_or in Ha as [Ha|[<-|[]]]; [specialize (Ht a Ha); lia|cbn [fst]; lia].
Qed.

(** The theorem for the emitter built with every option left out. *)
Lemma radar_recreate_leaks_witness :
  let inst := Lifecycle.mkInstance Lifecycle.defaultOptions
                (Some (0%nat, RadarEmission.radarCone RadarEmission.defaults
                                (RadarEmission.vertexPosition 114 35)
                                (RadarEmission.cylinderCenter 114 35 RadarEmission.defaults)
                                (RadarEmission.orientation 114 35 RadarEmission.defaults) 0)) in
  let h1 := Lifecycle.mkHost
              [(0%nat, RadarEmission.radarCone RadarEmission.defaults
                         (RadarEmission.vertexPosition 114 35)
                         (RadarEmission.cylinderCenter 114 35 RadarEmission.defaults)
                         (RadarEmission.orientation 114 35 RadarEmission.defaults) 0)]
              1 [] (Some "radarPrimitive"%string) ["radarPrimitive"%string] 0 in
  exists e1 e2 inst2 h2,
    Lifecycle.this_entity inst = Some (Lifecycle.host_next Lifecycle.emptyHost, e1)
    /\ Lifecycle.createRadarCone Lifecycle.First inst (at_time 5000 h1)
       = (Normal (S (Lifecycle.host_next Lifecycle.emptyHost), e2), inst2, h2)
    /\ Lifecycle.this_entity inst2 = Some (S (Lifecycle.host_next Lifecycle.emptyHost), e2)
    /\ Lifecycle.host_entities h2
       = Lifecycle.host_entities Lifecycle.emptyHost
         ++ [(Lifecycle.host_next Lifecycle.emptyHost, e1)]
         ++ [(S (Lifecycle.host_next Lifecycle.emptyHost), e2)]
    /\ Lifecycle.host_entities (snd (Lifecycle.destroy inst2 h2))
       = Lifecycle.host_entities Lifecycle.emptyHost
         ++ [(Lifecycle.host_next Lifecycle.emptyHost, e1)]
    /\ Lifecycle.this_entity (fst (Lifecycle.destroy inst2 h2)) = None
    /\ Lifecycle.destroy (fst (Lifecycle.destroy inst2 h2)) (snd (Lifecycle.destroy inst2 h2))
       = Lifecycle.destroy inst2 h2.
Proof.
  exact (radar_recreate_leaks Lifecycle.First Lifecycle.emptyHost _ Lifecycle.noOptions _ 5000
           tidy_emptyHost defaultRadar_constructed).
Defined.




(** ** The pose: a unit direction, half the length away *)

Lemma magnitudeSquared_dot (v : Cartesian3) : Cartesian3.magnitudeSquared v = Cartesian3.dot v v.
Proof. reflexivity. Qed.

Lemma magnitudeSquared_nonneg (v : Cartesian3) : 0 <= Cartesian3.magnitudeSquared v.
Proof. unfold Cartesian3.magnitudeSquared. nra. Qed.

(** A vector that is not zero is normalised to a unit vector. *)
Lemma normalize_unit (v : Cartesian3) :
  Cartesian3.magnitudeSquared v <> 0 ->
  Cartesian3.magnitudeSquared (Cartesian3.normalize v) = 1.
Proof.
  intros H. pose proof (magnitudeSquared_nonneg v) as Hpos.
  unfold Cartesian3.normalize, Cartesian3.magnitude.
  assert (Hs : sqrt (Cartesian3.magnitudeSquared v) * sqrt (Cartesian3.magnitudeSquared v)
               = Cartesian3.magnitudeSquared v) by (apply sqrt_sqrt; lra).
  assert (Hn : sqrt (Cartesian3.magnitudeSquared v) <> 0).
  { intros E. rewrite E in Hs. lra. }
  remember (sqrt (Cartesian3.magnitudeSquared v)) as m eqn:Em. clear Em.
  unfold Cartesian3.magnitudeSquared in *. cbn [x y z].
  replace (x v / m * (x v / m) + y v / m * (y v / m) + z v / m * (z v / m))
    with ((x v * x v + y v * y v + z v * z v) / (m * m)) by (field; exact Hn).
  rewrite Hs. field. exact H.
Qed.

(** A matrix whose first three columns are orthonormal keeps the length of
    a direction. *)
Lemma orthonormal_columns_isometry (m : Matrix4) (c : Cartesian3) :
  m0 m * m0 m + m1 m * m1 m + m2 m * m2 m = 1 ->
  m4 m * m4 m + m5 m * m5 m + m6 m * m6 m = 1 ->
  m8 m * m8 m + m9 m * m9 m + m10 m * m10 m = 1 ->
  m0 m * m4 m + m1 m * m5 m + m2 m * m6 m = 0 ->
  m0 m * m8 m + m1 m * m9 m + m2 m * m10 m = 0 ->
  m4 m * m8 m + m5 m * m9 m + m6 m * m10 m = 0 ->
  Cartesian3.magnitudeSquared (Matrix4.multiplyByPointAsVector m c)
  = Cartesian3.magnitudeSquared c.
Proof.
  intros Haa Hbb Hcc Hab Hac Hbc.
  unfold Cartesian3.magnitudeSquared, Matrix4.multiplyByPointAsVector. cbn [x y z].
  replace ((m0 m * x c + m4 m * y c + m8 m * z c) * (m0 m * x c + m4 m * y c + m8 m * z c)
           + (m1 m * x c + m5 m * y c + m9 m * z c) * (m1 m * x c + m5 m * y c + m9 m * z c)
           + (m2 m * x c + m6 m * y c + m10 m * z c)
             * (m2 m * x c + m6 m * y c + m10 m * z c))
    with (x c * x c * (m0 m * m0 m + m1 m * m1 m + m2 m * m2 m)
          + y c * y c * (m4 m * m4 m + m5 m * m5 m + m6 m * m6 m)
          + z c * z c * (m8 m * m8 m + m9 m * m9 m + m10 m * m10 m)
          + 2 * x c * y c * (m0 m * m4 m + m1 m * m5 m + m2 m * m6 m)
          + 2 * x c * z c * (m0 m * m8 m + m1 m * m9 m + m2 m * m10 m)
          + 2 * y c * z c * (m4 m * m8 m + m5 m * m9 m + m6 m * m10 m)) by ring.
  rewrite Haa, Hbb, Hcc, Hab, Hac, Hbc. ring.
Qed.

Lemma equalsEpsilon_false_nonzero (v : R) :
  CesiumMath.equalsEpsilon v 0 CesiumMath.EPSILON14 = false -> v <> 0.
Proof.
  unfold CesiumMath.equalsEpsilon, CesiumMath.EPSILON14. intros H E. subst v.
  rewrite Rminus_diag, Rabs_R0 in H.
  destruct (Rle_dec 0 (/ 100000000000000)) as [_|N]; [discriminate|].
  apply N. lra.
Qed.

Lemma sign_unit (v : R) : v <> 0 -> CesiumMath.sign v * CesiumMath.sign v = 1.
Proof.
  intros H. unfold CesiumMath.sign.
  destruct (Rlt_dec 0 v); [lra|]. destruct (Rlt_dec v 0); lra.
Qed.

Lemma cross_orthonormal (u e : Cartesian3) :
  Cartesian3.dot u u = 1 -> Cartesian3.dot e e = 1 -> Cartesian3.dot u e = 0 ->
  Cartesian3.dot (Cartesian3.cross u e) (Cartesian3.cross u e) = 1
  /\ Cartesian3.dot e (Cartesian3.cross u e) = 0
  /\ Cartesian3.dot (Cartesian3.cross u e) u = 0.
Proof.
  destruct u as [ux uy uz], e as [ex ey ez].
  unfold Cartesian3.dot, Cartesian3.cross. cbn [x y z]. intros Hu He Hue.
  split; [|split; ring].
  replace ((uy * ez - uz * ey) * (uy * ez - uz * ey)
           + (uz * ex - ux * ez) * (uz * ex - ux * ez)
           + (ux * ey - uy * ex) * (ux * ey - uy * ex))
    with ((ux * ux + uy * uy + uz * uz) * (ex * ex + ey * ey + ez * ez)
          - (ux * ex + uy * ey + uz * ez) * (ux * ex + uy * ey + uz * ez)) by ring.
  rewrite Hu, He, Hue. ring.
Qed.

Lemma magnitude_nonzero (v : Cartesian3) :
  Cartesian3.magnitudeSquared v <> 0 -> Cartesian3.magnitude v <> 0.
Proof.
  intros H E. unfold Cartesian3.magnitude in E.
  pose proof (magnitudeSquared_nonneg v) as Hpos.
  apply sqrt_eq_0 in E; [exact (H E)|exact Hpos].
Qed.

(** Away from the axis of the poles: east, north and up are orthonormal. *)
Lemma frame_general (origin c : Cartesian3) :
  x origin <> 0 \/ y origin <> 0 ->
  let up := Cartesian3.normalize
              (Cartesian3.multiplyComponents origin Cartesian3.wgs84OneOverRadiiSquared) in
  let east := Cartesian3.normalize (mkCartesian3 (- y origin) (x origin) 0) in
  let north := Cartesian3.cross up east in
  Cartesian3.magnitudeSquared
    (Matrix4.multiplyByPointAsVector
       (mkMatrix4 (x east) (y east) (z east) 0
                  (x north) (y north) (z north) 0
                  (x up) (y up) (z up) 0
                  (x origin) (y origin) (z origin) 1) c)
  = Cartesian3.magnitudeSquared c.
Proof.
  intros Hxy. cbv zeta.
  assert (Hxy2 : x origin * x origin + y origin * y origin <> 0) by (destruct Hxy; nra).
  assert (Hup : Cartesian3.magnitudeSquared
                  (Cartesian3.multiplyComponents origin Cartesian3.wgs84OneOverRadiiSquared)
                <> 0).
  { unfold Cartesian3.magnitudeSquared, Cartesian3.multiplyComponents,
      Cartesian3.wgs84OneOverRadiiSquared, Cartesian3.wgs84RadiiSquared,
      Cartesian3.multiplyComponents, Cartesian3.wgs84Radii.
    cbn [x y z].
    assert (HA : 0 < / (6378137 * 6378137)) by (apply Rinv_0_lt_compat; lra).
    remember (/ (6378137 * 6378137)) as A eqn:EA. clear EA.
    remember (/ (6356752.3142451793 * 6356752.3142451793)) as B eqn:EB. clear EB.
    assert (H1 : 0 < (x origin * A) * (x origin * A) + (y origin * A) * (y origin * A)).
    { replace ((x origin * A) * (x origin * A) + (y origin * A) * (y origin * A))
        with ((x origin * x origin + y origin * y origin) * (A * A)) by ring.
      apply Rmult_lt_0_compat; [nra|nra]. }
    nra. }
  assert (Heast : Cartesian3.magnitudeSquared (mkCartesian3 (- y origin) (x origin) 0) <> 0).
  { unfold Cartesian3.magnitudeSquared. cbn [x y z]. nra. }
  pose proof (normalize_unit _ Hup) as Hu.
  pose proof (normalize_unit _ Heast) as He.
  rewrite magnitudeSquared_dot in Hu, He.
  assert (Hue : Cartesian3.dot
                  (Cartesian3.normalize
                     (Cartesian3.multiplyComponents origin
                        Cartesian3.wgs84OneOverRadiiSquared))
                  (Cartesian3.normalize (mkCartesian3 (- y origin) (x origin) 0)) = 0).
  { pose proof (magnitude_nonzero _ Hup) as Hmu.
    pose proof (magnitude_nonzero _ Heast) as Hme.
    unfold Cartesian3.normalize, Cartesian3.dot.
    remember (Cartesian3.magnitude
                (Cartesian3.multiplyComponents origin Cartesian3.wgs84OneOverRadiiSquared))
      as mu eqn:Emu. clear Emu.
    remember (Cartesian3.magnitude (mkCartesian3 (- y origin) (x origin) 0)) as me eqn:Eme.
    clear Eme.
    unfold Cartesian3.multiplyComponents, Cartesian3.wgs84OneOverRadiiSquared,
      Cartesian3.wgs84RadiiSquared, Cartesian3.multiplyComponents, Cartesian3.wgs84Radii.
    cbn [x y z].
    remember (/ (6378137 * 6378137)) as A eqn:EA. clear EA.
    remember (/ (6356752.3142451793 * 6356752.3142451793)) as B eqn:EB. clear EB.
    field. split; assumption. }
  remember (Cartesian3.normalize
              (Cartesian3.multiplyComponents origin Cartesian3.wgs84OneOverRadiiSquared))
    as u eqn:Eu. clear Eu.
  remember (Cartesian3.normalize (mkCartesian3 (- y origin) (x origin) 0)) as e eqn:Ee.
  clear Ee.
  destruct (cross_orthonormal u e Hu He Hue) as (Hnn & Hen & Hnu).
  apply orthonormal_columns_isometry; cbn [m0 m1 m2 m4 m5 m6 m8 m9 m10].
  - exact He.
  - exact Hnn.
  - exact Hu.
  - exact Hen.
  - unfold Cartesian3.dot in Hue. lra.
  - exact Hnu.
Qed.

(** The east-north-up frame keeps lengths, at every origin. *)
Lemma eastNorthUp_isometry (origin c : Cartesian3) :
  Cartesian3.magnitudeSquared
    (Matrix4.multiplyByPointAsVector (Transforms.eastNorthUpToFixedFrame origin) c)
  = Cartesian3.magnitudeSquared c.
Proof.
  unfold Transforms.eastNorthUpToFixedFrame.
  destruct (Cartesian3.equalsEpsilon origin Cartesian3.ZERO CesiumMath.EPSILON14) eqn:H1.
  - apply orthonormal_columns_isometry;
      cbn [m0 m1 m2 m4 m5 m6 m8 m9 m10 x y z]; ring.
  - destruct (CesiumMath.equalsEpsilon (x origin) 0 CesiumMath.EPSILON14) eqn:Hx;
      [destruct (CesiumMath.equalsEpsilon (y origin) 0 CesiumMath.EPSILON14) eqn:Hy|];
      cbn [andb].
    + assert (Hz : z origin <> 0).
      { apply equalsEpsilon_false_nonzero.
        unfold Cartesian3.equalsEpsilon in H1. cbn [x y z Cartesian3.ZERO] in H1.
        rewrite Hx, Hy in H1. exact H1. }
      pose proof (sign_unit (z origin) Hz) as Hs.
      remember (CesiumMath.sign (z origin)) as s eqn:Es. clear Es.
      apply orthonormal_columns_isometry;
        unfold Cartesian3.multiplyByScalar;
        cbn [m0 m1 m2 m4 m5 m6 m8 m9 m10 x y z]; nra.
    + apply equalsEpsilon_false_nonzero in Hy.
      unfold Ellipsoid.geodeticSurfaceNormal. rewrite H1.
      apply (frame_general origin c). right. exact Hy.
    + apply equalsEpsilon_false_nonzero in Hx.
      unfold Ellipsoid.geodeticSurfaceNormal. rewrite H1.
      apply (frame_general origin c). left. exact Hx.
Qed.


Lemma multiplyByPointAsVector_multiply (a b : Matrix4) (c : Cartesian3) :
  m3 b = 0 -> m7 b = 0 -> m11 b = 0 ->
  Matrix4.multiplyByPointAsVector (Matrix4.multiply a b) c
  = Matrix4.multiplyByPointAsVector a (Matrix4.multiplyByPointAsVector b c).
Proof.
  intros H3 H7 H11. unfold Matrix4.multiplyByPointAsVector, Matrix4.multiply.
  cbn [x y z m0 m1 m2 m3 m4 m5 m6 m7 m8 m9 m10 m11 m12 m13 m14 m15].
  rewrite H3, H7, H11. f_equal; ring.
Qed.

(** The rotation of a quaternion scales lengths by its squared norm. *)
Lemma quaternion_rotation_length (q : Quaternion) (c : Cartesian3) :
  Cartesian3.magnitudeSquared
    (Matrix4.multiplyByPointAsVector
       (Matrix4.fromTranslationQuaternionRotationScale Cartesian3.ZERO q (mkCartesian3 1 1 1))
       c)
  = (qx q * qx q + qy q * qy q + qz q * qz q + qw q * qw q)
    * (qx q * qx q + qy q * qy q + qz q * qz q + qw q * qw q)
    * Cartesian3.magnitudeSquared c.
Proof.
  destruct q as [a b d w], c as [cx cy cz].
  unfold Cartesian3.magnitudeSquared, Matrix4.multiplyByPointAsVector,
    Matrix4.fromTranslationQuaternionRotationScale, Matrix3.fromQuaternion, Cartesian3.ZERO.
  cbn [x y z qx qy qz qw n0 n1 n2 n3 n4 n5 n6 n7 n8
       m0 m1 m2 m3 m4 m5 m6 m7 m8 m9 m10 m11 m12 m13 m14 m15].
  ring.
Qed.

Lemma fromHeadingPitchRoll_unit (h p : R) :
  let q := Quaternion.fromHeadingPitchRoll (mkHPR h p 0) in
  qx q * qx q + qy q * qy q + qz q * qz q + qw q * qw q = 1.
Proof.
  cbv zeta. rewrite fromHeadingPitchRoll_noroll. cbn [qx qy qz qw].
  pose proof (sin2_cos2 (h / 2)) as Hh. pose proof (sin2_cos2 (p / 2)) as Hp.
  unfold Rsqr in Hh, Hp.
  remember (sin (h / 2)) as sh. remember (cos (h / 2)) as ch.
  remember (sin (p / 2)) as sp. remember (cos (p / 2)) as cp.
  replace (- (sh * sp) * - (sh * sp) + - (ch * sp) * - (ch * sp)
           + - (sh * cp) * - (sh * cp) + ch * cp * (ch * cp))
    with ((sh * sh + ch * ch) * (sp * sp + cp * cp)) by ring.
  rewrite Hh, Hp. ring.
Qed.

(** The heading-pitch-roll frame keeps lengths, at every origin and for
    every heading and pitch. *)
Lemma headingPitchRollToFixedFrame_isometry (origin c : Cartesian3) (h p : R) :
  Cartesian3.magnitudeSquared
    (Matrix4.multiplyByPointAsVector
       (Transforms.headingPitchRollToFixedFrame origin (mkHPR h p 0)) c)
  = Cartesian3.magnitudeSquared c.
Proof.
  unfold Transforms.headingPitchRollToFixedFrame. cbv zeta.
  rewrite multiplyByPointAsVector_multiply by reflexivity.
  rewrite eastNorthUp_isometry, quaternion_rotation_length.
  pose proof (fromHeadingPitchRoll_unit h p) as Hq. cbv zeta in Hq.
  rewrite Hq. ring.
Qed.

Lemma magnitude_normalize_unit (v : Cartesian3) :
  Cartesian3.magnitudeSquared v = 1 ->
  Cartesian3.magnitudeSquared (Cartesian3.normalize v) = 1.
Proof. intros H. apply normalize_unit. rewrite H. lra. Qed.

Lemma shifted_center_distance (p d : Cartesian3) (half : R) :
  Cartesian3.magnitudeSquared d = 1 ->
  Cartesian3.distance
    (Cartesian3.subtract (Cartesian3.clone p) (Cartesian3.multiplyByScalar d half)) p
  = Rabs half.
Proof.
  intros Hd. unfold Cartesian3.distance, Cartesian3.magnitude.
  replace (Cartesian3.magnitudeSquared
             (Cartesian3.subtract
                (Cartesian3.subtract (Cartesian3.clone p) (Cartesian3.multiplyByScalar d half))
                p))
    with (Rsqr half).
  - apply sqrt_Rsqr_abs.
  - unfold Cartesian3.magnitudeSquared in *. unfold Cartesian3.subtract, Cartesian3.clone,
      Cartesian3.multiplyByScalar, Rsqr. cbn [x y z].
    replace ((x p - x d * half - x p) * (x p - x d * half - x p)
             + (y p - y d * half - y p) * (y p - y d * half - y p)
             + (z p - z d * half - z p) * (z p - z d * half - z p))
      with (half * half * (x d * x d + y d * y d + z d * z d)) by ring.
    rewrite Hd. ring.
Qed.

Lemma Rabs_half (v : R) : Rabs (v / 2) = Rabs v / 2.
Proof.
  unfold Rdiv. rewrite Rabs_mult. f_equal. apply Rabs_right. lra.
Qed.

Lemma unit_magnitude (v : Cartesian3) :
  Cartesian3.magnitudeSquared v = 1 -> Cartesian3.magnitude v = 1.
Proof. intros H. unfold Cartesian3.magnitude. rewrite H. apply sqrt_1. Qed.

(** X19: the centre is half the length from the vertex.  For every
    longitude, latitude, height, heading, pitch and length, in
    [conicalWave] and in both versions of [createRadarCone], the direction
    the centre is shifted along is a unit vector, so the centre of the
    cylinder lies exactly half the absolute length from the vertex: the
    frame at the vertex keeps lengths, also at the poles, where the engine
    builds it differently. *)
Theorem pose_half_length (lng lat height : R) (o : Geometry.Options)
    (r : RadarEmission.Options) :
  Cartesian3.magnitude (Geometry.worldDirection lng lat height o) = 1
  /\ Cartesian3.distance (Geometry.cylinderCenter lng lat height o)
                         (Geometry.vertexPosition lng lat height)
     = Rabs (Geometry.length o) / 2
  /\ Cartesian3.magnitude (RadarEmission.worldDirection lng lat r) = 1
  /\ Cartesian3.distance (RadarEmission.cylinderCenter lng lat r)
                         (RadarEmission.vertexPosition lng lat)
     = Rabs (RadarEmission.length r) / 2
  /\ Cartesian3.magnitude (RadarEmission2.worldAxis lng lat r) = 1
  /\ Cartesian3.distance (RadarEmission2.cylinderCenter lng lat r)
                         (RadarEmission2.vertexPosition lng lat)
     = Rabs (RadarEmission.length r) / 2.
Proof.
  assert (H1 : Cartesian3.magnitudeSquared (Geometry.worldDirection lng lat height o) = 1).
  { unfold Geometry.worldDirection, Geometry.transform, Geometry.hpr.
    apply magnitude_normalize_unit. rewrite headingPitchRollToFixedFrame_isometry.
    unfold Cartesian3.magnitudeSquared, Geometry.direction, Cartesian3.UNIT_Z.
    cbn [x y z]. ring. }
  assert (H2 : Cartesian3.magnitudeSquared (RadarEmission.worldDirection lng lat r) = 1).
  { unfold RadarEmission.worldDirection, RadarEmission.transform, RadarEmission.hpr.
    apply magnitude_normalize_unit. rewrite headingPitchRollToFixedFrame_isometry.
    unfold Cartesian3.magnitudeSquared, RadarEmission.direction, Cartesian3.UNIT_Z.
    cbn [x y z]. ring. }
  assert (H3 : Cartesian3.magnitudeSquared (RadarEmission2.worldAxis lng lat r) = 1).
  { unfold RadarEmission2.worldAxis, RadarEmission2.transform, RadarEmission2.hpr.
    apply magnitude_normalize_unit. rewrite headingPitchRollToFixedFrame_isometry.
    unfold Cartesian3.magnitudeSquared, RadarEmission2.localAxis.
    cbn [x y z]. ring. }
  repeat split.
  - apply unit_magnitude, H1.
  - unfold Geometry.cylinderCenter, Geometry.offset, Geometry.halfLength.
    rewrite (shifted_center_distance _ _ _ H1). apply Rabs_half.
  - apply unit_magnitude, H2.
  - unfold RadarEmission.cylinderCenter, RadarEmission.offset, RadarEmission.halfLength.
    rewrite (shifted_center_distance _ _ _ H2). apply Rabs_half.
  - apply unit_magnitude, H3.
  - unfold RadarEmission2.cylinderCenter, RadarEmission2.halfLength.
    rewrite (shifted_center_distance _ _ _ H3). apply Rabs_half.
Qed.


(** ** Colours *)

(** X20: the colour of what is created.  Whenever a creator returns a
    handle, the engine has parsed the colour string of the request, or the
    creator's default when the string is missing or empty, and the handle
    is drawn with the red, green and blue of the parsed colour and with the
    creator's own alpha (0.7 for the radar cone, 0.9 for the flame fence,
    0.2 for the cone effect, 0.8 for the flowing fence): the alpha of the
    colour string is never used. *)
Theorem created_colour (engine : Engine) (r : Request) (w : World) (g : Graphic) :
  fst (create engine r w) = Normal (Some g) ->
  exists c,
    fromCssColorString engine (or_string (requestColor r) (defaultColor r)) = Some c
    /\ colourOf g = mkColor (red c) (green c) (blue c) (fixedAlpha r)
    /\ (requestColor r = None \/ requestColor r = Some EmptyString ->
        fromCssColorString engine (defaultColor r) = Some c).
Proof.
  assert (Hdef : forall s d, s = None \/ s = Some EmptyString -> or_string s d = d).
  { intros s d [-> | ->]; reflexivity. }
  destruct r as [o|o|o|o]; cbn [create requestColor defaultColor fixedAlpha].
  - unfold Geometry.conicalWave. crunch; cbn [fst]; intros H; try discriminate;
      injection H as <-; eexists; (split; [reflexivity|]);
      (split; [reflexivity|]); intros Hs; rewrite (Hdef _ _ Hs) in *; assumption.
  - unfold Fence.fenceFlowEffect. crunch; cbn [fst]; intros H; try discriminate;
      injection H as <-; eexists; (split; [reflexivity|]);
      (split; [reflexivity|]); intros Hs; rewrite (Hdef _ _ Hs) in *; assumption.
  - unfold Fence.conicalEffect. crunch; cbn [fst]; intros H; try discriminate;
      injection H as <-; eexists; (split; [reflexivity|]);
      (split; [reflexivity|]); intros Hs; rewrite (Hdef _ _ Hs) in *; assumption.
  - unfold FenceFlow.fenceFlowEffect, FenceFlow.build, FenceFlow.publish, FenceFlow.cleanup.
    crunch; cbn [fst]; intros H; try discriminate;
      injection H as <-; eexists; (split; [reflexivity|]);
      (split; [reflexivity|]); intros Hs; rewrite (Hdef _ _ Hs) in *; assumption.
Qed.

(** The theorem for the two-position flame fence, which names no colour. *)
Lemma created_colour_witness :
  exists c,
    fromCssColorString quietEngine
      (or_string (requestColor (FlameFence lineFence)) (defaultColor (FlameFence lineFence)))
    = Some c
    /\ colourOf storedFence
       = mkColor (red c) (green c) (blue c) (fixedAlpha (FlameFence lineFence))
    /\ (requestColor (FlameFence lineFence) = None
        \/ requestColor (FlameFence lineFence) = Some EmptyString ->
        fromCssColorString quietEngine (defaultColor (FlameFence lineFence)) = Some c).
Proof.
  exact (created_colour quietEngine (FlameFence lineFence) freshWorld storedFence
           lineFence_created).
Defined.


(** ** The sweep of a cone that has been created *)

Lemma rem_elapsed (origin elapsed k : Z) :
  (0 <= elapsed < 2000)%Z -> (0 <= k)%Z ->
  Z.rem (origin + 2000 * k + elapsed - origin) 2000 = elapsed.
Proof.
  intros He Hk.
  replace (origin + 2000 * k + elapsed - origin)%Z with (elapsed + k * 2000)%Z by lia.
  rewrite Z.rem_mod_nonneg by lia.
  rewrite Z.mod_add by lia. apply Z.mod_small. exact He.
Qed.

(** X21: the sweep starts when the cone is created.  The material of a
    cone returned by [conicalWave], or held by an emitter the constructor
    of [RadarEmission] returned, is evaluated [elapsed] milliseconds after
    a whole number of periods of 2000 ms since the call: its [time] uniform
    is [elapsed / 20000], from 0 at the creation up to 1/10, with 30 rings,
    no offset and the thickness asked for; the radar cone is drawn with an
    alpha of 0.7, the emitter with the colour of its merged options: the
    caller's, the default coral when the caller names none, and white when
    the caller passes the colour as [undefined]. *)
Theorem cone_sweep_from_creation (elapsed k : Z) (julian : R) (result : option Uniforms) :
  (0 <= elapsed < 2000)%Z ->
  (0 <= k)%Z ->
  (forall engine (o : Geometry.Options) (w w' : World) (e : RadarEntity),
      Geometry.conicalWave engine o w = (Normal (Some (GEntity e)), w') ->
      let u := RadarPrimitiveMaterialProperty.getValue (cyl_material (ent_cylinder e))
                 julian result (clock w + 2000 * k + elapsed) in
      u_time u = IZR elapsed / 20000 /\ 0 <= u_time u < 1 / 10
      /\ u_repeat u = 30 /\ u_offset u = 0 /\ u_thickness u = Geometry.thickness o
      /\ alpha (u_color u) = 0.7)
  /\ (forall version (h h1 : Lifecycle.Host) (o : Lifecycle.PartialOptions)
             (inst : Lifecycle.Instance) (i : nat) (e : RadarEmission.RadarConeEntity),
         Lifecycle.constructor version h o = (Normal inst, h1) ->
         Lifecycle.this_entity inst = Some (i, e) ->
         let u := RadarEmission.RadarPrimitiveMaterialProperty.getValue
                    (cyl_material (ent_cylinder e)) julian result
                    (Lifecycle.host_clock h + 2000 * k + elapsed) in
         u_time u = IZR elapsed / 20000 /\ 0 <= u_time u < 1 / 10
         /\ u_repeat u = 30 /\ u_offset u = 0
         /\ u_thickness u = Lifecycle.m_thickness (Lifecycle.this_options inst)
         /\ u_color u
            = match Lifecycle.m_color (Lifecycle.this_options inst) with
              | Some c => c
              | None => Color.WHITE
              end
         /\ (forall c, Lifecycle.color o = Some (Some c) -> u_color u = c)
         /\ (Lifecycle.color o = None -> u_color u = RadarEmission.CORAL)
         /\ (Lifecycle.color o = Some None -> u_color u = Color.WHITE)).
Proof.
  intros He Hk.
  assert (Hrange : IZR elapsed / IZR 2000 / 10 = IZR elapsed / 20000
                   /\ 0 <= IZR elapsed / 20000 < 1 / 10).
  { destruct He as [H0 H1]. apply IZR_le in H0. apply IZR_lt in H1.
    split; [field|]. split; lra. }
  destruct Hrange as (Hdiv & Hlo & Hhi).
  split.
  - intros engine o w w'. unfold Geometry.conicalWave.
    crunch; intros ent H; try discriminate; injection H as <- _;
      cbn [ent_cylinder cyl_material];
      unfold RadarPrimitiveMaterialProperty.getValue, RadarPrimitiveMaterialProperty.new;
      cbn [RadarPrimitiveMaterialProperty.opts RadarPrimitiveMaterialProperty._color
           RadarPrimitiveMaterialProperty.time RadarPrimitiveMaterialProperty.duration
           RadarPrimitiveMaterialProperty.repeat RadarPrimitiveMaterialProperty.offset
           RadarPrimitiveMaterialProperty.thickness RadarPrimitiveMaterialProperty.color
           u_color u_time u_repeat u_offset u_thickness Color.withAlpha alpha];
      rewrite (rem_elapsed _ _ _ He Hk), Hdiv; repeat split; (reflexivity || assumption).
  - intros version h h1 o inst i e Hc Hent.
    destruct (constructor_cases version h o) as [(e0 & Hcone & E)|(err & _ & E)];
      rewrite E in Hc; [|discriminate].
    injection Hc as <- <-. cbn [Lifecycle.this_entity Lifecycle.this_options] in *.
    injection Hent as _ <-.
    assert (Hmat : cyl_material (ent_cylinder e0)
                   = RadarEmission.RadarPrimitiveMaterialProperty.new
                       (Lifecycle.m_color (Lifecycle.merge RadarEmission.defaults o))
                       (Lifecycle.m_thickness (Lifecycle.merge RadarEmission.defaults o))
                       (Lifecycle.host_clock h)).
    { revert Hcone. unfold Lifecycle.coneOf, RadarEmission.createRadarCone,
        RadarEmission2.createRadarCone.
      destruct (Lifecycle.m_position (Lifecycle.merge RadarEmission.defaults o))
        as [position|]; [|discriminate].
      destruct (position !! 0%nat); [|discriminate].
      destruct (position !! 1%nat); [|discriminate].
      destruct (Lifecycle.m_heading (Lifecycle.merge RadarEmission.defaults o));
        [|discriminate].
      destruct (Lifecycle.m_pitch (Lifecycle.merge RadarEmission.defaults o));
        [|discriminate].
      destruct version; cbv beta zeta;
        cbn [RadarEmission.options RadarEmission.position lookup list_lookup];
        rewrite ?Heqo0, ?Heqo1;
        repeat match goal with
               | |- context [match ?l !! ?n with _ => _ end] => destruct (l !! n)
               end;
        intros H; first [discriminate H | injection H as <-; reflexivity]. }
    rewrite Hmat.
    unfold RadarEmission.RadarPrimitiveMaterialProperty.getValue,
      RadarEmission.RadarPrimitiveMaterialProperty.new.
    cbn [RadarEmission.RadarPrimitiveMaterialProperty.opts
         RadarEmission.RadarPrimitiveMaterialProperty._color
         RadarEmission.RadarPrimitiveMaterialProperty.this_duration
         RadarEmission.RadarPrimitiveMaterialProperty._time
         RadarEmission.RadarPrimitiveMaterialProperty.time
         RadarEmission.RadarPrimitiveMaterialProperty.duration
         RadarEmission.RadarPrimitiveMaterialProperty.repeat
         RadarEmission.RadarPrimitiveMaterialProperty.offset
         RadarEmission.RadarPrimitiveMaterialProperty.thickness
         RadarEmission.RadarPrimitiveMaterialProperty.color
         RadarEmission.RadarPrimitiveMaterialProperty.getValueOrClonedDefault
         u_color u_time u_repeat u_offset u_thickness].
    rewrite (rem_elapsed _ _ _ He Hk), Hdiv.
    unfold Lifecycle.merge, Lifecycle.over. cbn [Lifecycle.m_color Lifecycle.m_thickness].
    repeat split; try (reflexivity || assumption).
    + intros c ->. reflexivity.
    + intros ->. reflexivity.
    + intros ->. reflexivity.
Qed.

Lemma shortWave_created :
  Geometry.conicalWave quietEngine shortWave freshWorld
  = (Normal (Some (GEntity (radarCone shortWave 0 0 (mkColor 0 1 1 1) 0))),
     afterConicalWave "wave" (radarCone shortWave 0 0 (mkColor 0 1 1 1) 0) (mkViewer [] [])
                      freshWorld).
Proof.
  apply (conicalWave_creates quietEngine shortWave freshWorld (mkViewer [] []) 0 0 []);
    reflexivity.
Qed.

Lemma whiteRadar_constructed :
  exists inst h1 e,
    Lifecycle.constructor Lifecycle.Second Lifecycle.emptyHost undefinedColor
    = (Normal inst, h1)
    /\ Lifecycle.this_entity inst = Some (0%nat, e).
Proof. do 3 eexists. split; reflexivity. Qed.

(** The theorem half a second into the third period, for the cone
    [conicalWave] returns in the empty world and for the emitter built there
    with the colour passed as [undefined], which is drawn white. *)
Lemma cone_sweep_from_creation_witness :
  (let u := RadarPrimitiveMaterialProperty.getValue
              (cyl_material (ent_cylinder (radarCone shortWave 0 0 (mkColor 0 1 1 1) 0)))
              0 None (clock freshWorld + 2000 * 2 + 500) in
   u_time u = IZR 500 / 20000 /\ u_thickness u = 0.3 /\ alpha (u_color u) = 0.7)
  /\ (exists inst h1 e,
        Lifecycle.constructor Lifecycle.Second Lifecycle.emptyHost undefinedColor
        = (Normal inst, h1)
        /\ let u := RadarEmission.RadarPrimitiveMaterialProperty.getValue
                      (cyl_material (ent_cylinder e)) 0 None
                      (Lifecycle.host_clock Lifecycle.emptyHost + 2000 * 2 + 500) in
           u_time u = IZR 500 / 20000 /\ u_thickness u = 0.1 /\ u_color u = Color.WHITE).
Proof.
  destruct (cone_sweep_from_creation 500 2 0 None ltac:(lia) ltac:(lia)) as [Hwave Hradar].
  split.
  - destruct (Hwave quietEngine shortWave freshWorld _ _ shortWave_created)
      as (Ht & _ & _ & _ & Hth & Ha).
    split; [exact Ht|]. split; [exact Hth|exact Ha].
  - destruct whiteRadar_constructed as (inst & h1 & e & Hc & He).
    exists inst, h1, e. split; [exact Hc|].
    destruct (Hradar Lifecycle.Second Lifecycle.emptyHost h1 undefinedColor inst 0%nat e
                Hc He) as (Ht & _ & _ & _ & Hth & _ & _ & _ & Hwhite).
    split; [exact Ht|]. split; [|exact (Hwhite eq_refl)].
    rewrite Hth.
    destruct (constructor_cases Lifecycle.Second Lifecycle.emptyHost undefinedColor)
      as [(e0 & _ & E)|(err & _ & E)]; rewrite E in Hc; [|discriminate].
    injection Hc as <- _. reflexivity.
Defined.


(** ** The console *)

Lemma lineFlow_destroyed :
  fst (create destroyedScene (FlowFence lineFlow) freshWorld) = Throw DeveloperError.
Proof. vm_compute. reflexivity. Qed.

(** X22: a [null] is never silent.  Whatever the engine and the world, a
    creator that returns [null] has written exactly one message to the
    console, saying why (no map, identifier in use, bad positions, or the
    error caught); a fence or cone creator that returns a handle has written
    its one success message and [conicalWave] none.  The flame fence and the
    cone effect never throw.  [conicalWave] throws having written nothing.
    The flowing fence throws only out of its catch clause: the engine
    refused to add the primitive, the clause reported that error, and the
    removal of the primitive was refused too; what is thrown is the error of
    the removal. *)
Theorem null_is_never_silent (engine : Engine) (r : Request) (w : World) :
  let w' := snd (create engine r w) in
  match fst (create engine r w) with
  | Normal None => exists m, console w' = console w ++ [m] /\ isReport m = true
  | Normal (Some g) =>
    match r with
    | Wave _ => console w' = console w
    | _ => exists m, console w' = console w ++ [m] /\ isReport m = false
    end
  | Throw thrown =>
    (console w' = console w /\ exists o, r = Wave o)
    \/ (exists o p err,
          r = FlowFence o
          /\ console w' = console w ++ [ErrFlowFence err]
          /\ fault engine (PrimitivesAdd p) = Some err
          /\ fault engine (PrimitivesRemove p) = Some thrown)
  end.
Proof.
  cbv zeta. destruct r as [o|o|o|o]; unfold create.
  - unfold Geometry.conicalWave. crunch; cbn [fst snd console];
      first [reflexivity | (left; split; [reflexivity|eexists; reflexivity])
             | eexists; split; reflexivity].
  - unfold Fence.fenceFlowEffect. crunch; cbn [fst snd console];
      eexists; split; reflexivity.
  - unfold Fence.conicalEffect. crunch; cbn [fst snd console];
      eexists; split; reflexivity.
  - unfold FenceFlow.fenceFlowEffect, FenceFlow.build, FenceFlow.publish, FenceFlow.cleanup.
    crunch; cbn [fst snd console];
      first [ eexists; split; reflexivity
            | right; do 3 eexists; (split; [reflexivity|]); (split; [reflexivity|]);
              split; eassumption ].
Qed.

(** The theorem for the flowing fence under an engine whose primitive
    collection is destroyed, so that both [add] and [remove] throw: the
    call throws after one report. *)
Lemma null_is_never_silent_witness :
  exists thrown,
    fst (create destroyedScene (FlowFence lineFlow) freshWorld) = Throw thrown
    /\ ((console (snd (create destroyedScene (FlowFence lineFlow) freshWorld))
         = console freshWorld
         /\ exists o, FlowFence lineFlow = Wave o)
        \/ (exists o p err,
              FlowFence lineFlow = FlowFence o
              /\ console (snd (create destroyedScene (FlowFence lineFlow) freshWorld))
                 = console freshWorld ++ [ErrFlowFence err]
              /\ fault destroyedScene (PrimitivesAdd p) = Some err
              /\ fault destroyedScene (PrimitivesRemove p) = Some thrown)).
Proof.
  exists DeveloperError.
  pose proof (null_is_never_silent destroyedScene (FlowFence lineFlow) freshWorld) as H.
  cbv zeta in H. rewrite lineFlow_destroyed in H.
  split; [exact lineFlow_destroyed|exact H].
Defined.


(** ** The shader of the flame fence *)

Lemma fract_range (v : R) : 0 <= Glsl.fract v < 1.
Proof.
  unfold Glsl.fract, Glsl.floor. destruct (base_Int_part v) as [H1 H2]. lra.
Qed.

Lemma noise_range (st : R * R) : 0 <= FlameShader.noise st < 1.
Proof. unfold FlameShader.noise. apply fract_range. Qed.

(** Five octaves of noise stay below the sum of their amplitudes. *)
Lemma fbm_range (st : R * R) : 0 <= FlameShader.fbm st < 31 / 32.
Proof.
  unfold FlameShader.fbm. cbn [FlameShader.fbm_loop].
  repeat match goal with
         | |- context [FlameShader.noise ?p] =>
           let n := fresh "n" in
           let H := fresh "Hn" in
           let E := fresh "En" in
           pose proof (noise_range p) as H;
           remember (FlameShader.noise p) as n eqn:E; clear E
         end.
  lra.
Qed.

Lemma clamp_unit (v : R) : 0 <= Glsl.clamp v 0 1 <= 1.
Proof.
  unfold Glsl.clamp, Rmin, Rmax.
  destruct (Rle_dec v 0); destruct (Rle_dec _ 1); lra.
Qed.

Lemma clamp_below (v : R) : v < 1 -> Glsl.clamp v 0 1 < 1.
Proof.
  intros H. unfold Glsl.clamp, Rmin, Rmax.
  destruct (Rle_dec v 0); destruct (Rle_dec _ 1); lra.
Qed.

Lemma smoothstep_range (edge0 edge1 v : R) : 0 <= Glsl.smoothstep edge0 edge1 v <= 1.
Proof.
  unfold Glsl.smoothstep. cbv zeta.
  pose proof (clamp_unit ((v - edge0) / (edge1 - edge0))) as H.
  remember (Glsl.clamp ((v - edge0) / (edge1 - edge0)) 0 1) as t. clear Heqt.
  split; [|assert (0 <= (1 - t) * (1 - t) * (1 + 2 * t)) by
               (apply Rmult_le_pos; [nra|lra])]; nra.
Qed.

Lemma smoothstep_below_one (v : R) : v < 1 -> Glsl.smoothstep 0.8 1 v < 1.
Proof.
  intros Hv. unfold Glsl.smoothstep. cbv zeta.
  pose proof (clamp_unit ((v - 0.8) / (1 - 0.8))) as H.
  assert (Hlt : Glsl.clamp ((v - 0.8) / (1 - 0.8)) 0 1 < 1).
  { apply clamp_below. apply (Rmult_lt_reg_r (1 - 0.8)); [lra|].
    unfold Rdiv. rewrite Rmult_assoc, Rinv_l by lra. lra. }
  remember (Glsl.clamp ((v - 0.8) / (1 - 0.8)) 0 1) as t. clear Heqt.
  assert (0 < (1 - t) * (1 - t) * (1 + 2 * t))
    by (apply Rmult_lt_0_compat; [nra|lra]).
  nra.
Qed.

Lemma pow_two (v : R) : 0 < v -> Glsl.pow v 2 = v * v.
Proof.
  intros H. unfold Glsl.pow.
  replace 2 with (INR 2) by (cbn; lra).
  rewrite Rpower_pow by exact H. cbn. ring.
Qed.

Lemma flame_range (u_speed frame : R) (st : R * R) :
  0 <= snd st ->
  (snd st < FlameShader.flameHeight u_speed frame ->
   0 < FlameShader.flame u_speed frame st <= 1)
  /\ (FlameShader.flameHeight u_speed frame <= snd st ->
      FlameShader.flame u_speed frame st = 0).
Proof.
  intros Ht. unfold FlameShader.flame.
  destruct (Rlt_dec (snd st) (FlameShader.flameHeight u_speed frame)) as [Hlt|Hge];
    [|split; [intros; lra|reflexivity]].
  split; [intros _|intros; lra]. cbv zeta.
  remember (FlameShader.flameHeight u_speed frame) as fh. clear Heqfh.
  assert (Hfh : 0 < fh) by lra.
  assert (Hq : 0 <= snd st / fh < 1).
  { split.
    - apply Rmult_le_pos; [exact Ht|]. apply Rlt_le, Rinv_0_lt_compat, Hfh.
    - apply (Rmult_lt_reg_r fh); [exact Hfh|].
      unfold Rdiv. rewrite Rmult_assoc, Rinv_l by lra. lra. }
  rewrite pow_two by lra.
  pose proof (fbm_range (fst st * 5 + FlameShader.time u_speed frame * 0.5,
                         snd st * 2 - FlameShader.time u_speed frame)) as Hf.
  pose proof (smoothstep_range 0.8 1
                (FlameShader.fbm (fst st * 5 + FlameShader.time u_speed frame * 0.5,
                                  snd st * 2 - FlameShader.time u_speed frame))) as He.
  pose proof (smoothstep_below_one
                (FlameShader.fbm (fst st * 5 + FlameShader.time u_speed frame * 0.5,
                                  snd st * 2 - FlameShader.time u_speed frame))
                ltac:(lra)) as He1.
  remember (Glsl.smoothstep 0.8 1 _) as edge. clear Heqedge.
  remember (snd st / fh) as q. clear Heqq.
  assert (0 < (1 - q) * (1 - q)) by nra.
  assert ((1 - q) * (1 - q) <= 1) by nra.
  remember ((1 - q) * (1 - q)) as i2 eqn:Ei. clear Ei.
  split; [apply Rmult_lt_0_compat; lra|nra].
Qed.

(** X23: where the flame wall shows.  On the wall (vertical texture
    coordinate at least 0), at and above the flame front [fract(time)] the
    material is fully transparent with no emission and the diffuse colour
    is the fence colour; below the front the flame term is positive and at
    most 1, so the wall shows everywhere below the front; and the alpha of
    the material never leaves the range from 0 to the alpha of the
    colour. *)
Theorem flame_wall_alpha (u_color : Color) (u_speed frame : R) (st : R * R) :
  0 <= snd st ->
  let material := FlameShader.czm_getMaterial u_color u_speed frame st in
  let front := FlameShader.flameHeight u_speed frame in
  0 <= front < 1
  /\ (front <= snd st ->
      mat_alpha material = 0
      /\ mat_emission material = (0, 0, 0)
      /\ mat_diffuse material = (red u_color, green u_color, blue u_color))
  /\ (snd st < front -> 0 < FlameShader.flame u_speed frame st <= 1)
  /\ (0 <= alpha u_color -> 0 <= mat_alpha material <= alpha u_color).
Proof.
  intros Ht. cbv zeta.
  destruct (flame_range u_speed frame st Ht) as [Hbelow Habove].
  split; [apply fract_range|].
  unfold FlameShader.czm_getMaterial, FlameShader.finalColor, FlameShader.flameColor.
  cbn [mat_alpha mat_emission mat_diffuse].
  split; [|split].
  - intros Hge. rewrite (Habove Hge). unfold Glsl.mix.
    split; [ring|]. split; f_equal; try f_equal; ring.
  - exact Hbelow.
  - intros Ha.
    destruct (Rlt_dec (snd st) (FlameShader.flameHeight u_speed frame)) as [Hlt|Hge].
    + destruct (Hbelow Hlt) as [H0 H1].
      remember (FlameShader.flame u_speed frame st) as f. clear Heqf. nra.
    + rewrite (Habove ltac:(lra)). lra.
Qed.

(** The theorem at the foot of the wall. *)
Lemma flame_wall_alpha_witness :
  let material := FlameShader.czm_getMaterial (mkColor 1 0.4 0 0.9) 1 100 (0, 0) in
  let front := FlameShader.flameHeight 1 100 in
  0 <= front < 1
  /\ (front <= snd (0, 0) ->
      mat_alpha material = 0
      /\ mat_emission material = (0, 0, 0)
      /\ mat_diffuse material
         = (red (mkColor 1 0.4 0 0.9), green (mkColor 1 0.4 0 0.9),
            blue (mkColor 1 0.4 0 0.9)))
  /\ (snd (0, 0) < front -> 0 < FlameShader.flame 1 100 (0, 0) <= 1)
  /\ (0 <= alpha (mkColor 1 0.4 0 0.9) -> 0 <= mat_alpha material <= alpha (mkColor 1 0.4 0 0.9)).
Proof.
  apply (flame_wall_alpha (mkColor 1 0.4 0 0.9) 1 100 (0, 0)). cbn. lra.
Defined.

(** * The anchored pose of a created cone *)

(** ** Rotation matrices and their quaternions *)

Lemma transpose_multiply (a b : Matrix3) :
  Matrix3.transpose (Matrix3.multiply a b) = Matrix3.multiply (Matrix3.transpose b) (Matrix3.transpose a).
Proof. m3. f_equal; ring. Qed.

Lemma multiply_assoc4 (a b c d : Matrix3) :
  Matrix3.multiply (Matrix3.multiply a b) (Matrix3.multiply c d)
  = Matrix3.multiply a (Matrix3.multiply (Matrix3.multiply b c) d).
Proof. m3. f_equal; ring. Qed.

Lemma multiply_IDENTITY_l (a : Matrix3) : Matrix3.multiply Matrix3.IDENTITY a = a.
Proof. destruct a. m3. f_equal; ring. Qed.

Lemma multiply_IDENTITY_r (a : Matrix3) : Matrix3.multiply a Matrix3.IDENTITY = a.
Proof. destruct a. m3. f_equal; ring. Qed.

Lemma cofactors_multiply (a b : Matrix3) :
  cofactors (Matrix3.multiply a b) = Matrix3.multiply (cofactors a) (cofactors b).
Proof. m3. f_equal; ring. Qed.

Lemma isRotation_multiply (a b : Matrix3) :
  isRotation a -> isRotation b -> isRotation (Matrix3.multiply a b).
Proof.
  intros (A1 & A2 & A3) (B1 & B2 & B3). split; [|split].
  - rewrite transpose_multiply, multiply_assoc4, A1, multiply_IDENTITY_l. exact B1.
  - rewrite transpose_multiply, multiply_assoc4, B2, multiply_IDENTITY_l. exact A2.
  - rewrite cofactors_multiply, A3, B3. reflexivity.
Qed.

Lemma isRotation_fromQuaternion (q : Quaternion) :
  qx q * qx q + qy q * qy q + qz q * qz q + qw q * qw q = 1 ->
  isRotation (Matrix3.fromQuaternion q).
Proof.
  destruct q as [a b c d]. cbn [qx qy qz qw]. intros H.
  assert (H2 : (a * a + b * b + c * c + d * d) * (a * a + b * b + c * c + d * d) = 1)
    by (rewrite H; ring).
  unfold isRotation, Matrix3.fromQuaternion. cbn [qx qy qz qw]. m3.
  split; [|split]; f_equal;
    first [ ring
          | rewrite <- H2; ring
          | match goal with
            | |- ?l = ?r => transitivity ((a * a + b * b + c * c + d * d) * r);
                            [ring|rewrite H; ring]
            end ].
Qed.

(** East, north = up x east and up, for orthogonal unit vectors. *)
Lemma isRotation_frame (e u : Cartesian3) :
  Cartesian3.dot u u = 1 -> Cartesian3.dot e e = 1 -> Cartesian3.dot u e = 0 ->
  isRotation (mkMatrix3 (x e) (y e) (z e)
                        (x (Cartesian3.cross u e)) (y (Cartesian3.cross u e))
                        (z (Cartesian3.cross u e))
                        (x u) (y u) (z u)).
Proof.
  destruct u as [ux uy uz], e as [ex ey ez].
  unfold Cartesian3.dot, Cartesian3.cross. cbn [x y z]. intros Hu He Hue.
  pose (U := ux * ux + uy * uy + uz * uz).
  pose (E := ex * ex + ey * ey + ez * ez).
  pose (UE := ux * ex + uy * ey + uz * ez).
  assert (HU : U = 1) by exact Hu. assert (HE : E = 1) by exact He.
  assert (HUE : UE = 0) by exact Hue.
  unfold isRotation. m3.
  split; [|split]; f_equal.
  (* the columns are orthonormal *)
  1-9: try (transitivity (U * E - UE * UE); [unfold U, E, UE; ring|rewrite HU, HE, HUE; ring]).
  1-9: try (unfold U, E, UE in *; first [ring|nra]).
  (* so are the rows *)
  - transitivity (1 * (U * E - UE * UE) + (1 - U) * (ex * ex) + (1 - E) * (ux * ux)
                  + UE * (ex * ux + ex * ux));
      [unfold U, E, UE; ring|rewrite HU, HE, HUE; ring].
  - transitivity (0 * (U * E - UE * UE) + (1 - U) * (ey * ex) + (1 - E) * (uy * ux)
                  + UE * (ey * ux + ex * uy));
      [unfold U, E, UE; ring|rewrite HU, HE, HUE; ring].
  - transitivity (0 * (U * E - UE * UE) + (1 - U) * (ez * ex) + (1 - E) * (uz * ux)
                  + UE * (ez * ux + ex * uz));
      [unfold U, E, UE; ring|rewrite HU, HE, HUE; ring].
  - transitivity (0 * (U * E - UE * UE) + (1 - U) * (ex * ey) + (1 - E) * (ux * uy)
                  + UE * (ex * uy + ey * ux));
      [unfold U, E, UE; ring|rewrite HU, HE, HUE; ring].
  - transitivity (1 * (U * E - UE * UE) + (1 - U) * (ey * ey) + (1 - E) * (uy * uy)
                  + UE * (ey * uy + ey * uy));
      [unfold U, E, UE; ring|rewrite HU, HE, HUE; ring].
  - transitivity (0 * (U * E - UE * UE) + (1 - U) * (ez * ey) + (1 - E) * (uz * uy)
                  + UE * (ez * uy + ey * uz));
      [unfold U, E, UE; ring|rewrite HU, HE, HUE; ring].
  - transitivity (0 * (U * E - UE * UE) + (1 - U) * (ex * ez) + (1 - E) * (ux * uz)
                  + UE * (ex * uz + ez * ux));
      [unfold U, E, UE; ring|rewrite HU, HE, HUE; ring].
  - transitivity (0 * (U * E - UE * UE) + (1 - U) * (ey * ez) + (1 - E) * (uy * uz)
                  + UE * (ey * uz + ez * uy));
      [unfold U, E, UE; ring|rewrite HU, HE, HUE; ring].
  - transitivity (1 * (U * E - UE * UE) + (1 - U) * (ez * ez) + (1 - E) * (uz * uz)
                  + UE * (ez * uz + ez * uz));
      [unfold U, E, UE; ring|rewrite HU, HE, HUE; ring].
  (* each column is the cross product of the other two *)
  - transitivity (ex * U - ux * UE); [unfold U, UE; ring|rewrite HU, HUE; ring].
  - transitivity (ey * U - uy * UE); [unfold U, UE; ring|rewrite HU, HUE; ring].
  - transitivity (ez * U - uz * UE); [unfold U, UE; ring|rewrite HU, HUE; ring].
  - transitivity (ux * E - ex * UE); [unfold E, UE; ring|rewrite HE, HUE; ring].
  - transitivity (uy * E - ey * UE); [unfold E, UE; ring|rewrite HE, HUE; ring].
  - transitivity (uz * E - ez * UE); [unfold E, UE; ring|rewrite HE, HUE; ring].
Qed.

(** Away from the axis of the poles, up and east are orthogonal unit
    vectors. *)
Lemma up_east_orthonormal (origin : Cartesian3) :
  x origin <> 0 \/ y origin <> 0 ->
  let up := Cartesian3.normalize
              (Cartesian3.multiplyComponents origin Cartesian3.wgs84OneOverRadiiSquared) in
  let east := Cartesian3.normalize (mkCartesian3 (- y origin) (x origin) 0) in
  Cartesian3.dot up up = 1 /\ Cartesian3.dot east east = 1 /\ Cartesian3.dot up east = 0.
Proof.
  intros Hxy. cbv zeta.
  assert (Hxy2 : x origin * x origin + y origin * y origin <> 0) by (destruct Hxy; nra).
  assert (Hup : Cartesian3.magnitudeSquared
                  (Cartesian3.multiplyComponents origin Cartesian3.wgs84OneOverRadiiSquared)
                <> 0).
  { unfold Cartesian3.magnitudeSquared, Cartesian3.multiplyComponents,
      Cartesian3.wgs84OneOverRadiiSquared, Cartesian3.wgs84RadiiSquared,
      Cartesian3.multiplyComponents, Cartesian3.wgs84Radii.
    cbn [x y z].
    assert (HA : 0 < / (6378137 * 6378137)) by (apply Rinv_0_lt_compat; lra).
    remember (/ (6378137 * 6378137)) as A eqn:EA. clear EA.
    remember (/ (6356752.3142451793 * 6356752.3142451793)) as B eqn:EB. clear EB.
    assert (H1 : 0 < (x origin * A) * (x origin * A) + (y origin * A) * (y origin * A)).
    { replace ((x origin * A) * (x origin * A) + (y origin * A) * (y origin * A))
        with ((x origin * x origin + y origin * y origin) * (A * A)) by ring.
      apply Rmult_lt_0_compat; [nra|nra]. }
    nra. }
  assert (Heast : Cartesian3.magnitudeSquared (mkCartesian3 (- y origin) (x origin) 0) <> 0).
  { unfold Cartesian3.magnitudeSquared. cbn [x y z]. nra. }
  pose proof (normalize_unit _ Hup) as Hu.
  pose proof (normalize_unit _ Heast) as He.
  rewrite magnitudeSquared_dot in Hu, He.
  split; [exact Hu|]. split; [exact He|].
  pose proof (magnitude_nonzero _ Hup) as Hmu.
  pose proof (magnitude_nonzero _ Heast) as Hme.
  unfold Cartesian3.normalize, Cartesian3.dot.
  remember (Cartesian3.magnitude
              (Cartesian3.multiplyComponents origin Cartesian3.wgs84OneOverRadiiSquared))
    as mu eqn:Emu. clear Emu.
  remember (Cartesian3.magnitude (mkCartesian3 (- y origin) (x origin) 0)) as me eqn:Eme.
  clear Eme.
  unfold Cartesian3.multiplyComponents, Cartesian3.wgs84OneOverRadiiSquared,
    Cartesian3.wgs84RadiiSquared, Cartesian3.multiplyComponents, Cartesian3.wgs84Radii.
  cbn [x y z].
  remember (/ (6378137 * 6378137)) as A eqn:EA. clear EA.
  remember (/ (6356752.3142451793 * 6356752.3142451793)) as B eqn:EB. clear EB.
  field. split; assumption.
Qed.

(** The east-north-up frame is a rotation, at every origin. *)
Lemma isRotation_eastNorthUp (origin : Cartesian3) :
  isRotation (Matrix4.getMatrix3 (Transforms.eastNorthUpToFixedFrame origin)).
Proof.
  unfold Transforms.eastNorthUpToFixedFrame.
  destruct (Cartesian3.equalsEpsilon origin Cartesian3.ZERO CesiumMath.EPSILON14) eqn:H1.
  - unfold Matrix4.getMatrix3, isRotation.
    cbn [m0 m1 m2 m4 m5 m6 m8 m9 m10 x y z]. m3.
    split; [|split]; f_equal; ring.
  - destruct (CesiumMath.equalsEpsilon (x origin) 0 CesiumMath.EPSILON14) eqn:Hx;
      [destruct (CesiumMath.equalsEpsilon (y origin) 0 CesiumMath.EPSILON14) eqn:Hy|];
      cbn [andb].
    + assert (Hz : z origin <> 0).
      { apply equalsEpsilon_false_nonzero.
        unfold Cartesian3.equalsEpsilon in H1. cbn [x y z Cartesian3.ZERO] in H1.
        rewrite Hx, Hy in H1. exact H1. }
      pose proof (sign_unit (z origin) Hz) as Hs.
      remember (CesiumMath.sign (z origin)) as s eqn:Es. clear Es.
      unfold Matrix4.getMatrix3, isRotation, Cartesian3.multiplyByScalar.
      cbn [m0 m1 m2 m4 m5 m6 m8 m9 m10 x y z]. m3.
      split; [|split]; f_equal; nra.
    + apply equalsEpsilon_false_nonzero in Hy.
      unfold Ellipsoid.geodeticSurfaceNormal. rewrite H1.
      destruct (up_east_orthonormal origin (or_intror Hy)) as (Hu & He & Hue).
      exact (isRotation_frame _ _ Hu He Hue).
    + apply equalsEpsilon_false_nonzero in Hx.
      unfold Ellipsoid.geodeticSurfaceNormal. rewrite H1.
      destruct (up_east_orthonormal origin (or_introl Hx)) as (Hu & He & Hue).
      exact (isRotation_frame _ _ Hu He Hue).
Qed.

Lemma getMatrix3_multiply (a b : Matrix4) :
  m3 b = 0 -> m7 b = 0 -> m11 b = 0 ->
  Matrix4.getMatrix3 (Matrix4.multiply a b)
  = Matrix3.multiply (Matrix4.getMatrix3 a) (Matrix4.getMatrix3 b).
Proof.
  intros H3 H7 H11. unfold Matrix4.getMatrix3, Matrix4.multiply. m3.
  cbn [m0 m1 m2 m3 m4 m5 m6 m7 m8 m9 m10 m11 m12 m13 m14 m15].
  rewrite H3, H7, H11. f_equal; ring.
Qed.

Lemma getMatrix3_quaternion (q : Quaternion) :
  Matrix4.getMatrix3
    (Matrix4.fromTranslationQuaternionRotationScale Cartesian3.ZERO q (mkCartesian3 1 1 1))
  = Matrix3.fromQuaternion q.
Proof.
  unfold Matrix4.getMatrix3, Matrix4.fromTranslationQuaternionRotationScale.
  cbn [m0 m1 m2 m4 m5 m6 m8 m9 m10 x y z].
  destruct (Matrix3.fromQuaternion q). cbn [n0 n1 n2 n3 n4 n5 n6 n7 n8]. f_equal; ring.
Qed.

(** The heading/pitch/roll frame is a rotation, at every origin and for
    every heading and pitch. *)
Lemma isRotation_headingPitchRoll (origin : Cartesian3) (h p : R) :
  isRotation (Matrix4.getMatrix3
                (Transforms.headingPitchRollToFixedFrame origin (mkHPR h p 0))).
Proof.
  unfold Transforms.headingPitchRollToFixedFrame. cbv zeta.
  rewrite getMatrix3_multiply by reflexivity.
  rewrite getMatrix3_quaternion.
  apply isRotation_multiply.
  - apply isRotation_eastNorthUp.
  - apply isRotation_fromQuaternion. exact (fromHeadingPitchRoll_unit h p).
Qed.

(** The component computed first and the three computed from it. *)
Lemma pivot (P N1 N2 N3 X11 X22 X33 X12 X13 X23 : R) :
  0 < P ->
  N1 * N1 = X11 * P -> N2 * N2 = X22 * P -> N3 * N3 = X33 * P ->
  N1 * N2 = X12 * P -> N1 * N3 = X13 * P -> N2 * N3 = X23 * P ->
  4 * (0.5 * sqrt P * (0.5 * sqrt P)) = P
  /\ 4 * (0.5 * sqrt P * (N1 * (0.5 / sqrt P))) = N1
  /\ 4 * (0.5 * sqrt P * (N2 * (0.5 / sqrt P))) = N2
  /\ 4 * (0.5 * sqrt P * (N3 * (0.5 / sqrt P))) = N3
  /\ 4 * (N1 * (0.5 / sqrt P) * (N1 * (0.5 / sqrt P))) = X11
  /\ 4 * (N2 * (0.5 / sqrt P) * (N2 * (0.5 / sqrt P))) = X22
  /\ 4 * (N3 * (0.5 / sqrt P) * (N3 * (0.5 / sqrt P))) = X33
  /\ 4 * (N1 * (0.5 / sqrt P) * (N2 * (0.5 / sqrt P))) = X12
  /\ 4 * (N1 * (0.5 / sqrt P) * (N3 * (0.5 / sqrt P))) = X13
  /\ 4 * (N2 * (0.5 / sqrt P) * (N3 * (0.5 / sqrt P))) = X23.
Proof.
  intros HP H11 H22 H33 H12 H13 H23.
  assert (Hs : sqrt P * sqrt P = P) by (apply sqrt_sqrt; lra).
  assert (Hsp : 0 < sqrt P) by (apply sqrt_lt_R0; lra).
  assert (Hr : 0.5 / sqrt P * sqrt P = 0.5) by (field; lra).
  remember (sqrt P) as s eqn:Es. remember (0.5 / s) as r eqn:Er. clear Es Er.
  remember 0.5 as hf eqn:Ehf. assert (Hhf : 2 * hf = 1) by lra. clear Ehf.
  assert (Hrr : 4 * (r * r) * P = 1).
  { rewrite <- Hs. transitivity ((2 * (r * s)) * (2 * (r * s))); [ring|].
    rewrite Hr. transitivity ((2 * hf) * (2 * hf)); [ring|]. rewrite Hhf. ring. }
  assert (Hrs : 4 * (hf * s * r) = 1).
  { transitivity ((2 * hf) * (2 * (r * s))); [ring|].
    rewrite Hr, Hhf. ring. }
  assert (Hpair : forall a b c, a * b = c * P -> 4 * (a * r * (b * r)) = c).
  { intros a b c H. transitivity ((a * b) * (4 * (r * r))); [ring|].
    rewrite H. transitivity (c * (4 * (r * r) * P)); [ring|]. rewrite Hrr. ring. }
  assert (Hone : forall a, 4 * (hf * s * (a * r)) = a).
  { intros a. transitivity (a * (4 * (hf * s * r))); [ring|]. rewrite Hrs. ring. }
  split.
  { transitivity ((2 * hf) * (2 * hf) * (s * s)); [ring|]. rewrite Hhf, Hs. ring. }
  repeat split; first [apply Hone | apply Hpair; assumption].
Qed.

(** A quaternion whose products are those of a rotation matrix gives that
    matrix back. *)
Lemma fromQuaternion_products (q : Quaternion) (a0 a1 a2 a3 a4 a5 a6 a7 a8 : R) :
  4 * (qw q * qw q) = 1 + a0 + a4 + a8 ->
  4 * (qx q * qx q) = 1 + a0 - a4 - a8 ->
  4 * (qy q * qy q) = 1 - a0 + a4 - a8 ->
  4 * (qz q * qz q) = 1 - a0 - a4 + a8 ->
  4 * (qx q * qy q) = a1 + a3 ->
  4 * (qx q * qz q) = a2 + a6 ->
  4 * (qy q * qz q) = a5 + a7 ->
  4 * (qx q * qw q) = a5 - a7 ->
  4 * (qy q * qw q) = a6 - a2 ->
  4 * (qz q * qw q) = a1 - a3 ->
  Matrix3.fromQuaternion q = mkMatrix3 a0 a1 a2 a3 a4 a5 a6 a7 a8.
Proof.
  destruct q as [qa qb qc qd]. cbn [qx qy qz qw]. intros.
  unfold Matrix3.fromQuaternion. cbn [qx qy qz qw]. f_equal; lra.
Qed.

(** The engine's conversion of a rotation matrix to a quaternion loses
    nothing: the quaternion gives the matrix back, on each of its four
    branches. *)
Lemma fromQuaternion_fromRotationMatrix (m : Matrix3) :
  isRotation m -> Matrix3.fromQuaternion (Quaternion.fromRotationMatrix m) = m.
Proof.
  destruct m as [a0 a1 a2 a3 a4 a5 a6 a7 a8].
  unfold isRotation. m3. intros (H1 & H2 & H3).
  injection H1 as ? ? ? ? ? ? ? ? ?.
  injection H2 as ? ? ? ? ? ? ? ? ?.
  injection H3 as ? ? ? ? ? ? ? ? ?.
  unfold Quaternion.fromRotationMatrix. cbn [n0 n1 n2 n3 n4 n5 n6 n7 n8].
  destruct (Rlt_dec 0 (a0 + a4 + a8)) as [Ht|Ht].
  - destruct (pivot (a0 + a4 + a8 + 1) (a5 - a7) (a6 - a2) (a1 - a3)
                (1 + a0 - a4 - a8) (1 - a0 + a4 - a8) (1 - a0 - a4 + a8)
                (a1 + a3) (a2 + a6) (a5 + a7))
      as (P0 & P1 & P2 & P3 & P11 & P22 & P33 & P12 & P13 & P23); try lra.
    apply fromQuaternion_products; cbn [qx qy qz qw]; lra.
  - destruct (Rlt_dec a0 a8) as [H08|H08]; [destruct (Rlt_dec a4 a8) as [H48|H48]|].
    + (* the z component first *)
      destruct (pivot (a8 - a0 - a4 + 1) (a3 - a1) (a2 + a6) (a5 + a7)
                  (1 + a0 + a4 + a8) (1 + a0 - a4 - a8) (1 - a0 + a4 - a8)
                  (a7 - a5) (a2 - a6) (a1 + a3))
        as (P0 & P1 & P2 & P3 & P11 & P22 & P33 & P12 & P13 & P23); try lra.
      apply fromQuaternion_products; cbn [qx qy qz qw]; lra.
    + destruct (Rlt_dec a0 a4) as [H04|H04].
      * (* the y component first *)
        destruct (pivot (a4 - a8 - a0 + 1) (a2 - a6) (a7 + a5) (a1 + a3)
                    (1 + a0 + a4 + a8) (1 - a0 - a4 + a8) (1 + a0 - a4 - a8)
                    (a3 - a1) (a7 - a5) (a2 + a6))
          as (P0 & P1 & P2 & P3 & P11 & P22 & P33 & P12 & P13 & P23); try lra.
        all: apply fromQuaternion_products; cbn [qx qy qz qw]; lra.
      * (* the x component first *)
        destruct (pivot (a0 - a4 - a8 + 1) (a7 - a5) (a3 + a1) (a6 + a2)
                    (1 + a0 + a4 + a8) (1 - a0 + a4 - a8) (1 - a0 - a4 + a8)
                    (a2 - a6) (a3 - a1) (a5 + a7))
          as (P0 & P1 & P2 & P3 & P11 & P22 & P33 & P12 & P13 & P23); try lra.
        all: apply fromQuaternion_products; cbn [qx qy qz qw]; lra.
    + destruct (Rlt_dec a0 a4) as [H04|H04].
      * destruct (pivot (a4 - a8 - a0 + 1) (a2 - a6) (a7 + a5) (a1 + a3)
                    (1 + a0 + a4 + a8) (1 - a0 - a4 + a8) (1 + a0 - a4 - a8)
                    (a3 - a1) (a7 - a5) (a2 + a6))
          as (P0 & P1 & P2 & P3 & P11 & P22 & P33 & P12 & P13 & P23); try lra.
        all: apply fromQuaternion_products; cbn [qx qy qz qw]; lra.
      * destruct (pivot (a0 - a4 - a8 + 1) (a7 - a5) (a3 + a1) (a6 + a2)
                    (1 + a0 + a4 + a8) (1 - a0 + a4 - a8) (1 - a0 - a4 + a8)
                    (a2 - a6) (a3 - a1) (a5 + a7))
          as (P0 & P1 & P2 & P3 & P11 & P22 & P33 & P12 & P13 & P23); try lra.
        all: apply fromQuaternion_products; cbn [qx qy qz qw]; lra.
Qed.

(** ** The tip of a cone as drawn *)

Lemma normalize_of_unit (v : Cartesian3) :
  Cartesian3.magnitudeSquared v = 1 -> Cartesian3.normalize v = v.
Proof.
  intros H. unfold Cartesian3.normalize. rewrite (unit_magnitude v H).
  destruct v as [a b c]. cbn [x y z]. f_equal; field.
Qed.

(** The image of the local z axis under a heading/pitch/roll frame is a
    unit vector: the third column of the rotation. *)
Lemma claimedDirection_column (origin : Cartesian3) (h p : R) :
  let m := Matrix4.getMatrix3 (Transforms.headingPitchRollToFixedFrame origin (mkHPR h p 0)) in
  claimedDirection origin (mkHPR h p 0) = mkCartesian3 (n6 m) (n7 m) (n8 m).
Proof.
  cbv zeta. unfold claimedDirection.
  rewrite normalize_of_unit.
  - unfold Matrix4.multiplyByPointAsVector, Matrix4.getMatrix3, Cartesian3.UNIT_Z.
    cbn [x y z n6 n7 n8]. f_equal; ring.
  - rewrite headingPitchRollToFixedFrame_isometry.
    unfold Cartesian3.magnitudeSquared, Cartesian3.UNIT_Z. cbn [x y z]. ring.
Qed.

(** The tip of a cone as drawn, when its orientation is the
    heading/pitch/roll quaternion at [origin]: half the length from the
    position of the entity along the image of the local z axis under the
    frame at [origin]. *)
Lemma drawnTip_oriented {Mat : Type} (e : Entity Mat) (origin : Cartesian3) (h p : R) :
  ent_orientation e = Transforms.headingPitchRollQuaternion origin (mkHPR h p 0) ->
  drawnTip e
  = apex (ent_position e) (claimedDirection origin (mkHPR h p 0))
         (cyl_length (ent_cylinder e)).
Proof.
  intros Ho. unfold drawnTip. rewrite Ho.
  unfold Transforms.headingPitchRollQuaternion. cbv zeta.
  rewrite (fromQuaternion_fromRotationMatrix _ (isRotation_headingPitchRoll origin h p)).
  rewrite claimedDirection_column. cbv zeta.
  unfold multiplyByPoint, Matrix4.fromRotationTranslation, apex, Cartesian3.add,
    Cartesian3.multiplyByScalar.
  cbn [m0 m1 m2 m4 m5 m6 m8 m9 m10 m12 m13 m14 x y z]. f_equal; ring.
Qed.

(** ** Quarter turns on the meridian of longitude zero *)




(** With no pitch and no roll the symmetry axis points up, whatever the
    heading: on the equator at longitude 0 that is the x axis. *)
Lemma claimedDirection_level X h : 1 <= X ->
  claimedDirection (mkCartesian3 X 0 0) (mkHPR h 0 0) = mkCartesian3 1 0 0.
Proof.
  intros HX. unfold claimedDirection, Transforms.headingPitchRollToFixedFrame.
  rewrite eastNorthUp_meridian by exact HX.
  rewrite upAt_equator by lra.
  rewrite fromHeadingPitchRoll_noroll.
  replace (0 / 2) with 0 by lra. rewrite sin_0, cos_0.
  unfold Matrix4.multiplyByPointAsVector, Matrix4.multiply,
    Matrix4.fromTranslationQuaternionRotationScale, Matrix3.fromQuaternion.
  cbn [qx qy qz qw x y z n0 n1 n2 n3 n4 n5 n6 n7 n8 Cartesian3.ZERO Cartesian3.UNIT_Z
       m0 m1 m2 m3 m4 m5 m6 m7 m8 m9 m10 m11 m12 m13 m14 m15].
  pose proof (sin2_cos2 (h / 2)) as Hsc. unfold Rsqr in Hsc.
  remember (sin (h / 2)) as s eqn:Es. remember (cos (h / 2)) as c eqn:Ec. clear Es Ec.
  match goal with
  | |- Cartesian3.normalize (mkCartesian3 ?a ?b ?d) = _ =>
    replace a with 1 by nra; replace b with 0 by nra; replace d with 0 by nra
  end.
  apply normalize_x_pos. lra.
Qed.







(** ** What the creators return *)

Lemma conicalWave_returns engine (g : Geometry.Options) (w w' : World) (ew : RadarEntity) :
  Geometry.conicalWave engine g w = (Normal (Some (GEntity ew)), w') ->
  exists lng lat rest c,
    Geometry.positions g = lng :: lat :: rest
    /\ ew = radarCone g lng lat c (clock w).
Proof.
  unfold Geometry.conicalWave.
  crunch; intros H; try discriminate H; injection H as <- _;
    destruct (Geometry.positions g) as [|lng [|lat rest]] eqn:Hpos;
    try discriminate;
    cbn [lookup list_lookup] in *;
    repeat match goal with
           | E : Some _ = Some _ |- _ => injection E as <-
           end;
    do 4 eexists; (split; [reflexivity|]);
    unfold radarCone, heightOf; rewrite Hpos; cbn [lookup list_lookup];
    repeat match goal with
           | E : ?l !! ?n = _ |- context [?l !! ?n] => rewrite E
           end;
    reflexivity.
Qed.

Lemma createRadarCone_returns (self self' : RadarEmission.RadarEmission) (now : Z)
    (e : RadarEmission.RadarConeEntity) :
  RadarEmission.createRadarCone self now = Normal (e, self') ->
  exists lng lat rest,
    RadarEmission.position (RadarEmission.options self) = lng :: lat :: rest
    /\ e = RadarEmission.radarCone (RadarEmission.options self)
             (RadarEmission.vertexPosition lng lat)
             (RadarEmission.cylinderCenter lng lat (RadarEmission.options self))
             (RadarEmission.orientation lng lat (RadarEmission.options self)) now.
Proof.
  unfold RadarEmission.createRadarCone. cbv zeta.
  destruct (RadarEmission.position (RadarEmission.options self)) as [|lng [|lat rest]];
    cbn [lookup list_lookup]; try discriminate.
  intros H. injection H as <- _. exists lng, lat, rest. split; reflexivity.
Qed.


Lemma raisedWave_created :
  Geometry.conicalWave quietEngine raisedWave freshWorld
  = (Normal (Some (GEntity (radarCone raisedWave 0 0 (mkColor 0 1 1 1) 0))),
     afterConicalWave "wave" (radarCone raisedWave 0 0 (mkColor 0 1 1 1) 0) (mkViewer [] [])
                      freshWorld).
Proof.
  apply (conicalWave_creates quietEngine raisedWave freshWorld (mkViewer [] []) 0 0 [1000]);
    reflexivity.
Qed.

Lemma raisedRadar_created :
  RadarEmission.createRadarCone raisedRadar 0
  = Normal (RadarEmission.radarCone raisedOptions (RadarEmission.vertexPosition 0 0)
              (RadarEmission.cylinderCenter 0 0 raisedOptions)
              (RadarEmission.orientation 0 0 raisedOptions) 0,
            RadarEmission.mkRadarEmission
              [RadarEmission.radarCone raisedOptions (RadarEmission.vertexPosition 0 0)
                 (RadarEmission.cylinderCenter 0 0 raisedOptions)
                 (RadarEmission.orientation 0 0 raisedOptions) 0]
              raisedOptions
              (Some (RadarEmission.radarCone raisedOptions (RadarEmission.vertexPosition 0 0)
                       (RadarEmission.cylinderCenter 0 0 raisedOptions)
                       (RadarEmission.orientation 0 0 raisedOptions) 0))).
Proof. exact (createRadarCone_creates raisedRadar 0 0 0 [1000] eq_refl). Qed.

Lemma raised_hpr : RadarEmission.hpr raisedOptions = mkHPR (CesiumMath.toRadians 135) 0 0.
Proof.
  unfold RadarEmission.hpr, raisedOptions. cbn [RadarEmission.heading RadarEmission.pitch].
  rewrite toRadians_0. reflexivity.
Qed.

Lemma raised_center :
  RadarEmission.cylinderCenter 0 0 raisedOptions = mkCartesian3 (6378137 - 250000) 0 0.
Proof.
  unfold RadarEmission.cylinderCenter, RadarEmission.offset, RadarEmission.halfLength.
  change (RadarEmission.worldDirection 0 0 raisedOptions)
    with (claimedDirection (Cartesian3.fromDegrees 0 0 0) (RadarEmission.hpr raisedOptions)).
  unfold RadarEmission.vertexPosition.
  rewrite raised_hpr, fromDegrees_0_0.
  replace (6378137 + 0) with 6378137 by lra.
  rewrite claimedDirection_level by lra.
  unfold Cartesian3.subtract, Cartesian3.clone, Cartesian3.multiplyByScalar, raisedOptions.
  cbn [x y z RadarEmission.length]. f_equal; lra.
Qed.

Lemma distance_along_x (a b : R) : a <= b ->
  Cartesian3.distance (mkCartesian3 a 0 0) (mkCartesian3 b 0 0) = b - a.
Proof.
  intros H. unfold Cartesian3.distance, Cartesian3.magnitude, Cartesian3.magnitudeSquared,
    Cartesian3.subtract.
  cbn [x y z].
  replace ((a - b) * (a - b) + (0 - 0) * (0 - 0) + (0 - 0) * (0 - 0))
    with ((b - a) * (b - a) + 0 * 0 + 0 * 0) by ring.
  apply sqrt_sq3. lra.
Qed.

Lemma magnitude_along_x (a : R) : 0 <= a ->
  Cartesian3.magnitude (mkCartesian3 a 0 0) = a.
Proof.
  intros H. unfold Cartesian3.magnitude, Cartesian3.magnitudeSquared. cbn [x y z].
  apply sqrt_sq3. exact H.
Qed.

(** The pose [conicalWave] solves rebuilds its vertex. *)
Lemma conicalWave_rebuilds engine (g : Geometry.Options) (w w' : World) (ew : RadarEntity)
    lng lat rest :
  Geometry.conicalWave engine g w = (Normal (Some (GEntity ew)), w') ->
  Geometry.positions g = lng :: lat :: rest ->
  apex (ent_position ew)
       (claimedDirection (Cartesian3.fromDegrees lng lat (heightOf (Geometry.positions g)))
                         (Geometry.hpr g))
       (cyl_length (ent_cylinder ew))
  = Cartesian3.fromDegrees lng lat (heightOf (Geometry.positions g)).
Proof.
  intros Hw Hpos.
  destruct (conicalWave_returns _ _ _ _ _ Hw) as (lng' & lat' & rest' & c & Hpos' & ->).
  rewrite Hpos in Hpos'. injection Hpos' as <- <- <-.
  unfold radarCone. cbn [ent_position ent_cylinder cyl_length].
  apply conicalWave_apex.
Qed.

(** The pose the first [createRadarCone] solves rebuilds the point of the
    ellipsoid under the anchor. *)
Lemma createRadarCone_rebuilds (self self' : RadarEmission.RadarEmission) (now : Z)
    (e : RadarEmission.RadarConeEntity) lng lat rest :
  RadarEmission.createRadarCone self now = Normal (e, self') ->
  RadarEmission.position (RadarEmission.options self) = lng :: lat :: rest ->
  apex (ent_position e)
       (claimedDirection (Cartesian3.fromDegrees lng lat 0)
                         (RadarEmission.hpr (RadarEmission.options self)))
       (cyl_length (ent_cylinder e))
  = Cartesian3.fromDegrees lng lat 0.
Proof.
  intros H Hpos.
  destruct (createRadarCone_returns _ _ _ _ H) as (lng' & lat' & rest' & Hpos' & ->).
  rewrite Hpos in Hpos'. injection Hpos' as <- <- <-.
  cbn [RadarEmission.radarCone ent_position ent_cylinder cyl_length].
  apply createRadarCone_apex.
Qed.

(** The tip of the cone [conicalWave] draws is its anchor. *)
Lemma conicalWave_tip engine (g : Geometry.Options) (w w' : World) (ew : RadarEntity)
    lng lat rest :
  Geometry.conicalWave engine g w = (Normal (Some (GEntity ew)), w') ->
  Geometry.positions g = lng :: lat :: rest ->
  drawnTip ew = Cartesian3.fromDegrees lng lat (heightOf (Geometry.positions g)).
Proof.
  intros Hw Hpos.
  rewrite (drawnTip_oriented ew
             (Cartesian3.fromDegrees lng lat (heightOf (Geometry.positions g)))
             (CesiumMath.toRadians (Geometry.heading g))
             (CesiumMath.toRadians (Geometry.pitch g))).
  - exact (conicalWave_rebuilds _ _ _ _ _ _ _ _ Hw Hpos).
  - destruct (conicalWave_returns _ _ _ _ _ Hw) as (lng' & lat' & rest' & c & Hpos' & ->).
    rewrite Hpos in Hpos'. injection Hpos' as <- <- <-. reflexivity.
Qed.

(** The tip of the cone the first [createRadarCone] draws is the point of
    the ellipsoid under its anchor. *)
Lemma createRadarCone_tip (self self' : RadarEmission.RadarEmission) (now : Z)
    (e : RadarEmission.RadarConeEntity) lng lat rest :
  RadarEmission.createRadarCone self now = Normal (e, self') ->
  RadarEmission.position (RadarEmission.options self) = lng :: lat :: rest ->
  drawnTip e = Cartesian3.fromDegrees lng lat 0.
Proof.
  intros H Hpos.
  rewrite (drawnTip_oriented e (Cartesian3.fromDegrees lng lat 0)
             (CesiumMath.toRadians (RadarEmission.heading (RadarEmission.options self)))
             (CesiumMath.toRadians (RadarEmission.pitch (RadarEmission.options self)))).
  - exact (createRadarCone_rebuilds _ _ _ _ _ _ _ H Hpos).
  - destruct (createRadarCone_returns _ _ _ _ H) as (lng' & lat' & rest' & Hpos' & ->).
    rewrite Hpos in Hpos'. injection Hpos' as <- <- <-. reflexivity.
Qed.


(** ** C3: the root of the orientation's tangent frame *)







(** ** C1: the apex rebuilt from the pose *)

(** C1, the divergence: the apex rebuilt from the pose of a created cone.
    [D] is the normalised image of the local z axis under the
    heading/pitch/roll frame at the anchor.  For the emitter 1000 m above
    longitude 0, latitude 0 with heading 135, pitch 0 and length 500000,
    the first [createRadarCone] returns an entity whose rebuilt apex
    [center + D * (length / 2)], which is also the tip of the cone as
    drawn, is the point of the ellipsoid under the anchor, 1000 m from the
    anchor and so not within the relative tolerance 1e-6 of it;
    [conicalWave] given the same anchor, heading, pitch and length returns
    an entity whose rebuilt apex, and drawn tip, is the anchor.  In
    general, every entity [conicalWave] returns rebuilds its anchor, at the
    height given, and draws its tip there; every entity the first
    [createRadarCone] returns rebuilds the anchor lowered to height 0, and
    draws its tip there. *)
Theorem createRadarCone_apex_off_anchor :
  let anchor := Cartesian3.fromDegrees 0 0 1000 in
  (exists e self',
     RadarEmission.createRadarCone raisedRadar 0 = Normal (e, self')
     /\ apex (ent_position e) (claimedDirection anchor (RadarEmission.hpr raisedOptions))
             (cyl_length (ent_cylinder e))
        = Cartesian3.fromDegrees 0 0 0
     /\ drawnTip e = Cartesian3.fromDegrees 0 0 0
     /\ Cartesian3.distance (Cartesian3.fromDegrees 0 0 0) anchor = 1000
     /\ ~ withinTolerance (1 / 1000000)
            (apex (ent_position e) (claimedDirection anchor (RadarEmission.hpr raisedOptions))
                  (cyl_length (ent_cylinder e)))
            anchor)
  /\ (exists ew w',
        Geometry.conicalWave quietEngine raisedWave freshWorld
        = (Normal (Some (GEntity ew)), w')
        /\ apex (ent_position ew) (claimedDirection anchor (Geometry.hpr raisedWave))
                (cyl_length (ent_cylinder ew))
           = anchor
        /\ drawnTip ew = anchor)
  /\ (forall engine (g : Geometry.Options) (w w' : World) (ew : RadarEntity) lng lat rest,
        Geometry.conicalWave engine g w = (Normal (Some (GEntity ew)), w') ->
        Geometry.positions g = lng :: lat :: rest ->
        apex (ent_position ew)
             (claimedDirection
                (Cartesian3.fromDegrees lng lat (heightOf (Geometry.positions g)))
                (Geometry.hpr g))
             (cyl_length (ent_cylinder ew))
        = Cartesian3.fromDegrees lng lat (heightOf (Geometry.positions g))
        /\ drawnTip ew = Cartesian3.fromDegrees lng lat (heightOf (Geometry.positions g)))
  /\ (forall (self self' : RadarEmission.RadarEmission) (now : Z)
             (e : RadarEmission.RadarConeEntity) lng lat rest,
        RadarEmission.createRadarCone self now = Normal (e, self') ->
        RadarEmission.position (RadarEmission.options self) = lng :: lat :: rest ->
        apex (ent_position e)
             (claimedDirection (Cartesian3.fromDegrees lng lat 0)
                               (RadarEmission.hpr (RadarEmission.options self)))
             (cyl_length (ent_cylinder e))
        = Cartesian3.fromDegrees lng lat 0
        /\ drawnTip e = Cartesian3.fromDegrees lng lat 0).
Proof.
  cbv zeta.
  assert (Hapex : apex (RadarEmission.cylinderCenter 0 0 raisedOptions)
                       (mkCartesian3 1 0 0) (RadarEmission.length raisedOptions)
                  = Cartesian3.fromDegrees 0 0 0).
  { rewrite raised_center, fromDegrees_0_0.
    unfold apex, Cartesian3.add, Cartesian3.multiplyByScalar, raisedOptions.
    cbn [x y z RadarEmission.length]. f_equal; lra. }
  split; [|split; [|split]].
  - do 2 eexists. split; [exact raisedRadar_created|].
    split; [|split].
    + cbn [RadarEmission.radarCone ent_position ent_cylinder cyl_length].
      rewrite raised_hpr, fromDegrees_0_0 at 1.
      rewrite claimedDirection_level by lra. exact Hapex.
    + exact (createRadarCone_tip _ _ _ _ 0 0 [1000] raisedRadar_created eq_refl).
    + cbn [RadarEmission.radarCone ent_position ent_cylinder cyl_length].
      rewrite raised_hpr. rewrite (fromDegrees_0_0 1000) at 1 2.
      rewrite claimedDirection_level by lra. rewrite Hapex.
      rewrite !fromDegrees_0_0.
      rewrite distance_along_x by lra.
      split; [lra|].
      unfold withinTolerance. rewrite distance_along_x by lra.
      rewrite magnitude_along_x by lra. lra.
  - do 2 eexists. split; [exact raisedWave_created|].
    split.
    + exact (conicalWave_rebuilds _ _ _ _ _ 0 0 [1000] raisedWave_created eq_refl).
    + exact (conicalWave_tip _ _ _ _ _ 0 0 [1000] raisedWave_created eq_refl).
  - intros engine g w w' ew lng lat rest Hw Hpos. split.
    + exact (conicalWave_rebuilds _ _ _ _ _ _ _ _ Hw Hpos).
    + exact (conicalWave_tip _ _ _ _ _ _ _ _ Hw Hpos).
  - intros self self' now e lng lat rest H Hpos. split.
    + exact (createRadarCone_rebuilds _ _ _ _ _ _ _ H Hpos).
    + exact (createRadarCone_tip _ _ _ _ _ _ _ H Hpos).
Qed.

(** ** C9: the height of the anchor *)








(** ** Positions that make a cone *)

(** X13: which positions make a cone.  [conicalEffect] given fewer than
    three numbers, or no positions, returns [null], reports on the console
    and changes nothing else, in any world with a map and a free identifier
    and whatever the engine does.  [conicalWave] given longitude and
    latitude only does, in any world and whatever the engine does, exactly
    what it does given the height 0 as well; when it finds a map and a free
    identifier, the engine parses the colour and [entities.add] does not
    fault, it returns a cone, registered under the identifier, whose
    orientation is taken at the point of the ellipsoid at that longitude and
    latitude and whose tip is drawn at that point. *)
Theorem cone_position_arity (engine : Engine) (w : World) :
  (forall (cone : Fence.ConeOptions) (v : Viewer),
      viewer w = Some v ->
      graphicMap w !! Fence.cone_id cone = None ->
      match Fence.cone_positions cone with
      | Some positions => (List.length positions < 3)%nat
      | None => True
      end ->
      Fence.conicalEffect engine cone w
      = (Normal None, set_console (console w ++ [ErrConeNeedsPosition]) w))
  /\ (forall (wave : Geometry.Options) (lng lat : R),
        Geometry.positions wave = [lng; lat] ->
        Geometry.conicalWave engine wave w
        = Geometry.conicalWave engine (withPositions [lng; lat; 0] wave) w
        /\ forall (v : Viewer) (c : Color),
             viewer w = Some v ->
             graphicMap w !! Geometry.id wave = None ->
             fromCssColorString engine (or_string (Geometry.color wave) "#00FFFF") = Some c ->
             (forall e, fault engine (EntitiesAdd e) = None) ->
             exists e w',
               Geometry.conicalWave engine wave w = (Normal (Some (GEntity e)), w')
               /\ graphicMap w' !! Geometry.id wave = Some (GEntity e)
               /\ ent_orientation e
                  = Transforms.headingPitchRollQuaternion
                      (Cartesian3.fromDegrees lng lat 0) (Geometry.hpr wave)
               /\ drawnTip e = Cartesian3.fromDegrees lng lat 0
               /\ onEllipsoid (Cartesian3.fromDegrees lng lat 0)).
Proof.
  split.
  - intros cone v Hv Hc Hlen.
    unfold Fence.conicalEffect. run_step. rewrite Hv, Hc. run_step.
    destruct (Fence.cone_positions cone) as [[|a [|b [|d rest]]]|];
      cbn [List.length] in Hlen; try lia; reflexivity.
  - intros wave lng lat Hpos. split.
    + unfold Geometry.conicalWave, withPositions.
      cbn [Geometry.id Geometry.positions Geometry.color Geometry.thickness
           Geometry.length Geometry.bottomRadius].
      rewrite Hpos. reflexivity.
    + intros v c Hv Hw Hcol Hf.
      pose proof (conicalWave_creates engine wave w v lng lat [] c Hv Hw Hpos Hcol Hf)
        as Hrun.
      pose proof (conicalWave_tip _ _ _ _ _ _ _ _ Hrun Hpos) as Htip.
      unfold heightOf in Htip. rewrite Hpos in Htip. cbn [lookup list_lookup] in Htip.
      do 2 eexists. split; [exact Hrun|].
      split; [unfold afterConicalWave; cbn [graphicMap]; apply lookup_insert_eq|].
      split; [|split; [exact Htip|apply fromDegrees_surface]].
      unfold radarCone, heightOf. rewrite Hpos.
      cbn [lookup list_lookup ent_orientation]. reflexivity.
Qed.

(** The theorem in the empty world: the cone effect given two numbers is
    refused under an engine whose scene is destroyed, and the radar cone
    given longitude 0 and latitude 0 is created under the quiet engine. *)
Lemma cone_position_arity_witness :
  Fence.conicalEffect destroyedScene shortCone freshWorld
  = (Normal None, set_console (console freshWorld ++ [ErrConeNeedsPosition]) freshWorld)
  /\ Geometry.conicalWave quietEngine shortWave freshWorld
     = Geometry.conicalWave quietEngine (withPositions [0; 0; 0] shortWave) freshWorld
  /\ exists e w',
       Geometry.conicalWave quietEngine shortWave freshWorld = (Normal (Some (GEntity e)), w')
       /\ graphicMap w' !! Geometry.id shortWave = Some (GEntity e)
       /\ ent_orientation e
          = Transforms.headingPitchRollQuaternion
              (Cartesian3.fromDegrees 0 0 0) (Geometry.hpr shortWave)
       /\ drawnTip e = Cartesian3.fromDegrees 0 0 0
       /\ onEllipsoid (Cartesian3.fromDegrees 0 0 0).
Proof.
  split; [|split].
  - apply (cone_position_arity destroyedScene freshWorld) with (v := mkViewer [] []);
      try reflexivity.
    cbn. lia.
  - apply (cone_position_arity quietEngine freshWorld). reflexivity.
  - destruct (cone_position_arity quietEngine freshWorld) as [_ Hwave].
    destruct (Hwave shortWave 0 0 eq_refl) as [_ Hcreates].
    apply (Hcreates (mkViewer [] []) (mkColor 0 1 1 1)); reflexivity.
Defined.
